(** * FlyPath Arbitrage: the aggregation pipeline and the cost estimator

    A shallow embedding of [flight_scanner.py] (class [FlightScanner]) and of
    the cost simulation at the end of [main.py].

    Conventions of the embedding.
    - A Python call either returns a value or raises; calls that also write
      to the console carry the lines they printed.  Both effects live in the
      monad [M] below (a writer over an error monad).
    - Python floats are idealised as exact rationals ([Q]), each operation
      of the source being the same operation on rationals: rounding is not
      modelled.  Python ints are [Z].  True division raises
      [ZeroDivisionError] on a zero divisor, as in Python.
    - A decoded JSON document (the seat-map response) is a [value]; flight
      offers, whose shape the pipeline takes for granted, are records.
    - A Python [dict] is an association list in insertion order. *)

From Stdlib Require Import List String Ascii Bool ZArith QArith Lia Lqa.
From Stdlib Require Import Permutation Sorted DecimalString.
Import ListNotations.

Set Warnings "-register-all".

Local Open Scope string_scope.
Local Open Scope Z_scope.

(** ** Python outcomes *)

Module Py.

Inductive exn : Type :=
| TypeError
| IndexError
| KeyError
| AttributeError
| ValueError
| ZeroDivisionError
| StatisticsError.

Inductive result (A : Type) : Type :=
| Ok (a : A)
| Raise (e : exn).
Arguments Ok {A} a.
Arguments Raise {A} e.

(** Lines printed so far, and how the call ended. *)
Definition M (A : Type) : Type := (list string * result A)%type.

Definition ret {A} (a : A) : M A := ([], Ok a).

Definition print (line : string) : M unit := ([line], Ok tt).

Definition bind {A B} (m : M A) (k : A -> M B) : M B :=
  match m with
  | (out, Ok a) => let (out', r) := k a in ((out ++ out')%list, r)
  | (out, Raise e) => (out, Raise e)
  end.

Definition lift {A} (r : result A) : M A := ([], r).

(** The same sequencing for calls that print nothing. *)
Definition rbind {A B} (r : result A) (k : A -> result B) : result B :=
  match r with
  | Ok a => k a
  | Raise e => Raise e
  end.

Fixpoint rfor_each {A S} (xs : list A) (body : S -> A -> result S) (acc : S)
  : result S :=
  match xs with
  | [] => Ok acc
  | x :: rest => rbind (body acc x) (rfor_each rest body)
  end.

(** [[f(x) for x in xs]] *)
Fixpoint rmap {A B} (f : A -> result B) (xs : list A) : result (list B) :=
  match xs with
  | [] => Ok []
  | x :: rest =>
      rbind (f x) (fun y => rbind (rmap f rest) (fun ys => Ok (y :: ys)))
  end.

(** [x / y] on floats (and on a float and an int) *)
Definition truediv (x y : Q) : result Q :=
  if Qeq_bool y 0 then Raise ZeroDivisionError else Ok (x / y)%Q.

(** [for x in xs: acc = body(acc, x)] *)
Fixpoint for_each {A S} (xs : list A) (body : S -> A -> M S) (acc : S) : M S :=
  match xs with
  | [] => ret acc
  | x :: rest => bind (body acc x) (for_each rest body)
  end.

End Py.

Import Py.

Declare Scope py_scope.
Delimit Scope py_scope with py.
Notation "'let*' x := m 'in' k" := (bind m (fun x => k))
  (at level 10, x name, m at level 100, k at level 200) : py_scope.
Notation "'let?' x := r 'in' k" := (rbind r (fun x => k))
  (at level 10, x name, r at level 100, k at level 200) : py_scope.
Local Open Scope py_scope.

(** ** Decoded JSON documents *)

Module Json.

Inductive value : Type :=
| VNone
| VBool (b : bool)
| VInt (n : Z)
| VFloat (x : Q)
| VStr (s : string)
| VList (items : list value)
| VDict (fields : list (string * value)).

(** [bool(v)] *)
Definition truthy (v : value) : bool :=
  match v with
  | VNone => false
  | VBool b => b
  | VInt n => negb (n =? 0)
  | VFloat x => negb (Qeq_bool x 0)
  | VStr s => negb (s =? "")%string
  | VList items => match items with [] => false | _ => true end
  | VDict fields => match fields with [] => false | _ => true end
  end.

(** [isinstance(v, dict)] *)
Definition is_dict (v : value) : bool :=
  match v with VDict _ => true | _ => false end.

Fixpoint lookup (key : string) (fields : list (string * value)) : option value :=
  match fields with
  | [] => None
  | (k, v) :: rest => if (k =? key)%string then Some v else lookup key rest
  end.

(** [key in v], for the values on which the program evaluates it (dicts). *)
Definition has_key (key : string) (v : value) : bool :=
  match v with
  | VDict fields => match lookup key fields with Some _ => true | None => false end
  | _ => false
  end.

(** [v[key]] for a string key *)
Definition subscript (v : value) (key : string) : result value :=
  match v with
  | VDict fields =>
      match lookup key fields with Some x => Ok x | None => Raise KeyError end
  | _ => Raise TypeError
  end.

Definition first_char (s : string) : option string :=
  match s with
  | EmptyString => None
  | String c _ => Some (String c EmptyString)
  end.

(** [v[0]] *)
Definition subscript0 (v : value) : result value :=
  match v with
  | VList (x :: _) => Ok x
  | VList [] => Raise IndexError
  | VStr s => match first_char s with Some c => Ok (VStr c) | None => Raise IndexError end
  | VDict _ => Raise KeyError
  | _ => Raise TypeError
  end.

(** [v.get(key, default)]: only mappings have the method. *)
Definition get (v : value) (key : string) (default : value) : result value :=
  match v with
  | VDict fields =>
      Ok (match lookup key fields with Some x => x | None => default end)
  | _ => Raise AttributeError
  end.

Fixpoint chars (s : string) : list value :=
  match s with
  | EmptyString => []
  | String c rest => VStr (String c EmptyString) :: chars rest
  end.

(** The items a [for] loop over [v] visits. *)
Definition iter (v : value) : result (list value) :=
  match v with
  | VList items => Ok items
  | VStr s => Ok (chars s)
  | VDict fields => Ok (map (fun kv => VStr (fst kv)) fields)
  | _ => Raise TypeError
  end.

(** [v == s] for a string literal [s] *)
Definition eq_str (v : value) (s : string) : bool :=
  match v with VStr t => (t =? s)%string | _ => false end.

End Json.

Import Json.

(** ** Seat maps *)

Definition unexpected_seatmap : string :=
  "Unexpected seat map data structure or empty data.".

(** [count_seats], lines 400-415.  The loop state is the pair
    [(available_seats, total_seats)]. *)
Definition count_pricing (st : Z * Z) (pricing : value) : M (Z * Z) :=
  let* status := lift (get pricing "seatAvailabilityStatus" VNone) in
  ret (if eq_str status "AVAILABLE" then (fst st + 1, snd st) else st).

Definition count_seat (st : Z * Z) (seat : value) : M (Z * Z) :=
  let st := (fst st, snd st + 1) in
  let* pricings := lift (get seat "travelerPricing" (VList [])) in
  let* pricings := lift (iter pricings) in
  for_each pricings count_pricing st.

Definition count_deck (st : Z * Z) (deck : value) : M (Z * Z) :=
  let* seats := lift (get deck "seats" (VList [])) in
  let* seats := lift (iter seats) in
  for_each seats count_seat st.

Definition count_seats (seatmap_data : value) : M (Z * Z) :=
  if truthy seatmap_data && is_dict seatmap_data && has_key "data" seatmap_data
  then
    let* data := lift (subscript seatmap_data "data") in
    let* seatmap := lift (subscript0 data) in
    let* decks := lift (get seatmap "decks" (VList [])) in
    let* decks := lift (iter decks) in
    for_each decks count_deck (0, 0)
  else
    let* _ := print unexpected_seatmap in
    ret (0, 0).


(** The seat map as the seat-map service documents it: the shape
    [data[0].decks[...].seats[...].travelerPricing[...]]. *)
Module SeatMap.

Inductive status : Type := AVAILABLE | BLOCKED | OCCUPIED.

Record seat : Type := { travelerPricing : list status }.
Record deck : Type := { seats : list seat }.
Record seatmap : Type := { decks : list deck }.

(** [data] holds one seat map per flight segment; the program reads the
    first. *)
Record response : Type := { first : seatmap; others : list seatmap }.

Definition status_name (s : status) : string :=
  match s with
  | AVAILABLE => "AVAILABLE"
  | BLOCKED => "BLOCKED"
  | OCCUPIED => "OCCUPIED"
  end.

Definition is_available (s : status) : bool :=
  match s with AVAILABLE => true | _ => false end.

Definition encode_pricing (s : status) : value :=
  VDict [("seatAvailabilityStatus", VStr (status_name s))].

Definition encode_seat (s : seat) : value :=
  VDict [("travelerPricing", VList (map encode_pricing (travelerPricing s)))].

Definition encode_deck (d : deck) : value :=
  VDict [("seats", VList (map encode_seat (seats d)))].

Definition encode_seatmap (m : seatmap) : value :=
  VDict [("decks", VList (map encode_deck (decks m)))].

Definition encode (r : response) : value :=
  VDict [("data", VList (map encode_seatmap (first r :: others r)))].

Definition all_seats (m : seatmap) : list seat := flat_map seats (decks m).

(** Seat entries across all decks. *)
Definition seat_count (m : seatmap) : Z := Z.of_nat (List.length (all_seats m)).

(** Traveler-pricing entries marked AVAILABLE, over all seats. *)
Definition available_entries (m : seatmap) : Z :=
  Z.of_nat (List.length (filter is_available (flat_map travelerPricing (all_seats m)))).

(** Seat entries with at least one traveler-pricing entry marked
    AVAILABLE. *)
Definition available_seats (m : seatmap) : Z :=
  Z.of_nat (List.length (filter (fun s => existsb is_available (travelerPricing s))
                           (all_seats m))).

(** No seat carries more than one AVAILABLE entry (one traveler per
    search, as [search_flights] asks with [adults=1]). *)
Definition single_priced (m : seatmap) : Prop :=
  Forall (fun s => (List.length (filter is_available (travelerPricing s)) <= 1)%nat)
         (all_seats m).

Definition free_seat : seat := {| travelerPricing := [AVAILABLE] |}.
Definition taken_seat : seat := {| travelerPricing := [OCCUPIED] |}.

(** Three decks of ten seats, fifteen of them available. *)
Definition three_decks : response :=
  {| first := {| decks :=
                   [ {| seats := repeat free_seat 10 |};
                     {| seats := repeat free_seat 5 ++ repeat taken_seat 5 |};
                     {| seats := repeat taken_seat 10 |} ] |};
     others := [] |}.

(** One seat priced for two travelers, both entries AVAILABLE. *)
Definition two_travelers : response :=
  {| first := {| decks := [ {| seats := [ {| travelerPricing := [AVAILABLE; AVAILABLE] |} ] |} ] |};
     others := [] |}.

End SeatMap.

(** ** Dictionaries *)

Module Dict.

Definition dict (V : Type) : Type := list (string * V).

Fixpoint dict_get {V} (key : string) (d : dict V) : option V :=
  match d with
  | [] => None
  | (k, v) :: rest => if (k =? key)%string then Some v else dict_get key rest
  end.

(** [d[key] = v]: an existing key keeps its place, a new one goes last. *)
Fixpoint dict_set {V} (key : string) (v : V) (d : dict V) : dict V :=
  match d with
  | [] => [(key, v)]
  | (k, w) :: rest =>
      if (k =? key)%string then (k, v) :: rest else (k, w) :: dict_set key v rest
  end.

(** [key in d] *)
Definition dict_mem {V} (key : string) (d : dict V) : bool :=
  match dict_get key d with Some _ => true | None => false end.

(** [d[key]] *)
Definition dict_item {V} (key : string) (d : dict V) : result V :=
  match dict_get key d with Some v => Ok v | None => Raise KeyError end.

Definition keys {V} (d : dict V) : list string := map fst d.

End Dict.

Import Dict.

(** ** Flight offers *)

Record Endpoint : Type := { iataCode : string; at_ : string }.

Record Segment : Type :=
  { departure : Endpoint;
    arrival : Endpoint;
    carrierCode : string;
    numberOfStops : Z;
    id : string }.

Record Itinerary : Type := { duration : string; segments : list Segment }.

(** [total] and [grandTotal] hold the numbers [float(...)] reads from the
    two numeric strings. *)
Record Price : Type := { total : Q; grandTotal : Q; currency : string }.

Record FareDetail : Type := { segmentId : string; cabin : string }.

Record TravelerPricing : Type :=
  { traveler_price : Price; fareDetailsBySegment : list FareDetail }.

Record Flight : Type :=
  { validatingAirlineCodes : list string;
    price : Price;
    itineraries : list Itinerary;
    numberOfBookableSeats : Z;
    travelerPricings : list TravelerPricing }.

(** ** Durations *)

Definition is_digit (c : ascii) : bool :=
  let n := nat_of_ascii c in (48 <=? n)%nat && (n <=? 57)%nat.

Definition digit_value (c : ascii) : Z := Z.of_nat (nat_of_ascii c) - 48.

(** The longest run of digits at the head of [s], read as a decimal number
    on top of [acc], with the number of digits and the rest of [s]. *)
Fixpoint span_digits (s : string) (acc : Z) (seen : nat) : Z * nat * string :=
  match s with
  | String c rest =>
      if is_digit c then span_digits rest (10 * acc + digit_value c) (S seen)
      else (acc, seen, s)
  | EmptyString => (acc, seen, s)
  end.

(** One optional group [(\d+U)?] of the pattern: its number and what
    follows it, or nothing when the group does not match at the head. *)
Definition match_unit (unit : ascii) (s : string) : option (Z * string) :=
  match span_digits s 0 0 with
  | (_, O, _) => None
  | (n, _, String c rest) => if Ascii.eqb c unit then Some (n, rest) else None
  | (_, _, EmptyString) => None
  end.

Definition strip_PT (s : string) : option string :=
  match s with
  | String "P" (String "T" rest) => Some rest
  | _ => None
  end.

(** [_get_duration], lines 526-536: [re.match(r'PT(\d+H)?(\d+M)?', s)],
    whose result is [None] (so that [.group] fails) when [s] does not start
    with [PT]. *)
Definition _get_duration (duration_str : string) : result Z :=
  match strip_PT duration_str with
  | None => Raise AttributeError
  | Some rest =>
      let (hours, rest) :=
        match match_unit "H" rest with
        | Some (h, rest') => (h, rest')
        | None => (0, rest)
        end in
      let minutes :=
        match match_unit "M" rest with
        | Some (m, _) => m
        | None => 0
        end in
      Ok (hours * 60 + minutes)
  end.

(** ** Filtering *)

(** Truth value of an optional numeric argument: [None] and [0] are
    false. *)
Definition active_limit (arg : option Z) : option Z :=
  match arg with
  | Some n => if n =? 0 then None else Some n
  | None => None
  end.

(** Truth value of an optional list argument: [None] and [[]] are false. *)
Definition active_list {A} (arg : option (list A)) : option (list A) :=
  match arg with
  | Some (x :: xs) => Some (x :: xs)
  | _ => None
  end.

(** Truth value of an optional string argument: [None] and [''] are
    false. *)
Definition active_string (arg : option string) : option string :=
  match arg with
  | Some s => if (s =? "")%string then None else Some s
  | None => None
  end.

(** [xs[0]] *)
Definition item0 {A} (xs : list A) : result A :=
  match xs with
  | x :: _ => Ok x
  | [] => Raise IndexError
  end.

(** [x in xs] for strings *)
Definition str_in (x : string) (xs : list string) : bool :=
  existsb (String.eqb x) xs.

(** [all(detail['cabin'] != cabin_class for detail in ...)] *)
Definition no_cabin (cabin_class : string) (traveler : TravelerPricing) : bool :=
  forallb (fun detail => negb (cabin detail =? cabin_class)%string)
          (fareDetailsBySegment traveler).

(** The body of the loop over itineraries, lines 439-448; the state is
    [add_flight]. *)
Definition check_itinerary (flight : Flight)
    (max_duration max_stops : option Z) (airlines : option (list string))
    (cabin_class : option string) (add_flight : bool) (itinerary : Itinerary)
  : result bool :=
  let? add_flight :=
    match active_limit max_duration with
    | Some limit =>
        let? minutes := _get_duration (duration itinerary) in
        Ok (if minutes >? limit then false else add_flight)
    | None => Ok add_flight
    end in
  let add_flight :=
    match active_limit max_stops with
    | Some limit =>
        if existsb (fun segment => numberOfStops segment >? limit)
                   (segments itinerary)
        then false else add_flight
    | None => add_flight
    end in
  let? add_flight :=
    match active_list airlines with
    | Some allowed =>
        let? code := item0 (validatingAirlineCodes flight) in
        Ok (if negb (str_in code allowed) then false else add_flight)
    | None => Ok add_flight
    end in
  let add_flight :=
    match active_string cabin_class with
    | Some wanted =>
        fold_left (fun add_flight traveler =>
                     if no_cabin wanted traveler then false else add_flight)
                  (travelerPricings flight) add_flight
    | None => add_flight
    end in
  Ok add_flight.

(** [filter_flights], lines 434-451. *)
Definition filter_flights (flights : list Flight)
    (max_duration max_stops : option Z) (airlines : option (list string))
    (cabin_class : option string) : result (list Flight) :=
  rfor_each flights
    (fun filtered_flights flight =>
       let? add_flight :=
         rfor_each (itineraries flight)
           (check_itinerary flight max_duration max_stops airlines cabin_class)
           true in
       Ok (if add_flight then filtered_flights ++ [flight] else filtered_flights)%list)
    [].

(** Order-preserving subsequence. *)
Inductive subseq {A : Type} : list A -> list A -> Prop :=
| subseq_nil : subseq [] []
| subseq_keep x xs ys : subseq xs ys -> subseq (x :: xs) (x :: ys)
| subseq_drop y xs ys : subseq xs ys -> subseq xs (y :: ys).

(** An offer every criterion can be evaluated on. *)
Definition well_formed (flight : Flight) : Prop :=
  validatingAirlineCodes flight <> [] /\
  Forall (fun itinerary => strip_PT (duration itinerary) <> None)
         (itineraries flight).

(** ** Price statistics by airline *)

(** [sorted(data)] on numbers: a stable insertion sort. *)
Fixpoint insert_sorted (x : Q) (xs : list Q) : list Q :=
  match xs with
  | [] => [x]
  | y :: rest => if Qle_bool x y then x :: y :: rest else y :: insert_sorted x rest
  end.

Fixpoint sorted (data : list Q) : list Q :=
  match data with
  | [] => []
  | x :: rest => insert_sorted x (sorted rest)
  end.

(** [sum(values)], left to right from zero. *)
Definition fsum (values : list Q) : Q := fold_left Qplus values 0%Q.

(** [np.mean(prices)] on a non-empty list. *)
Definition np_mean (prices : list Q) : Q :=
  (fsum prices / inject_Z (Z.of_nat (List.length prices)))%Q.

(** [statistics.median(data)] *)
Definition median (data : list Q) : result Q :=
  let data := sorted data in
  let n := List.length data in
  match n with
  | O => Raise StatisticsError
  | _ =>
      if Nat.odd n then Ok (nth (n / 2) data 0%Q)
      else
        let i := (n / 2)%nat in
        Ok ((nth (i - 1) data 0 + nth i data 0) / 2)%Q
  end.

Record Stats : Type := { mean : Q; median_ : Q }.

(** [calculate_statistics], lines 195-221. *)
Definition calculate_statistics (flights : list Flight) : result (dict Stats) :=
  let? airline_prices :=
    rfor_each flights
      (fun (airline_prices : dict (list Q)) flight =>
         let? airline_code := item0 (validatingAirlineCodes flight) in
         let price := total (price flight) in
         Ok (match dict_get airline_code airline_prices with
             | Some prices => dict_set airline_code (prices ++ [price])%list airline_prices
             | None => dict_set airline_code [price] airline_prices
             end))
      [] in
  rmap (fun entry : string * list Q =>
          let (airline_code, prices) := entry in
          let? m := median prices in
          Ok (airline_code, {| mean := np_mean prices; median_ := m |}))
       airline_prices.

(** The [price.total] values of the offers validated by [airline], in the
    order of the offers. *)
Definition validated_by (airline : string) (flight : Flight) : bool :=
  match validatingAirlineCodes flight with
  | code :: _ => (code =? airline)%string
  | [] => false
  end.

Definition group_prices (airline : string) (flights : list Flight) : list Q :=
  map (fun flight => total (price flight)) (filter (validated_by airline) flights).

(** Arithmetic mean: the sum of the values over their number. *)
Fixpoint total_of (values : list Q) : Q :=
  match values with
  | [] => 0%Q
  | x :: rest => (x + total_of rest)%Q
  end.

Definition arithmetic_mean (values : list Q) : Q :=
  (total_of values / inject_Z (Z.of_nat (List.length values)))%Q.

(** Statistical median: the middle value of the values in ascending order,
    the average of the two middle values when their number is even. *)
Definition is_median (values : list Q) (m : Q) : Prop :=
  exists ascending : list Q,
    Permutation ascending values /\
    Sorted Qle ascending /\
    let n := List.length values in
    if Nat.even n
    then m = ((nth (n / 2 - 1) ascending 0 + nth (n / 2) ascending 0) / 2)%Q
    else m = nth (n / 2) ascending 0%Q.

(** ** Average price by weekday *)

Section Weekday.

(** [_get_weekday], lines 423-431: the day name the [datetime] library
    gives for an ISO timestamp, or the error it raises. *)
Variable _get_weekday : string -> result string.

(** Lines 466-474; the state is [(prices_by_day, count_by_day)]. *)
Definition add_segment (flight : Flight) (st : dict Q * dict Z) (segment : Segment)
  : result (dict Q * dict Z) :=
  let (prices_by_day, count_by_day) := st in
  let? departure_day := _get_weekday (at_ (departure segment)) in
  let price := grandTotal (price flight) in
  let (prices_by_day, count_by_day) :=
    if negb (dict_mem departure_day prices_by_day)
    then (dict_set departure_day 0%Q prices_by_day,
          dict_set departure_day 0 count_by_day)
    else (prices_by_day, count_by_day) in
  let? sum := dict_item departure_day prices_by_day in
  let prices_by_day := dict_set departure_day (sum + price)%Q prices_by_day in
  let? count := dict_item departure_day count_by_day in
  let count_by_day := dict_set departure_day (count + 1) count_by_day in
  Ok (prices_by_day, count_by_day).

(** Lines 477-478: [prices_by_day[day] /= count_by_day[day]] for every
    key. *)
Definition average_days (prices_by_day : dict Q) (count_by_day : dict Z)
  : result (dict Q) :=
  rfor_each (keys prices_by_day)
    (fun prices_by_day day =>
       let? sum := dict_item day prices_by_day in
       let? count := dict_item day count_by_day in
       let? average := truediv sum (inject_Z count) in
       Ok (dict_set day average prices_by_day))
    prices_by_day.

(** [analyze_prices_by_weekday], lines 453-480. *)
Definition analyze_prices_by_weekday (flights : list Flight) : result (dict Q) :=
  let? st :=
    rfor_each flights
      (fun st flight =>
         rfor_each (itineraries flight)
           (fun st itinerary => rfor_each (segments itinerary) (add_segment flight) st)
           st)
      ([], []) in
  average_days (fst st) (snd st).

(** The prices that reach the bucket of [day]: the offer's [grandTotal],
    once for each of its segments that departs on [day]. *)
Definition departs_on (day : string) (segment : Segment) : bool :=
  match _get_weekday (at_ (departure segment)) with
  | Ok d => (d =? day)%string
  | Raise _ => false
  end.

Definition offer_segments (flight : Flight) : list Segment :=
  flat_map segments (itineraries flight).

Definition bucket (day : string) (flights : list Flight) : list Q :=
  flat_map (fun flight =>
              map (fun _ => grandTotal (price flight))
                  (filter (departs_on day) (offer_segments flight)))
           flights.

Definition datable (flight : Flight) : Prop :=
  Forall (fun segment => exists day, _get_weekday (at_ (departure segment)) = Ok day)
         (offer_segments flight).

End Weekday.

(** A calendar for running the weekday analysis on examples: the day name
    of a timestamp that starts with [YYYY-MM-DD]. *)
Module Calendar.

Definition two_digits (a b : ascii) : option Z :=
  if is_digit a && is_digit b then Some (10 * digit_value a + digit_value b)
  else None.

Definition parse_date (s : string) : option (Z * Z * Z) :=
  match s with
  | String y1 (String y2 (String y3 (String y4 (String "-"
      (String m1 (String m2 (String "-" (String d1 (String d2 _))))))))) =>
      match two_digits y1 y2, two_digits y3 y4, two_digits m1 m2, two_digits d1 d2 with
      | Some hi, Some lo, Some m, Some d => Some (100 * hi + lo, m, d)
      | _, _, _, _ => None
      end
  | _ => None
  end.

Definition leap (y : Z) : bool :=
  ((y mod 4 =? 0) && negb (y mod 100 =? 0)) || (y mod 400 =? 0).

Definition days_in_month (y m : Z) : Z :=
  if m =? 2 then (if leap y then 29 else 28)
  else if (m =? 4) || (m =? 6) || (m =? 9) || (m =? 11) then 30
  else 31.

Definition month_offset (m : Z) : Z :=
  nth (Z.to_nat (m - 1)) [0; 3; 2; 5; 0; 3; 5; 1; 4; 6; 2; 4] 0.

Definition day_names : list string :=
  ["Sunday"; "Monday"; "Tuesday"; "Wednesday"; "Thursday"; "Friday"; "Saturday"].

Definition weekday (date_str : string) : result string :=
  match parse_date date_str with
  | Some (y, m, d) =>
      if (1 <=? y) && (1 <=? m) && (m <=? 12) && (1 <=? d) && (d <=? days_in_month y m)
      then
        let y' := if m <? 3 then y - 1 else y in
        let w := (y' + y' / 4 - y' / 100 + y' / 400 + month_offset m + d) mod 7 in
        Ok (nth (Z.to_nat w) day_names "")
      else Raise ValueError
  | None => Raise ValueError
  end.

End Calendar.

(** ** Cost estimator *)

Record CostEstimate : Type :=
  { total_cost : Q;
    cost_per_passenger : Q;
    flight_duration_hours : Q;
    total_fuel_needed : Q }.

Definition distance_unavailable : string :=
  "Impossible de calculer la distance, coordonnées manquantes.".

Definition coordinates_not_found (iata_code : string) : string :=
  "Coordonnées non trouvées pour l'aéroport avec le code IATA " ++ iata_code ++ ".".

Section Estimator.

(** The geocoding service: the decoded JSON answer to the query for an
    IATA code. *)
Variable geocode : string -> value.

(** [geodesic(a, b).km] of the distance library. *)
Variable geodesic_km : value * value -> value * value -> result Q.

(** The text [print] shows for an estimate. *)
Variable show_estimate : CostEstimate -> string.

(** [get_airport_coordinates], lines 623-634. *)
Definition get_airport_coordinates (iata_code : string) : M (option (value * value)) :=
  let data := geocode iata_code in
  let* results := lift (subscript data "results") in
  if truthy results then
    let* place := lift (subscript0 results) in
    let* geometry := lift (subscript place "geometry") in
    let* latitude := lift (subscript geometry "lat") in
    let* longitude := lift (subscript geometry "lng") in
    ret (Some (latitude, longitude))
  else
    let* _ := print (coordinates_not_found iata_code) in
    ret None.

(** [calculate_distance], lines 572-580. *)
Definition calculate_distance (departure_airport arrival_airport : string)
  : M (option Q) :=
  let* departure_coords := get_airport_coordinates departure_airport in
  let* arrival_coords := get_airport_coordinates arrival_airport in
  match departure_coords, arrival_coords with
  | Some a, Some b =>
      let* km := lift (geodesic_km a b) in
      ret (Some km)
  | _, _ =>
      let* _ := print distance_unavailable in
      ret None
  end.

(** [distance_km / average_speed_kmh]: [None] has no division. *)
Definition truediv_distance (distance_km : option Q) (speed : Q) : result Q :=
  match distance_km with
  | Some km => truediv km speed
  | None => Raise TypeError
  end.

(** [estimate_flight_cost], lines 582-622. *)
Definition estimate_flight_cost (aircraft_type : string) (passengers : Z)
    (bags_per_passenger : Z) (departure_airport arrival_airport : string)
    (fuel_price_per_litre : Q) : M CostEstimate :=
  let fuel_consumption_per_hour := 2500%Q in
  let average_speed_kmh := 850%Q in
  let crew_cost_per_hour := 500%Q in
  let airport_fees := 2000%Q in
  let maintenance_cost_per_hour := 800%Q in
  let oew := 41413 in
  let* distance_km := calculate_distance departure_airport arrival_airport in
  let* flight_duration_hours := lift (truediv_distance distance_km average_speed_kmh) in
  let passenger_weight := 100 in
  let total_weight := oew + passengers * passenger_weight in
  let* weight_factor := lift (truediv (inject_Z total_weight) (inject_Z oew)) in
  let adjusted_fuel_consumption_per_hour :=
    (fuel_consumption_per_hour * (1 + (5 # 1000) * (weight_factor - 1)))%Q in
  let total_fuel_needed := (adjusted_fuel_consumption_per_hour * flight_duration_hours)%Q in
  let fuel_cost := (total_fuel_needed * fuel_price_per_litre)%Q in
  let crew_cost := (crew_cost_per_hour * flight_duration_hours)%Q in
  let maintenance_cost := (maintenance_cost_per_hour * flight_duration_hours)%Q in
  let total_cost := (fuel_cost + crew_cost + airport_fees + maintenance_cost)%Q in
  let* cost_per_passenger := lift (truediv total_cost (inject_Z passengers)) in
  ret {| total_cost := total_cost;
         cost_per_passenger := cost_per_passenger;
         flight_duration_hours := flight_duration_hours;
         total_fuel_needed := total_fuel_needed |}.

(** The cost simulation of [main.py], lines 124-133. *)
Definition main_cost_simulation : M unit :=
  let* cost_estimate :=
    estimate_flight_cost "Airbus 737" 150 1 "CDG" "ALG" (12 # 10) in
  print (show_estimate cost_estimate).

End Estimator.

(** A geocoding service that knows two airports, and a distance table
    for them, for running the estimator on examples. *)
Module Atlas.

Definition place (lat lng : Q) : value :=
  VDict [("results",
          VList [VDict [("geometry", VDict [("lat", VFloat lat); ("lng", VFloat lng)])]])].

Definition geocode (iata_code : string) : value :=
  if (iata_code =? "CDG")%string then place (490097 # 10000) (25479 # 10000)
  else if (iata_code =? "ALG")%string then place (366910 # 10000) (32154 # 10000)
  else VDict [("results", VList [])].

(** A service that finds no airport. *)
Definition nowhere (iata_code : string) : value := VDict [("results", VList [])].

Definition geodesic_km (a b : value * value) : result Q :=
  match a, b with
  | (VFloat _, VFloat _), (VFloat _, VFloat _) => Ok 1360%Q
  | _, _ => Raise ValueError
  end.

(** The printed line is of no concern to the examples. *)
Definition show_estimate (c : CostEstimate) : string := "{'Total Cost (EUR)': ...}".

End Atlas.

(** ** What the criteria of [filter_flights] ask of an offer *)

Definition within_duration (max_duration : option Z) (itinerary : Itinerary) : Prop :=
  match active_limit max_duration with
  | Some limit =>
      forall minutes, _get_duration (duration itinerary) = Ok minutes -> minutes <= limit
  | None => True
  end.

Definition within_stops (max_stops : option Z) (itinerary : Itinerary) : Prop :=
  match active_limit max_stops with
  | Some limit => Forall (fun segment => numberOfStops segment <= limit) (segments itinerary)
  | None => True
  end.

Definition airline_allowed (airlines : option (list string)) (flight : Flight) : Prop :=
  match active_list airlines with
  | Some allowed =>
      exists code others, validatingAirlineCodes flight = code :: others /\ In code allowed
  | None => True
  end.

(** The traveler has a fare detail in the cabin. *)
Definition books (wanted : string) (traveler : TravelerPricing) : Prop :=
  Exists (fun detail => cabin detail = wanted) (fareDetailsBySegment traveler).

Definition every_traveler_books (wanted : string) (flight : Flight) : Prop :=
  Forall (books wanted) (travelerPricings flight).

Definition some_traveler_books (wanted : string) (flight : Flight) : Prop :=
  Exists (books wanted) (travelerPricings flight).

Definition cabin_offered (cabin_class : option string) (flight : Flight) : Prop :=
  match active_string cabin_class with
  | Some wanted => every_traveler_books wanted flight
  | None => True
  end.

(** The verdict of the loop over the itineraries of one offer. *)
Definition verdict (max_duration max_stops : option Z) (airlines : option (list string))
    (cabin_class : option string) (flight : Flight) : result bool :=
  rfor_each (itineraries flight)
    (check_itinerary flight max_duration max_stops airlines cabin_class) true.

(** Offers for the examples: one itinerary, one segment. *)
Definition one_segment (stops : Z) (day : string) : Segment :=
  {| departure := {| iataCode := "CDG"; at_ := day |};
     arrival := {| iataCode := "ALG"; at_ := day |};
     carrierCode := "AF";
     numberOfStops := stops;
     id := "1" |}.

Definition fare (c : string) : TravelerPricing :=
  {| traveler_price := {| total := 100; grandTotal := 100; currency := "EUR" |};
     fareDetailsBySegment := [ {| segmentId := "1"; cabin := c |} ] |}.

Definition offer (airline : string) (amount : Q) (legs : list Segment)
    (travelers : list TravelerPricing) : Flight :=
  {| validatingAirlineCodes := [airline];
     price := {| total := amount; grandTotal := amount; currency := "EUR" |};
     itineraries := [ {| duration := "PT2H30M"; segments := legs |} ];
     numberOfBookableSeats := 9;
     travelerPricings := travelers |}.

(** Two travelers, one in each cabin. *)
Definition mixed_cabins : Flight :=
  offer "AF" 250 [one_segment 0 "2025-03-26T10:00:00"] [fare "ECONOMY"; fare "BUSINESS"].

Definition economy_only : Flight :=
  offer "AF" 180 [one_segment 1 "2025-03-26T10:00:00"] [fare "ECONOMY"; fare "ECONOMY"].

(** The group of an airline after more offers: what was collected so far,
    followed by the prices the new offers add. *)
Definition extend (so_far : option (list Q)) (added : list Q) : option (list Q) :=
  match added with
  | [] => so_far
  | _ :: _ => Some (match so_far with Some prices => prices ++ added | None => added end)%list
  end.

(** Offers for the examples of the statistics. *)
Definition three_offers : list Flight :=
  [ offer "AF" 300 [one_segment 0 "2025-03-26T10:00:00"] [fare "ECONOMY"];
    offer "5O" 120 [one_segment 0 "2025-03-26T12:00:00"] [fare "ECONOMY"];
    offer "AF" 100 [one_segment 1 "2025-03-27T08:00:00"] [fare "ECONOMY"] ].

(** ** The weekday loop, one segment at a time *)

Section WeekdayEvents.

Variable _get_weekday : string -> result string.

(** The segments the three nested loops visit, each with its offer, in
    the order of the visit. *)
Definition events (flights : list Flight) : list (Flight * Segment) :=
  flat_map (fun flight => map (pair flight) (offer_segments flight)) flights.

Definition event_bucket (day : string) (visited : list (Flight * Segment)) : list Q :=
  map (fun e => grandTotal (price (fst e)))
      (filter (fun e => departs_on _get_weekday day (snd e)) visited).

(** What the two dictionaries hold for a day whose bucket received
    [prices]. *)
Definition summary (prices : list Q) : option Q * option Z :=
  match prices with
  | [] => (None, None)
  | _ :: _ => (Some (fsum prices), Some (Z.of_nat (List.length prices)))
  end.

Definition tracks (st : dict Q * dict Z) (visited : list (Flight * Segment)) : Prop :=
  NoDup (keys (fst st)) /\
  forall day,
    (dict_get day (fst st), dict_get day (snd st))
    = summary (event_bucket day visited).

End WeekdayEvents.

(** An offer of two segments, both on a Wednesday, and a direct offer on
    the same day. *)
Definition with_connection : Flight :=
  offer "AF" 100 [one_segment 0 "2025-03-26T07:00:00"; one_segment 0 "2025-03-26T11:00:00"]
        [fare "ECONOMY"].

Definition direct : Flight :=
  offer "5O" 40 [one_segment 0 "2025-03-26T09:00:00"] [fare "ECONOMY"].

(** ** Proof steps *)

(** Equal outcomes whose counters differ in their writing only. *)
Ltac same_counts :=
  repeat match goal with
         | |- (_, _) = (_, _) => f_equal
         | |- Ok _ = Ok _ => f_equal
         end;
  try reflexivity;
  rewrite ?Nat2Z.inj_add, ?Nat2Z.inj_succ; lia.

(** The two halves of what [tracks] says of a day. *)
Ltac halves H HP HC :=
  pose proof (f_equal fst H) as HP; pose proof (f_equal snd H) as HC;
  cbn [fst snd] in HP, HC; clear H.

(** ** The other counters, averages and comparisons of the scanner *)

(** The outcome of a call, its value seen through [f]. *)
Definition outcome_map {A B} (f : A -> B) (m : M A) : M B :=
  (fst m, match snd m with Ok a => Ok (f a) | Raise e => Raise e end).

(** [count_available_seats], lines 384-398.  The loop state is
    [available_seats]. *)
Definition available_pricing (available_seats : Z) (pricing : value) : M Z :=
  let* status := lift (get pricing "seatAvailabilityStatus" VNone) in
  ret (if eq_str status "AVAILABLE" then available_seats + 1 else available_seats).

Definition available_seat (available_seats : Z) (seat : value) : M Z :=
  let* pricings := lift (get seat "travelerPricing" (VList [])) in
  let* pricings := lift (iter pricings) in
  for_each pricings available_pricing available_seats.

Definition available_deck (available_seats : Z) (deck : value) : M Z :=
  let* seats := lift (get deck "seats" (VList [])) in
  let* seats := lift (iter seats) in
  for_each seats available_seat available_seats.

Definition count_available_seats (seatmap_data : value) : M Z :=
  if truthy seatmap_data && is_dict seatmap_data && has_key "data" seatmap_data
  then
    let* data := lift (subscript seatmap_data "data") in
    let* seatmap := lift (subscript0 data) in
    let* decks := lift (get seatmap "decks" (VList [])) in
    let* decks := lift (iter decks) in
    for_each decks available_deck 0
  else
    let* _ := print unexpected_seatmap in
    ret 0.

(** [calculate_average_price_by_airline], lines 482-488.  A
    [defaultdict(list)] answers a missing key with a new empty list. *)
Definition calculate_average_price_by_airline (flights : list Flight)
  : result (dict Q) :=
  let? price_by_airline :=
    rfor_each flights
      (fun (price_by_airline : dict (list Q)) flight =>
         let? airline := item0 (validatingAirlineCodes flight) in
         let prices :=
           match dict_get airline price_by_airline with
           | Some prices => prices
           | None => []
           end in
         Ok (dict_set airline (prices ++ [grandTotal (price flight)])%list
                      price_by_airline))
      [] in
  rmap (fun entry : string * list Q =>
          let (airline, prices) := entry in
          let? average := truediv (fsum prices)
                                  (inject_Z (Z.of_nat (List.length prices))) in
          Ok (airline, average))
       price_by_airline.

(** The [grandTotal] values of the offers validated by [airline]. *)
Definition group_grand_totals (airline : string) (flights : list Flight) : list Q :=
  map (fun flight => grandTotal (price flight)) (filter (validated_by airline) flights).

(** The airlines in the order in which the offers first name them. *)
Fixpoint first_seen (seen codes : list string) : list string :=
  match codes with
  | [] => []
  | code :: rest =>
      if str_in code seen then first_seen seen rest
      else code :: first_seen (seen ++ [code]) rest
  end.

Definition leading_codes (flights : list Flight) : list string :=
  flat_map (fun flight => firstn 1 (validatingAirlineCodes flight)) flights.

(** [x < y] on floats *)
Definition Qlt_bool (x y : Q) : bool := negb (Qle_bool y x).

(** [compare_cabins], lines 490-501. *)
Definition compare_detail (traveler : TravelerPricing) (cabin_comparison : dict Q)
    (segment : FareDetail) : dict Q :=
  let cabin := cabin segment in
  let price := total (traveler_price traveler) in
  if negb (dict_mem cabin cabin_comparison)
     || match dict_get cabin cabin_comparison with
        | Some current => Qlt_bool price current
        | None => false
        end
  then dict_set cabin price cabin_comparison
  else cabin_comparison.

Definition cabin_comparison_of (flight : Flight) : dict Q :=
  fold_left (fun cabin_comparison traveler =>
               fold_left (compare_detail traveler)
                         (fareDetailsBySegment traveler) cabin_comparison)
            (travelerPricings flight) [].

Definition compare_cabins (flights : list Flight) : list (dict Q) :=
  fold_left (fun comparison_results flight =>
               comparison_results ++ [cabin_comparison_of flight])%list
            flights [].

(** The prices quoted for [wanted]: the traveler's total, once for each of
    the traveler's fare details in that cabin. *)
Definition quotes (wanted : string) (flight : Flight) : list Q :=
  flat_map (fun traveler =>
              map (fun _ => total (traveler_price traveler))
                  (filter (fun detail => (cabin detail =? wanted)%string)
                          (fareDetailsBySegment traveler)))
           (travelerPricings flight).

(** A traveler with its own price. *)
Definition priced_fare (amount : Q) (cabins : list string) : TravelerPricing :=
  {| traveler_price := {| total := amount; grandTotal := amount; currency := "EUR" |};
     fareDetailsBySegment :=
       map (fun c => {| segmentId := "1"; cabin := c |}) cabins |}.

Definition two_quotes : Flight :=
  offer "AF" 380 [one_segment 0 "2025-03-26T10:00:00"]
        [priced_fare 100 ["ECONOMY"]; priced_fare 80 ["ECONOMY"; "BUSINESS"]].

(** The quotes of an offer in the order [compare_cabins] reads them: the
    traveler's price with the cabin of each fare detail. *)
Definition fare_events (flight : Flight) : list (Q * string) :=
  flat_map (fun traveler =>
              map (fun detail => (total (traveler_price traveler), cabin detail))
                  (fareDetailsBySegment traveler))
           (travelerPricings flight).

Definition quoted (wanted : string) (read : list (Q * string)) : list Q :=
  map fst (filter (fun e => (snd e =? wanted)%string) read).

(** [m] is the least of [prices], and one of them. *)
Definition least_of (prices : list Q) (m : Q) : Prop :=
  In m prices /\ Forall (Qle m) prices.

Definition cheapest_so_far (cabin_comparison : dict Q) (read : list (Q * string)) : Prop :=
  forall wanted,
    (quoted wanted read = [] -> dict_get wanted cabin_comparison = None) /\
    (quoted wanted read <> [] ->
     exists m, dict_get wanted cabin_comparison = Some m /\ least_of (quoted wanted read) m).

(** A run of decimal digits and the number it writes. *)
Definition numeral (digits : list nat) : string :=
  fold_right (fun d rest => String (ascii_of_nat (48 + d)) rest) EmptyString digits.

Definition number (digits : list nat) : Z :=
  fold_left (fun acc d => 10 * acc + Z.of_nat d) digits 0.

Definition starts_with_digit (s : string) : bool :=
  match s with
  | String c _ => is_digit c
  | EmptyString => false
  end.

(** The offers [filter_flights] keeps when its verdicts come out as
    [keep] says. *)
Definition stops_within (limit : Z) (flight : Flight) : bool :=
  forallb (fun itinerary =>
             forallb (fun segment => numberOfStops segment <=? limit)
                     (segments itinerary))
          (itineraries flight).

(** The verdict as a truth value, an error counting as a refusal. *)
Definition keeps (max_duration max_stops : option Z) (airlines : option (list string))
    (cabin_class : option string) (flight : Flight) : bool :=
  match verdict max_duration max_stops airlines cabin_class flight with
  | Ok b => b
  | Raise _ => false
  end.

(** An offer with an itinerary and no validating airline code. *)
Definition nameless (flight : Flight) : Prop :=
  itineraries flight <> [] /\ validatingAirlineCodes flight = [].

(** An offer one of whose itineraries has a duration that does not start
    with [PT]. *)
Definition undated (flight : Flight) : Prop :=
  Exists (fun itinerary => strip_PT (duration itinerary) = None) (itineraries flight).

Definition no_airline : Flight :=
  {| validatingAirlineCodes := [];
     price := {| total := 90; grandTotal := 95; currency := "EUR" |};
     itineraries := [ {| duration := "PT1H"; segments := [one_segment 0 "2025-03-26T10:00:00"] |} ];
     numberOfBookableSeats := 2;
     travelerPricings := [fare "ECONOMY"] |}.

Definition no_duration : Flight :=
  {| validatingAirlineCodes := ["AF"];
     price := {| total := 90; grandTotal := 95; currency := "EUR" |};
     itineraries := [ {| duration := "2H30M"; segments := [one_segment 0 "2025-03-26T10:00:00"] |} ];
     numberOfBookableSeats := 2;
     travelerPricings := [fare "ECONOMY"] |}.

(** ** Console reports *)

(** [str(n)] *)
Definition str (n : Z) : string := NilZero.string_of_int (Z.to_int n).

Definition no_options : string := "No flight options found.".

(** ["-" * 40] *)
Definition rule : string := String.concat "" (repeat "-" 40).

(** The dictionary
    [{fare['segmentId']: fare['cabin'] for traveler in ... for fare in ...}]. *)
Definition fare_details (flight : Flight) : dict string :=
  fold_left (fun fare_details traveler =>
               fold_left (fun fare_details fare =>
                            dict_set (segmentId fare) (cabin fare) fare_details)
                         (fareDetailsBySegment traveler) fare_details)
            (travelerPricings flight) [].

(** [fare_details.get(segment_id, 'Unknown')] *)
Definition cabin_of (fare_details : dict string) (segment_id : string) : string :=
  match dict_get segment_id fare_details with
  | Some cabin_class => cabin_class
  | None => "Unknown"
  end.

Definition segment_line (segment : Segment) : string :=
  "  Segment: " ++ iataCode (departure segment) ++ " (" ++ at_ (departure segment)
  ++ ") -> " ++ iataCode (arrival segment) ++ " (" ++ at_ (arrival segment) ++ ")".

(** The body of the loop of [display_cabin_classes], lines 269-286; the
    state is the number [enumerate] gives the offer. *)
Definition cabin_option (i : Z) (flight : Flight) : M Z :=
  let* airline := lift (item0 (validatingAirlineCodes flight)) in
  let* outbound := lift (item0 (itineraries flight)) in
  let itinerary := segments outbound in
  let fare_details := fare_details flight in
  let* _ := print ("Option " ++ str i ++ ":") in
  let* _ := print ("  Airline: " ++ airline) in
  let* _ :=
    for_each itinerary
      (fun _ segment =>
         let cabin_class := cabin_of fare_details (id segment) in
         let* _ := print (segment_line segment) in
         print ("    Cabin Class: " ++ cabin_class))
      tt in
  let* _ := print rule in
  ret (i + 1).

(** [display_cabin_classes], lines 259-286. *)
Definition display_cabin_classes (flights : list Flight) : M unit :=
  match flights with
  | [] =>
      let* _ := print no_options in
      ret tt
  | _ :: _ =>
      let* _ := for_each flights cabin_option 1 in
      ret tt
  end.

(** [sorted(flights, key=lambda x: float(x['price']['total']))]: a stable
    insertion sort on the key. *)
Fixpoint insert_by_total (x : Flight) (xs : list Flight) : list Flight :=
  match xs with
  | [] => [x]
  | y :: rest =>
      if Qle_bool (total (price x)) (total (price y)) then x :: y :: rest
      else y :: insert_by_total x rest
  end.

Fixpoint sorted_by_total (flights : list Flight) : list Flight :=
  match flights with
  | [] => []
  | x :: rest => insert_by_total x (sorted_by_total rest)
  end.

(** [sorted_flights[:10]] *)
Definition top_10_flights (flights : list Flight) : list Flight :=
  firstn 10 (sorted_by_total flights).

Section Reports.

(** The numeric string of [price.total], of which [total] is the float. *)
Variable total_text : Flight -> string.

(** [get_seat_map], lines 335-349: the decoded answer of the seat-map
    service, or [None] after a line on the error. *)
Variable get_seat_map : Flight -> M value.

(** The body of the loop of [display_top_10_cheapest_options], lines
    318-331. *)
Definition cheapest_option (i : Z) (flight : Flight) : M Z :=
  let price := total_text flight in
  let* airline := lift (item0 (validatingAirlineCodes flight)) in
  let* outbound := lift (item0 (itineraries flight)) in
  let itinerary := segments outbound in
  let* _ := print ("Option " ++ str i ++ ":") in
  let* _ := print ("  Airline: " ++ airline) in
  let* _ := print ("  Price: " ++ price ++ " EUR") in
  let* _ := for_each itinerary (fun _ segment => print (segment_line segment)) tt in
  let* _ := print rule in
  ret (i + 1).

(** [display_top_10_cheapest_options], lines 302-331. *)
Definition display_top_10_cheapest_options (flights : list Flight) : M unit :=
  match flights with
  | [] =>
      let* _ := print no_options in
      ret tt
  | _ :: _ =>
      let* _ := for_each (top_10_flights flights) cheapest_option 1 in
      ret tt
  end.

(** The body of the loop of [aggregate_seat_data], lines 376-382; the
    state is [idx]. *)
Definition seat_report (idx : Z) (flight : Flight) : M Z :=
  let* seatmap_data := get_seat_map flight in
  let* _ :=
    if truthy seatmap_data then
      let* counts := count_seats seatmap_data in
      print ("Option " ++ str (idx + 1) ++ ": " ++ str (fst counts) ++ "/"
             ++ str (snd counts) ++ " seats available")
    else
      print ("Option " ++ str (idx + 1) ++ ": Seat map data not available") in
  ret (idx + 1).

(** [aggregate_seat_data], lines 375-382. *)
Definition aggregate_seat_data (flights : list Flight) : M unit :=
  let* _ := for_each flights seat_report 0 in
  ret tt.

End Reports.

(** An offer the reports can show: it names an airline and has an
    itinerary. *)
Definition showable (flight : Flight) : Prop :=
  validatingAirlineCodes flight <> [] /\ itineraries flight <> [].

(** The segments of the first itinerary. *)
Definition outbound_segments (flight : Flight) : list Segment :=
  match itineraries flight with
  | itinerary :: _ => segments itinerary
  | [] => []
  end.

(** All fare details of an offer, traveler after traveler. *)
Definition all_fares (flight : Flight) : list FareDetail :=
  flat_map fareDetailsBySegment (travelerPricings flight).

(** An offer without itinerary, and one with a return leg. *)
Definition no_itinerary : Flight :=
  {| validatingAirlineCodes := ["AF"];
     price := {| total := 60; grandTotal := 66; currency := "EUR" |};
     itineraries := [];
     numberOfBookableSeats := 1;
     travelerPricings := [fare "ECONOMY"] |}.

(** [f] costs no more than [g]. *)
Definition no_dearer (f g : Flight) : Prop := (total (price f) <= total (price g))%Q.

(** The answer of the seat-map service with an empty [data] list. *)
Definition empty_seatmap : value := VDict [("data", VList [])].

(** ** The report of flight options *)

(** The [limit] argument: the string ["ALL"] or an integer. *)
Inductive Limit : Type :=
| ALL
| Count (n : Z).

(** [xs[:stop]] *)
Definition slice_to {A} (xs : list A) (stop : Z) : list A :=
  if stop <? 0 then firstn (Z.to_nat (Z.of_nat (List.length xs) + stop)) xs
  else firstn (Z.to_nat stop) xs.

(** The dictionary kept for each segment; [cabin_class] is there only
    when the cabin is asked for. *)
Record SegmentDetails : Type :=
  { details_departure : string;
    details_arrival : string;
    details_departure_time : string;
    details_arrival_time : string;
    details_operating_airline : string;
    details_aircraft : string;
    details_number_of_bookable_seats : Z;
    details_cabin_class : option string }.

(** The dictionary kept for each option; [seat_info], [airline] and
    [price] are there only when asked for. *)
Record OptionInfo : Type :=
  { info_seat_info : option string;
    info_option : string;
    info_airline : option string;
    info_price : option string;
    info_segments : list SegmentDetails }.

Section FlightOptions.

(** [get_seat_map], lines 335-349. *)
Variable get_seat_map : Flight -> M value.

(** The numeric string of [price.grandTotal]. *)
Variable grand_total_text : Flight -> string.

(** [segment['aircraft']['code']] *)
Variable aircraft_code : Segment -> string.

Variables (show_cabin_class show_seat_availability show_price show_airline : bool).

(** Lines 121-130: [seat_info], and whether the key is set. *)
Definition seat_information (flight : Flight) : M (string * option string) :=
  if show_seat_availability then
    let* seat_map := get_seat_map flight in
    let* seat_info :=
      if truthy seat_map then
        let* counts := count_seats seat_map in
        ret (str (fst counts) ++ "/" ++ str (snd counts) ++ " seats available")
      else ret "Seat map data not available" in
    ret (seat_info, Some seat_info)
  else ret ("", None).

(** Lines 155-186: the body of the loop over the segments; the state is
    [segments_info]. *)
Definition show_segment (flight : Flight) (segments_info : list SegmentDetails)
    (segment : Segment) : M (list SegmentDetails) :=
  let carrier := carrierCode segment in
  let aircraft := aircraft_code segment in
  let num_seats := numberOfBookableSeats flight in
  let* _ := print (segment_line segment) in
  let* _ := print ("    Operating Airline: " ++ carrier ++ " (" ++ carrier ++ ")") in
  let* _ := print ("    Aircraft: " ++ aircraft) in
  let* _ := print ("    Number of Bookable Seats: " ++ str num_seats) in
  let* cabin_class :=
    if show_cabin_class then
      let cabin_class := cabin_of (fare_details flight) (id segment) in
      let* _ := print ("    Cabin Class: " ++ cabin_class) in
      ret (Some cabin_class)
    else ret None in
  ret (segments_info
       ++ [ {| details_departure := iataCode (departure segment);
               details_arrival := iataCode (arrival segment);
               details_departure_time := at_ (departure segment);
               details_arrival_time := at_ (arrival segment);
               details_operating_airline := carrier;
               details_aircraft := aircraft;
               details_number_of_bookable_seats := num_seats;
               details_cabin_class := cabin_class |} ])%list.

(** Lines 118-190: the body of the loop over the offers; the state is
    [idx] and [flight_options]. *)
Definition show_option (st : Z * list OptionInfo) (flight : Flight)
  : M (Z * list OptionInfo) :=
  let (idx, flight_options) := st in
  let* seat := seat_information flight in
  let option :=
    if show_seat_availability
    then "Option " ++ str (idx + 1) ++ ": " ++ fst seat
    else "Option " ++ str (idx + 1) ++ ":" in
  let* _ := print option in
  let* airline :=
    if show_airline then
      let* airline := lift (item0 (validatingAirlineCodes flight)) in
      let* _ := print ("  Airline: " ++ airline) in
      ret (Some airline)
    else ret None in
  let* price_ :=
    if show_price then
      let price_ := grand_total_text flight ++ " " ++ currency (price flight) in
      let* _ := print ("  Price: " ++ price_) in
      ret (Some price_)
    else ret None in
  let* segments_info :=
    for_each (itineraries flight)
      (fun segments_info itinerary =>
         for_each (segments itinerary) (show_segment flight) segments_info)
      [] in
  let* _ := print "----------------------------------------" in
  ret (idx + 1,
       flight_options
       ++ [ {| info_seat_info := snd seat;
               info_option := option;
               info_airline := airline;
               info_price := price_;
               info_segments := segments_info |} ])%list.

(** [display_flight_options], lines 92-192. *)
Definition display_flight_options (flights : list Flight) (limit : Limit)
  : M (list OptionInfo) :=
  match flights with
  | [] =>
      let* _ := print no_options in
      ret []
  | _ :: _ =>
      let limit :=
        match limit with
        | Count n => Z.min n (Z.of_nat (List.length flights))
        | ALL => Z.of_nat (List.length flights)
        end in
      let* st := for_each (slice_to flights limit) show_option (0, []) in
      ret (snd st)
  end.

End FlightOptions.

(** The details [show_segment] keeps of a segment, and the lines it
    prints. *)
Definition details_of (aircraft_code : Segment -> string) (show_cabin_class : bool)
    (flight : Flight) (segment : Segment) : SegmentDetails :=
  {| details_departure := iataCode (departure segment);
     details_arrival := iataCode (arrival segment);
     details_departure_time := at_ (departure segment);
     details_arrival_time := at_ (arrival segment);
     details_operating_airline := carrierCode segment;
     details_aircraft := aircraft_code segment;
     details_number_of_bookable_seats := numberOfBookableSeats flight;
     details_cabin_class :=
       if show_cabin_class then Some (cabin_of (fare_details flight) (id segment))
       else None |}.

Definition lines_of (aircraft_code : Segment -> string) (show_cabin_class : bool)
    (flight : Flight) (segment : Segment) : list string :=
  [ segment_line segment;
    "    Operating Airline: " ++ carrierCode segment ++ " (" ++ carrierCode segment ++ ")";
    "    Aircraft: " ++ aircraft_code segment;
    "    Number of Bookable Seats: " ++ str (numberOfBookableSeats flight) ]
  ++ (if show_cabin_class
      then ["    Cabin Class: " ++ cabin_of (fare_details flight) (id segment)]
      else []).

(** The number of offers a limit lets through. *)
Definition shown (limit : Limit) (offers : nat) : nat :=
  match limit with
  | ALL => offers
  | Count n =>
      if n <? 0 then Z.to_nat (Z.of_nat offers + n)
      else Nat.min (Z.to_nat n) offers
  end.

(** ** The seat-map request *)

(** What [requests.post] returns, as [get_seat_map] reads it:
    [response.status_code], [response.text], and the outcome of
    [response.json()], which raises on a body that is not JSON. *)
Record HttpResponse : Type :=
  { status_code : Z;
    text : string;
    json : result value }.

(** [get_seat_map], lines 335-349; [post flight_offer] is the response to
    [requests.post(url, json={"data": [flight_offer]}, headers=headers)]. *)
Definition get_seat_map (post : Flight -> HttpResponse) (flight_offer : Flight)
  : M value :=
  let response := post flight_offer in
  if status_code response =? 200 then
    let* seatmap_data := lift (json response) in
    ret seatmap_data
  else
    let* _ := print ("Error retrieving seat map: " ++ str (status_code response)
                     ++ " - " ++ text response) in
    ret VNone.

(** The responses the reports are followed on: status 200 with a
    well-shaped seat map; status 200 with a body Python takes for false;
    another status, with the text of the response. *)
Inductive Reply : Type :=
| SeatMapOf (r : SeatMap.response)
| NoData (body : value)
| Failure (status : Z) (body : string).

(** The service responds to the request for [flight] as [reply] says. *)
Definition answers (post : Flight -> HttpResponse) (flight : Flight) (reply : Reply)
  : Prop :=
  match reply with
  | SeatMapOf r =>
      status_code (post flight) = 200 /\ json (post flight) = Ok (SeatMap.encode r)
  | NoData body =>
      status_code (post flight) = 200 /\ json (post flight) = Ok body /\
      truthy body = false
  | Failure status body =>
      status_code (post flight) = status /\ status <> 200 /\ text (post flight) = body
  end.

(** What [get_seat_map] hands to its caller, and the line it prints. *)
Definition seatmap_data_of (reply : Reply) : value :=
  match reply with
  | SeatMapOf r => SeatMap.encode r
  | NoData body => body
  | Failure _ _ => VNone
  end.

Definition error_lines (reply : Reply) : list string :=
  match reply with
  | Failure status body => ["Error retrieving seat map: " ++ str status ++ " - " ++ body]
  | _ => []
  end.

(** The seat text of an offer in both reports. *)
Definition seat_text (reply : Reply) : string :=
  match reply with
  | SeatMapOf r =>
      str (SeatMap.available_entries (SeatMap.first r)) ++ "/"
      ++ str (SeatMap.seat_count (SeatMap.first r)) ++ " seats available"
  | _ => "Seat map data not available"
  end.

(** The lines of [aggregate_seat_data] for the offer numbered [n]. *)
Definition seat_line (n : Z) (reply : Reply) : list string :=
  error_lines reply ++ ["Option " ++ str n ++ ": " ++ seat_text reply].

Fixpoint seat_lines (n : Z) (replies : list Reply) : list string :=
  match replies with
  | [] => []
  | reply :: rest => seat_line n reply ++ seat_lines (n + 1) rest
  end.

(** A service for the examples: a seat map for the offers of AF, and a
    refusal for the others. *)
Definition seat_table (flight : Flight) : Reply :=
  match validatingAirlineCodes flight with
  | "AF" :: _ => SeatMapOf SeatMap.three_decks
  | _ => Failure 401 "Unauthorized"
  end.

Definition seat_post (flight : Flight) : HttpResponse :=
  match validatingAirlineCodes flight with
  | "AF" :: _ =>
      {| status_code := 200; text := "OK"; json := Ok (SeatMap.encode SeatMap.three_decks) |}
  | _ => {| status_code := 401; text := "Unauthorized"; json := Raise ValueError |}
  end.

(** A service whose seat maps for AF have an empty [data] list. *)
Definition empty_post (flight : Flight) : HttpResponse :=
  match validatingAirlineCodes flight with
  | "AF" :: _ => {| status_code := 200; text := "OK"; json := Ok empty_seatmap |}
  | _ => {| status_code := 401; text := "Unauthorized"; json := Raise ValueError |}
  end.

(** ** What the report of flight options prints and returns *)

(** The offers a limit lets through. *)
Definition chosen (limit : Limit) (flights : list Flight) : list Flight :=
  firstn (shown limit (List.length flights)) flights.

Section ExpectedOptions.

Variable grand_total_text : Flight -> string.
Variable aircraft_code : Segment -> string.
Variables (show_cabin_class show_seat_availability show_price show_airline : bool).

(** The reply of the seat-map service for each offer. *)
Variable table : Flight -> Reply.

Definition option_text (n : Z) (flight : Flight) : string :=
  if show_seat_availability
  then "Option " ++ str n ++ ": " ++ seat_text (table flight)
  else "Option " ++ str n ++ ":".

Definition price_text (flight : Flight) : string :=
  grand_total_text flight ++ " " ++ currency (price flight).

(** The dictionary of the offer numbered [n]. *)
Definition expected_option (n : Z) (flight : Flight) : OptionInfo :=
  {| info_seat_info :=
       if show_seat_availability then Some (seat_text (table flight)) else None;
     info_option := option_text n flight;
     info_airline :=
       if show_airline then hd_error (validatingAirlineCodes flight) else None;
     info_price := if show_price then Some (price_text flight) else None;
     info_segments :=
       map (details_of aircraft_code show_cabin_class flight) (offer_segments flight) |}.

(** The lines printed for the offer numbered [n]. *)
Definition expected_lines (n : Z) (flight : Flight) : list string :=
  (if show_seat_availability then error_lines (table flight) else [])
  ++ [option_text n flight]
  ++ (if show_airline
      then match validatingAirlineCodes flight with
           | airline :: _ => ["  Airline: " ++ airline]
           | [] => []
           end
      else [])
  ++ (if show_price then ["  Price: " ++ price_text flight] else [])
  ++ flat_map (lines_of aircraft_code show_cabin_class flight) (offer_segments flight)
  ++ ["----------------------------------------"].

Fixpoint expected_options (n : Z) (flights : list Flight) : list OptionInfo :=
  match flights with
  | [] => []
  | flight :: rest => expected_option n flight :: expected_options (n + 1) rest
  end.

Fixpoint expected_output (n : Z) (flights : list Flight) : list string :=
  match flights with
  | [] => []
  | flight :: rest => expected_lines n flight ++ expected_output (n + 1) rest
  end.

End ExpectedOptions.

(** * Properties *)

(** ** Sequencing *)

Lemma bind_ret {A B} (a : A) (k : A -> M B) : bind (ret a) k = k a.
Proof. unfold bind, ret. destruct (k a) as [out r]. reflexivity. Qed.

Lemma bind_lift_Ok {A B} (a : A) (k : A -> M B) : bind (lift (Ok a)) k = k a.
Proof. exact (bind_ret a k). Qed.

Lemma bind_lift_Raise {A B} (e : exn) (k : A -> M B) :
  bind (lift (Raise e)) k = ([], Raise e).
Proof. reflexivity. Qed.

Lemma bind_printed {A B} (out : list string) (a : A) (k : A -> M B) :
  bind (out, Ok a) k = ((out ++ fst (k a))%list, snd (k a)).
Proof. unfold bind. destruct (k a) as [out' r]. reflexivity. Qed.

Lemma rfor_each_app {A S} (xs ys : list A) (body : S -> A -> result S) (acc : S) :
  rfor_each (xs ++ ys) body acc = rbind (rfor_each xs body acc) (rfor_each ys body).
Proof.
  revert acc. induction xs as [|x xs IH]; intro acc; simpl.
  - reflexivity.
  - destruct (body acc x) as [acc'|e]; simpl; [apply IH | reflexivity].
Qed.

Lemma rfor_each_ext {A S} (xs : list A) (body1 body2 : S -> A -> result S) (acc : S) :
  (forall st x, body1 st x = body2 st x) ->
  rfor_each xs body1 acc = rfor_each xs body2 acc.
Proof.
  intro H. revert acc. induction xs as [|x xs IH]; intro acc; simpl.
  - reflexivity.
  - rewrite H. destruct (body2 acc x); simpl; [apply IH|reflexivity].
Qed.

Lemma rfor_each_map {A B S} (g : A -> B) (xs : list A) (body : S -> B -> result S) (acc : S) :
  rfor_each (map g xs) body acc = rfor_each xs (fun st x => body st (g x)) acc.
Proof.
  revert acc. induction xs as [|x xs IH]; intro acc; simpl.
  - reflexivity.
  - destruct (body acc (g x)); simpl; [apply IH|reflexivity].
Qed.

Lemma rfor_each_flat_map {A B S} (g : A -> list B) (xs : list A)
    (body : S -> B -> result S) (acc : S) :
  rfor_each (flat_map g xs) body acc
  = rfor_each xs (fun st x => rfor_each (g x) body st) acc.
Proof.
  revert acc. induction xs as [|x xs IH]; intro acc; simpl.
  - reflexivity.
  - rewrite rfor_each_app.
    destruct (rfor_each (g x) body acc); simpl; [apply IH|reflexivity].
Qed.

Lemma truediv_nonzero (x y : Q) : ~ (y == 0)%Q -> truediv x y = Ok (x / y)%Q.
Proof.
  intro H. unfold truediv.
  destruct (Qeq_bool y 0) eqn:E; [|reflexivity].
  apply Qeq_bool_iff in E. contradiction.
Qed.

Lemma truediv_zero (x y : Q) : (y == 0)%Q -> truediv x y = Raise ZeroDivisionError.
Proof.
  intro H. unfold truediv. apply Qeq_bool_iff in H. rewrite H. reflexivity.
Qed.

Lemma inject_Z_nonzero (n : Z) : n <> 0 -> ~ (inject_Z n == 0)%Q.
Proof. unfold Qeq; simpl. lia. Qed.

(** ** Filtering *)

Section FilterFacts.

Variables (max_duration max_stops : option Z).
Variables (airlines : option (list string)) (cabin_class : option string).

(** The outer loop keeps, in order, the offers whose verdict is [True]. *)
Lemma filter_loop (decide : Flight -> result bool) (flights acc out : list Flight) :
  rfor_each flights
    (fun filtered_flights flight =>
       let? add_flight := decide flight in
       Ok (if add_flight then filtered_flights ++ [flight] else filtered_flights)%list)
    acc = Ok out ->
  exists kept,
    out = (acc ++ kept)%list /\ subseq kept flights /\
    forall f, In f kept <-> In f flights /\ decide f = Ok true.
Proof.
  revert acc. induction flights as [|x flights IH]; intros acc H; simpl in H.
  - injection H as <-. exists []. rewrite app_nil_r.
    split; [reflexivity|]. split; [constructor|]. simpl. tauto.
  - destruct (decide x) as [[|]|e] eqn:D; simpl in H; try discriminate.
    + destruct (IH _ H) as (kept & -> & Hs & Hin).
      exists (x :: kept). rewrite <- app_assoc. split; [reflexivity|].
      split; [constructor; exact Hs|].
      intro f. simpl. rewrite Hin. split.
      * intros [<-|[? ?]]; auto.
      * intros [[<-|?] ?]; auto.
    + destruct (IH _ H) as (kept & -> & Hs & Hin).
      exists kept. split; [reflexivity|]. split; [constructor; exact Hs|].
      intro f. rewrite Hin. simpl. split.
      * intros [? ?]; auto.
      * intros [[<-|?] ?]; [congruence|auto].
Qed.

Lemma filter_loop_total (decide : Flight -> result bool) (flights acc : list Flight) :
  Forall (fun f => exists b, decide f = Ok b) flights ->
  exists out,
    rfor_each flights
      (fun filtered_flights flight =>
         let? add_flight := decide flight in
         Ok (if add_flight then filtered_flights ++ [flight] else filtered_flights)%list)
      acc = Ok out.
Proof.
  intro H. revert acc. induction H as [|x flights [b Hb] _ IH]; intro acc; simpl.
  - eexists; reflexivity.
  - rewrite Hb. simpl. apply IH.
Qed.

Lemma get_duration_total (s : string) :
  strip_PT s <> None -> exists minutes, _get_duration s = Ok minutes.
Proof.
  intro H. unfold _get_duration. destruct (strip_PT s) as [rest|]; [|contradiction].
  destruct (match_unit "H" rest) as [[h rest']|];
    eexists; reflexivity.
Qed.

Lemma str_in_In (x : string) (xs : list string) : str_in x xs = true <-> In x xs.
Proof.
  unfold str_in. rewrite existsb_exists. split.
  - intros (y & Hy & E). apply String.eqb_eq in E. subst. exact Hy.
  - intro Hx. exists x. split; [exact Hx | apply String.eqb_refl].
Qed.

Lemma no_cabin_books (wanted : string) (traveler : TravelerPricing) :
  no_cabin wanted traveler = false <-> books wanted traveler.
Proof.
  unfold no_cabin, books.
  induction (fareDetailsBySegment traveler) as [|d ds IH]; simpl.
  - split; [discriminate | intro H; inversion H].
  - rewrite Exists_cons, <- IH. destruct (cabin d =? wanted)%string eqn:E; simpl.
    + apply String.eqb_eq in E. tauto.
    + apply String.eqb_neq in E. tauto.
Qed.

Lemma travelers_loop (wanted : string) (travelers : list TravelerPricing) (add_flight : bool) :
  fold_left (fun add_flight traveler =>
               if no_cabin wanted traveler then false else add_flight)
            travelers add_flight = true
  <-> add_flight = true /\ Forall (books wanted) travelers.
Proof.
  revert add_flight. induction travelers as [|t ts IH]; intro add_flight; simpl.
  - split; [intro; split; [assumption|constructor] | tauto].
  - rewrite IH, Forall_cons_iff, <- no_cabin_books.
    destruct (no_cabin wanted t); split; intros; try tauto.
    + destruct H; discriminate.
    + destruct H as [_ [? _]]; discriminate.
Qed.

(** One pass of the loop body: [add_flight] stays [True] exactly when it
    was and the itinerary meets every active criterion. *)
Lemma check_itinerary_spec (flight : Flight) (itinerary : Itinerary) (add_flight : bool) :
  validatingAirlineCodes flight <> [] ->
  strip_PT (duration itinerary) <> None ->
  exists b,
    check_itinerary flight max_duration max_stops airlines cabin_class add_flight itinerary
    = Ok b /\
    (b = true <->
     add_flight = true /\
     within_duration max_duration itinerary /\
     within_stops max_stops itinerary /\
     airline_allowed airlines flight /\
     cabin_offered cabin_class flight).
Proof.
  intros Hcodes Hdur.
  destruct (get_duration_total _ Hdur) as [minutes Hm].
  destruct (validatingAirlineCodes flight) as [|code others] eqn:Hc; [contradiction|].
  unfold check_itinerary, within_duration, within_stops, airline_allowed, cabin_offered.
  rewrite Hm, Hc. cbn [item0 rbind].
  set (a1 := match active_limit max_duration with
             | Some limit => Ok (if minutes >? limit then false else add_flight)
             | None => Ok add_flight
             end).
  assert (H1 : exists b1, a1 = Ok b1 /\
                 (b1 = true <-> add_flight = true /\
                   match active_limit max_duration with
                   | Some limit => forall m, Ok minutes = Ok m -> m <= limit
                   | None => True
                   end)).
  { subst a1. destruct (active_limit max_duration) as [limit|].
    - eexists. split; [reflexivity|].
      destruct (minutes >? limit) eqn:E.
      + apply Z.gtb_lt in E. split; [discriminate|].
        intros [_ H]. specialize (H minutes eq_refl). lia.
      + assert (minutes <= limit) by (rewrite Z.gtb_ltb in E; apply Z.ltb_ge in E; exact E).
        split; [intro; split; [assumption|]|tauto].
        intros m Hm'. injection Hm' as <-. assumption.
    - eexists. split; [reflexivity|]. tauto. }
  destruct H1 as (b1 & -> & Hb1). cbn [rbind].
  set (b2 := match active_limit max_stops with
             | Some limit =>
                 if existsb (fun segment => numberOfStops segment >? limit)
                            (segments itinerary)
                 then false else b1
             | None => b1
             end).
  assert (Hb2 : b2 = true <-> b1 = true /\
                  match active_limit max_stops with
                  | Some limit =>
                      Forall (fun segment => numberOfStops segment <= limit)
                             (segments itinerary)
                  | None => True
                  end).
  { subst b2. destruct (active_limit max_stops) as [limit|]; [|tauto].
    destruct (existsb _ _) eqn:E.
    - split; [discriminate|]. intros [_ H].
      apply existsb_exists in E. destruct E as (seg & Hin & Hgt).
      rewrite Forall_forall in H. specialize (H seg Hin).
      apply Z.gtb_lt in Hgt. lia.
    - split; [intro; split; [assumption|]|tauto].
      apply Forall_forall. intros seg Hin.
      destruct (numberOfStops seg >? limit) eqn:G.
      + assert (existsb (fun segment => numberOfStops segment >? limit)
                        (segments itinerary) = true)
          by (apply existsb_exists; exists seg; split; assumption).
        congruence.
      + rewrite Z.gtb_ltb in G. apply Z.ltb_ge in G. exact G. }
  clearbody b2.
  set (a3 := match active_list airlines with
             | Some allowed => Ok (if negb (str_in code allowed) then false else b2)
             | None => Ok b2
             end).
  assert (H3 : exists b3, a3 = Ok b3 /\
                 (b3 = true <-> b2 = true /\
                   match active_list airlines with
                   | Some allowed =>
                       exists c o, code :: others = c :: o /\ In c allowed
                   | None => True
                   end)).
  { subst a3. destruct (active_list airlines) as [allowed|].
    - eexists. split; [reflexivity|].
      destruct (str_in code allowed) eqn:E; simpl.
      + apply str_in_In in E. split; [intro; split; [assumption|]|tauto].
        exists code, others. split; [reflexivity|assumption].
      + split; [discriminate|]. intros [_ (c & o & Hco & Hin)].
        injection Hco as <- <-. apply str_in_In in Hin. congruence.
    - eexists. split; [reflexivity|]. tauto. }
  destruct H3 as (b3 & -> & Hb3). cbn [rbind].
  eexists. split; [reflexivity|].
  destruct (active_string cabin_class) as [wanted|].
  - unfold every_traveler_books. rewrite travelers_loop. tauto.
  - tauto.
Qed.

(** The verdict on a well-formed offer. *)
Lemma verdict_spec (flight : Flight) :
  well_formed flight ->
  exists b,
    verdict max_duration max_stops airlines cabin_class flight = Ok b /\
    (b = true <->
     forall itinerary, In itinerary (itineraries flight) ->
       within_duration max_duration itinerary /\
       within_stops max_stops itinerary /\
       airline_allowed airlines flight /\
       cabin_offered cabin_class flight).
Proof.
  intros [Hcodes Hdur]. unfold verdict.
  assert (G : forall add_flight,
             exists b,
               rfor_each (itineraries flight)
                 (check_itinerary flight max_duration max_stops airlines cabin_class)
                 add_flight = Ok b /\
               (b = true <->
                add_flight = true /\
                forall itinerary, In itinerary (itineraries flight) ->
                  within_duration max_duration itinerary /\
                  within_stops max_stops itinerary /\
                  airline_allowed airlines flight /\
                  cabin_offered cabin_class flight)).
  { induction Hdur as [|it its Hit _ IH]; intro add_flight.
    - exists add_flight. split; [reflexivity|]. simpl. tauto.
    - destruct (check_itinerary_spec flight it add_flight Hcodes Hit) as (b & Hb & Hiff).
      destruct (IH b) as (b' & Hb' & Hiff').
      exists b'. simpl. rewrite Hb. split; [exact Hb'|].
      rewrite Hiff', Hiff. split.
      + intros [[Ha Hcrit] Hrest]. split; [assumption|].
        intros i [<-|Hi]; auto.
      + intros [Ha Hall]. split; [split; [assumption|]|]; auto. }
  destruct (G true) as (b & Hb & Hiff).
  exists b. split; [exact Hb|]. rewrite Hiff. tauto.
Qed.

Lemma filter_flights_retains (flights : list Flight) :
  Forall well_formed flights ->
  exists out,
    filter_flights flights max_duration max_stops airlines cabin_class = Ok out /\
    subseq out flights /\
    forall f,
      In f out <->
      In f flights /\
      forall itinerary, In itinerary (itineraries f) ->
        within_duration max_duration itinerary /\
        within_stops max_stops itinerary /\
        airline_allowed airlines f /\
        cabin_offered cabin_class f.
Proof.
  intro Hwf.
  destruct (filter_loop_total (verdict max_duration max_stops airlines cabin_class)
              flights []) as [out Hout].
  { apply Forall_forall. intros f Hf. rewrite Forall_forall in Hwf.
    destruct (verdict_spec f (Hwf f Hf)) as (b & Hb & _). exists b. exact Hb. }
  exists out. split; [exact Hout|].
  destruct (filter_loop _ _ _ _ Hout) as (kept & -> & Hs & Hin).
  split; [exact Hs|].
  intro f. simpl. rewrite Hin. split.
  - intros [Hf Hv]. split; [exact Hf|].
    rewrite Forall_forall in Hwf.
    destruct (verdict_spec f (Hwf f Hf)) as (b & Hb & Hiff).
    apply Hiff. congruence.
  - intros [Hf Hcrit]. split; [exact Hf|].
    rewrite Forall_forall in Hwf.
    destruct (verdict_spec f (Hwf f Hf)) as (b & Hb & Hiff).
    rewrite Hb. f_equal. apply Hiff. exact Hcrit.
Qed.

End FilterFacts.

Lemma filter_flights_no_criteria (flights : list Flight) :
  filter_flights flights None None None None = Ok flights.
Proof.
  unfold filter_flights.
  assert (G : forall acc,
             rfor_each flights
               (fun filtered_flights flight =>
                  let? add_flight :=
                    rfor_each (itineraries flight)
                      (check_itinerary flight None None None None) true in
                  Ok (if add_flight then filtered_flights ++ [flight]
                      else filtered_flights)%list)
               acc = Ok (acc ++ flights)%list).
  { induction flights as [|f flights IH]; intro acc; simpl.
    - rewrite app_nil_r. reflexivity.
    - assert (V : rfor_each (itineraries f)
                    (check_itinerary f None None None None) true = Ok true).
      { induction (itineraries f) as [|it its IHi]; [reflexivity|exact IHi]. }
      rewrite V. simpl. rewrite IH, <- app_assoc. reflexivity. }
  exact (G []).
Qed.

(** C1 (amended).  With a cabin class supplied, [filter_flights] retains an
    offer exactly when, for each of its itineraries, the other active
    criteria hold and every traveler has at least one fare detail in the
    requested cabin: the cabin rule is existential over the fare details of
    a traveler and universal over the travelers. *)
Theorem filter_flights_cabin max_duration max_stops airlines wanted flights :
  wanted <> "" ->
  Forall well_formed flights ->
  exists out,
    filter_flights flights max_duration max_stops airlines (Some wanted) = Ok out /\
    forall f,
      In f out <->
      In f flights /\
      forall itinerary, In itinerary (itineraries f) ->
        within_duration max_duration itinerary /\
        within_stops max_stops itinerary /\
        airline_allowed airlines f /\
        every_traveler_books wanted f.
Proof.
  intros Hw Hwf.
  assert (E : active_string (Some wanted) = Some wanted).
  { simpl. apply String.eqb_neq in Hw. rewrite Hw. reflexivity. }
  destruct (filter_flights_retains max_duration max_stops airlines (Some wanted)
              flights Hwf) as (out & Hout & _ & Hin).
  exists out. split; [exact Hout|].
  intro f. rewrite Hin. unfold cabin_offered. rewrite E. tauto.
Qed.

(** C8.  Without criteria [filter_flights] returns its input, unchanged
    and in the same order; with any criteria, what it returns is an
    order-preserving subsequence of its input, and it does return on
    well-formed offers. *)
Theorem filter_flights_subsequence (flights : list Flight) :
  filter_flights flights None None None None = Ok flights /\
  (forall max_duration max_stops airlines cabin_class out,
      filter_flights flights max_duration max_stops airlines cabin_class = Ok out ->
      subseq out flights) /\
  (forall max_duration max_stops airlines cabin_class,
      Forall well_formed flights ->
      exists out,
        filter_flights flights max_duration max_stops airlines cabin_class = Ok out /\
        subseq out flights).
Proof.
  repeat split.
  - apply filter_flights_no_criteria.
  - intros md ms al cc out H. unfold filter_flights in H.
    destruct (filter_loop _ _ _ _ H) as (kept & -> & Hs & _). exact Hs.
  - intros md ms al cc Hwf.
    destruct (filter_flights_retains md ms al cc flights Hwf) as (out & Hout & Hs & _).
    exists out. split; assumption.
Qed.

(** C10.  A limit of zero is no limit: [max_stops=0] filters as an omitted
    [max_stops] does, and [max_duration=0] as an omitted [max_duration];
    alone, either retains every offer, whatever its stops and durations. *)
Theorem filter_flights_zero_limit flights max_duration max_stops airlines cabin_class :
  filter_flights flights max_duration (Some 0) airlines cabin_class
  = filter_flights flights max_duration None airlines cabin_class /\
  filter_flights flights (Some 0) max_stops airlines cabin_class
  = filter_flights flights None max_stops airlines cabin_class /\
  filter_flights flights None (Some 0) None None = Ok flights /\
  filter_flights flights (Some 0) None None None = Ok flights.
Proof.
  split; [reflexivity|]. split; [reflexivity|].
  split; apply filter_flights_no_criteria.
Qed.

(** ** Dictionaries *)

Lemma dict_get_set_same {V} (key : string) (v : V) (d : dict V) :
  dict_get key (dict_set key v d) = Some v.
Proof.
  induction d as [|[k w] d IH]; simpl.
  - rewrite String.eqb_refl. reflexivity.
  - destruct (k =? key)%string eqn:E; simpl; rewrite E; [reflexivity|exact IH].
Qed.

Lemma dict_get_set_other {V} (key other : string) (v : V) (d : dict V) :
  other <> key -> dict_get other (dict_set key v d) = dict_get other d.
Proof.
  intro Hne. induction d as [|[k w] d IH]; simpl.
  - assert (E : (key =? other)%string = false)
      by (apply String.eqb_neq; congruence).
    rewrite E. reflexivity.
  - destruct (k =? key)%string eqn:E; simpl.
    + apply String.eqb_eq in E. subst k.
      assert (E' : (key =? other)%string = false)
        by (apply String.eqb_neq; congruence).
      rewrite E'. reflexivity.
    + rewrite IH. reflexivity.
Qed.

Lemma dict_set_Forall {V} (P : V -> Prop) (key : string) (v : V) (d : dict V) :
  P v -> Forall (fun e => P (snd e)) d -> Forall (fun e => P (snd e)) (dict_set key v d).
Proof.
  intros Hv H. induction H as [|[k w] d Hw Hd IH]; simpl.
  - constructor; [exact Hv|constructor].
  - destruct (k =? key)%string; constructor; auto.
Qed.

Lemma keys_dict_set {V} (key : string) (v : V) (d : dict V) :
  dict_mem key d = true -> keys (dict_set key v d) = keys d.
Proof.
  unfold dict_mem, keys. induction d as [|[k w] d IH]; simpl; [discriminate|].
  destruct (k =? key)%string; simpl; [reflexivity|].
  intro H. rewrite IH; [reflexivity|exact H].
Qed.

(** ** Price statistics *)

Section StatisticsFacts.

Lemma insert_sorted_perm (x : Q) (xs : list Q) : Permutation (insert_sorted x xs) (x :: xs).
Proof.
  induction xs as [|y ys IH]; simpl.
  - apply Permutation_refl.
  - destruct (Qle_bool x y).
    + apply Permutation_refl.
    + eapply perm_trans; [apply perm_skip, IH | apply perm_swap].
Qed.

Lemma sorted_perm (data : list Q) : Permutation (sorted data) data.
Proof.
  induction data as [|x xs IH]; simpl.
  - constructor.
  - eapply perm_trans; [apply insert_sorted_perm | apply perm_skip, IH].
Qed.

Lemma insert_sorted_ascending (x : Q) (xs : list Q) :
  Sorted Qle xs -> Sorted Qle (insert_sorted x xs).
Proof.
  induction 1 as [|y ys Hs IH Hhd]; simpl.
  - repeat constructor.
  - destruct (Qle_bool x y) eqn:E.
    + apply Qle_bool_iff in E. repeat constructor; assumption.
    + assert (Hyx : (y <= x)%Q).
      { destruct (Qlt_le_dec y x) as [Hlt|Hle]; [apply Qlt_le_weak; exact Hlt|].
        apply Qle_bool_iff in Hle. congruence. }
      constructor; [exact IH|].
      destruct ys as [|z zs]; simpl.
      * constructor. exact Hyx.
      * inversion Hhd; subst. destruct (Qle_bool x z); constructor; assumption.
Qed.

Lemma sorted_ascending (data : list Q) : Sorted Qle (sorted data).
Proof.
  induction data as [|x xs IH]; simpl.
  - constructor.
  - apply insert_sorted_ascending, IH.
Qed.

Lemma sorted_length (data : list Q) : List.length (sorted data) = List.length data.
Proof. apply Permutation_length, sorted_perm. Qed.

Lemma median_nonempty (data : list Q) :
  data <> [] -> exists m, median data = Ok m /\ is_median data m.
Proof.
  intro Hne. unfold median, is_median. rewrite sorted_length.
  destruct data as [|x xs]; [contradiction|].
  remember (List.length (x :: xs)) as n eqn:Hn.
  destruct n as [|k]; [discriminate Hn|]. cbv beta iota.
  destruct (Nat.odd (S k)) eqn:O.
  - eexists. split; [reflexivity|].
    exists (sorted (x :: xs)).
    split; [apply sorted_perm|]. split; [apply sorted_ascending|].
    rewrite <- Nat.negb_odd, O. reflexivity.
  - eexists. split; [reflexivity|].
    exists (sorted (x :: xs)).
    split; [apply sorted_perm|]. split; [apply sorted_ascending|].
    rewrite <- Nat.negb_odd, O. reflexivity.
Qed.

Lemma fold_left_Qplus (values : list Q) (start : Q) :
  (fold_left Qplus values start == start + total_of values)%Q.
Proof.
  revert start. induction values as [|x xs IH]; intro start; simpl.
  - ring.
  - rewrite IH. ring.
Qed.

Lemma np_mean_arithmetic (prices : list Q) : (np_mean prices == arithmetic_mean prices)%Q.
Proof.
  unfold np_mean, arithmetic_mean, fsum.
  rewrite fold_left_Qplus. apply Qdiv_comp; [ring|reflexivity].
Qed.

Lemma extend_app (so_far : option (list Q)) (g1 g2 : list Q) :
  extend (extend so_far g1) g2 = extend so_far (g1 ++ g2).
Proof.
  destruct g1 as [|x g1]; [reflexivity|].
  destruct g2 as [|y g2].
  - rewrite app_nil_r. reflexivity.
  - destruct so_far; simpl; rewrite <- ?app_assoc; reflexivity.
Qed.

(** The grouping loop, lines 204-211. *)
Lemma grouping_loop (flights : list Flight) (airline_prices : dict (list Q)) :
  Forall (fun f => validatingAirlineCodes f <> []) flights ->
  Forall (fun e => snd e <> []) airline_prices ->
  exists grouped,
    rfor_each flights
      (fun (airline_prices : dict (list Q)) flight =>
         let? airline_code := item0 (validatingAirlineCodes flight) in
         let price := total (price flight) in
         Ok (match dict_get airline_code airline_prices with
             | Some prices => dict_set airline_code (prices ++ [price])%list airline_prices
             | None => dict_set airline_code [price] airline_prices
             end))
      airline_prices = Ok grouped /\
    Forall (fun e => snd e <> []) grouped /\
    forall airline,
      dict_get airline grouped
      = extend (dict_get airline airline_prices) (group_prices airline flights).
Proof.
  intro Hcodes. revert airline_prices.
  induction Hcodes as [|f flights Hf _ IH]; intros d Hd.
  - exists d. split; [reflexivity|]. split; [exact Hd|]. reflexivity.
  - destruct (validatingAirlineCodes f) as [|code others] eqn:Hc; [contradiction|].
    cbn [rfor_each]. rewrite Hc. cbn [item0 rbind].
    set (d1 := match dict_get code d with
               | Some prices => dict_set code (prices ++ [total (price f)])%list d
               | None => dict_set code [total (price f)] d
               end).
    assert (Hd1 : Forall (fun e => snd e <> []) d1).
    { subst d1. destruct (dict_get code d) as [prices|];
        apply (dict_set_Forall (fun v : list Q => v <> [])); try exact Hd.
      - destruct prices; discriminate.
      - discriminate. }
    assert (Hg1 : forall airline,
               dict_get airline d1
               = extend (dict_get airline d) (group_prices airline [f])).
    { intro airline. unfold group_prices, validated_by. cbn [filter]. rewrite Hc.
      subst d1. destruct (code =? airline)%string eqn:E.
      - apply String.eqb_eq in E. subst airline.
        destruct (dict_get code d) as [prices|]; rewrite dict_get_set_same; reflexivity.
      - apply String.eqb_neq in E.
        destruct (dict_get code d) as [prices|];
          rewrite dict_get_set_other by congruence; reflexivity. }
    destruct (IH d1 Hd1) as (grouped & Hrun & Hne & Hget).
    exists grouped. split; [exact Hrun|]. split; [exact Hne|].
    intro airline. rewrite Hget, Hg1, extend_app.
    unfold group_prices. cbn [filter app].
    destruct (validated_by airline f); reflexivity.
Qed.

(** The loop that turns each group into its statistics, lines 214-219. *)
Lemma statistics_loop (airline_prices : dict (list Q)) :
  Forall (fun e => snd e <> []) airline_prices ->
  exists statistics,
    rmap (fun entry : string * list Q =>
            let (airline_code, prices) := entry in
            let? m := median prices in
            Ok (airline_code, {| mean := np_mean prices; median_ := m |}))
         airline_prices = Ok statistics /\
    forall airline,
      match dict_get airline airline_prices with
      | Some prices =>
          exists stats,
            dict_get airline statistics = Some stats /\
            mean stats = np_mean prices /\ is_median prices (median_ stats)
      | None => dict_get airline statistics = None
      end.
Proof.
  induction 1 as [|[code prices] d Hp _ (statistics & Hrun & Hget)].
  - exists []. split; reflexivity.
  - simpl in Hp. destruct (median_nonempty prices Hp) as (m & Hm & Hmed).
    exists ((code, {| mean := np_mean prices; median_ := m |}) :: statistics).
    split.
    + cbn [rmap]. rewrite Hm. cbn [rbind]. rewrite Hrun. reflexivity.
    + intro airline. simpl. destruct (code =? airline)%string.
      * eexists. split; [reflexivity|]. split; [reflexivity|exact Hmed].
      * apply Hget.
Qed.

(** C9.  [calculate_statistics] groups the [price.total] values by the
    first validating-airline code: an airline that validates no offer has
    no entry, and the entry of any other airline holds the arithmetic mean
    of its group and the statistical median of its group, which for a group
    of even size is the average of the two middle values. *)
Theorem calculate_statistics_by_airline (flights : list Flight) :
  Forall (fun f => validatingAirlineCodes f <> []) flights ->
  exists statistics,
    calculate_statistics flights = Ok statistics /\
    forall airline,
      let prices := group_prices airline flights in
      (prices = [] -> dict_get airline statistics = None) /\
      (prices <> [] ->
       exists stats,
         dict_get airline statistics = Some stats /\
         (mean stats == arithmetic_mean prices)%Q /\
         is_median prices (median_ stats)).
Proof.
  intro Hcodes.
  destruct (grouping_loop flights [] Hcodes (Forall_nil _)) as (grouped & Hrun & Hne & Hget).
  destruct (statistics_loop grouped Hne) as (statistics & Hstat & Hentries).
  exists statistics. split.
  - unfold calculate_statistics. cbv zeta in Hrun |- *. rewrite Hrun. exact Hstat.
  - intros airline prices. specialize (Hentries airline).
    rewrite Hget in Hentries. cbn [dict_get] in Hentries. fold prices in Hentries.
    split; intro Hp.
    + rewrite Hp in Hentries. exact Hentries.
    + destruct prices as [|x xs]; [contradiction|]. cbn [extend] in Hentries.
      destruct Hentries as (stats & Hs & Hmean & Hmed).
      exists stats. split; [exact Hs|]. split; [|exact Hmed].
      rewrite Hmean. apply np_mean_arithmetic.
Qed.

End StatisticsFacts.

(** ** Average price by weekday *)

Lemma keys_dict_set_new {V} (key : string) (v : V) (d : dict V) :
  dict_get key d = None -> keys (dict_set key v d) = (keys d ++ [key])%list.
Proof.
  unfold keys. induction d as [|[k w] d IH]; simpl; [reflexivity|].
  destruct (k =? key)%string; [discriminate|].
  intro H. simpl. rewrite IH; [reflexivity|exact H].
Qed.

Lemma keys_dict_set_old {V} (key : string) (v w : V) (d : dict V) :
  dict_get key d = Some w -> keys (dict_set key v d) = keys d.
Proof.
  unfold keys. induction d as [|[k u] d IH]; simpl; [discriminate|].
  destruct (k =? key)%string; simpl; [reflexivity|].
  intro H. rewrite IH; [reflexivity|exact H].
Qed.

Lemma In_keys {V} (key : string) (d : dict V) :
  In key (keys d) <-> dict_get key d <> None.
Proof.
  unfold keys. induction d as [|[k w] d IH]; simpl.
  - split; [contradiction|intro H; apply H; reflexivity].
  - destruct (k =? key)%string eqn:E.
    + apply String.eqb_eq in E. split; [discriminate|auto].
    + apply String.eqb_neq in E. rewrite <- IH. split; [intros [?|?]|]; tauto.
Qed.

Section WeekdayFacts.

Variable _get_weekday : string -> result string.

Lemma event_bucket_app day (done more : list (Flight * Segment)) :
  event_bucket _get_weekday day (done ++ more)
  = (event_bucket _get_weekday day done ++ event_bucket _get_weekday day more)%list.
Proof. unfold event_bucket. rewrite filter_app, map_app. reflexivity. Qed.

Lemma bucket_events day (flights : list Flight) :
  bucket _get_weekday day flights = event_bucket _get_weekday day (events flights).
Proof.
  unfold bucket, event_bucket, events.
  induction flights as [|f flights IH]; [reflexivity|].
  cbn [flat_map]. rewrite filter_app, map_app, IH. f_equal.
  induction (offer_segments f) as [|s ss IHs]; [reflexivity|].
  cbn [map filter snd]. destruct (departs_on _get_weekday day s); simpl; rewrite IHs; reflexivity.
Qed.

Lemma summary_some_sum (prices : list Q) (sum : Q) :
  fst (summary prices) = Some sum ->
  prices <> [] /\ sum = fsum prices /\
  snd (summary prices) = Some (Z.of_nat (List.length prices)).
Proof.
  destruct prices; simpl; [discriminate|].
  intro H. injection H as <-. repeat split. discriminate.
Qed.

Lemma summary_none (prices : list Q) :
  fst (summary prices) = None -> prices = [] /\ snd (summary prices) = None.
Proof. destruct prices; simpl; [split; reflexivity|discriminate]. Qed.

Lemma summary_snoc (prices : list Q) (p : Q) :
  summary (prices ++ [p])
  = (Some (match fst (summary prices) with Some sum => sum | None => 0 end + p)%Q,
     Some (match snd (summary prices) with Some count => count | None => 0 end + 1)).
Proof.
  destruct prices as [|x xs].
  - reflexivity.
  - change (summary ((x :: xs) ++ [p]))
      with (Some (fsum ((x :: xs) ++ [p])), Some (Z.of_nat (List.length ((x :: xs) ++ [p])))).
    cbn [summary fst snd]. unfold fsum. rewrite fold_left_app, length_app.
    cbn [fold_left List.length]. f_equal. f_equal. lia.
Qed.

(** One pass of the innermost loop body. *)
Lemma add_segment_tracks (flight : Flight) (segment : Segment) (day : string)
    (st : dict Q * dict Z) (visited : list (Flight * Segment)) :
  _get_weekday (at_ (departure segment)) = Ok day ->
  tracks _get_weekday st visited ->
  exists st',
    add_segment _get_weekday flight st segment = Ok st' /\
    tracks _get_weekday st' (visited ++ [(flight, segment)]).
Proof.
  intros Hday [Hnodup Hst]. destruct st as [P C]. cbn [fst snd] in *.
  unfold add_segment. rewrite Hday. cbn [rbind].
  assert (Hown : event_bucket _get_weekday day [(flight, segment)]
                 = [grandTotal (price flight)]).
  { unfold event_bucket, departs_on. cbn [filter snd]. rewrite Hday, String.eqb_refl.
    reflexivity. }
  assert (Hother : forall other, other <> day ->
             event_bucket _get_weekday other [(flight, segment)] = []).
  { intros other Hne. unfold event_bucket, departs_on. cbn [filter snd]. rewrite Hday.
    assert (E : (day =? other)%string = false) by (apply String.eqb_neq; congruence).
    rewrite E. reflexivity. }
  pose proof (Hst day) as Hd. halves Hd HP HC.
  unfold dict_mem.
  destruct (dict_get day P) as [sum|] eqn:EP; cbn [negb].
  - (* the day has its bucket already *)
    unfold dict_item. rewrite EP. cbn [rbind].
    symmetry in HP. destruct (summary_some_sum _ _ HP) as (Hne & Hsum & Hcount).
    rewrite Hcount in HC. rewrite HC. cbn [rbind].
    eexists. split; [reflexivity|]. split; cbn [fst snd].
    + rewrite (keys_dict_set_old _ _ _ _ EP). exact Hnodup.
    + intro other. rewrite event_bucket_app.
      destruct (String.eqb_spec other day) as [->|Hne'].
      * rewrite !dict_get_set_same, Hown, summary_snoc, HP, Hcount. reflexivity.
      * rewrite !dict_get_set_other by exact Hne'.
        rewrite (Hother other Hne'), app_nil_r. apply Hst.
  - (* first segment of the day *)
    symmetry in HP. destruct (summary_none _ HP) as (Hnil & Hcount).
    rewrite Hcount in HC.
    unfold dict_item. rewrite !dict_get_set_same. cbn [rbind].
    eexists. split; [reflexivity|]. split; cbn [fst snd].
    + rewrite (keys_dict_set_old _ _ 0%Q _ (dict_get_set_same day 0%Q P)).
      rewrite (keys_dict_set_new _ _ _ EP).
      apply NoDup_app; [exact Hnodup | repeat constructor; simpl; tauto |].
      intros k Hk [<-|[]]. apply In_keys in Hk. congruence.
    + intro other. rewrite event_bucket_app.
      destruct (String.eqb_spec other day) as [->|Hne'].
      * rewrite !dict_get_set_same, Hown, summary_snoc, HP, Hcount. reflexivity.
      * rewrite !dict_get_set_other by exact Hne'.
        rewrite (Hother other Hne'), app_nil_r. apply Hst.
Qed.

Lemma events_loop (more visited : list (Flight * Segment)) (st : dict Q * dict Z) :
  Forall (fun e => exists day, _get_weekday (at_ (departure (snd e))) = Ok day) more ->
  tracks _get_weekday st visited ->
  exists st',
    rfor_each more (fun st e => add_segment _get_weekday (fst e) st (snd e)) st = Ok st' /\
    tracks _get_weekday st' (visited ++ more).
Proof.
  intro H. revert visited st.
  induction H as [|[f s] more [day Hday] _ IH]; intros visited st Hst.
  - exists st. split; [reflexivity|]. rewrite app_nil_r. exact Hst.
  - destruct (add_segment_tracks f s day st visited Hday Hst) as (st1 & Hrun & Hst1).
    destruct (IH _ _ Hst1) as (st' & Hrun' & Hst').
    exists st'. cbn [rfor_each fst snd]. rewrite Hrun. cbn [rbind].
    split; [exact Hrun'|]. rewrite <- app_assoc in Hst'. exact Hst'.
Qed.

(** The three nested loops visit [events flights]. *)
Lemma nested_loops (flights : list Flight) (st : dict Q * dict Z) :
  rfor_each flights
    (fun st flight =>
       rfor_each (itineraries flight)
         (fun st itinerary =>
            rfor_each (segments itinerary) (add_segment _get_weekday flight) st)
         st)
    st
  = rfor_each (events flights)
      (fun st e => add_segment _get_weekday (fst e) st (snd e)) st.
Proof.
  unfold events. rewrite rfor_each_flat_map.
  apply rfor_each_ext. intros st' f.
  rewrite rfor_each_map. unfold offer_segments. rewrite rfor_each_flat_map.
  reflexivity.
Qed.

(** The closing loop, lines 477-478. *)
Lemma average_loop (count_by_day : dict Z) (days : list string) (prices_by_day : dict Q) :
  NoDup days ->
  (forall day, In day days ->
     exists sum count,
       dict_get day prices_by_day = Some sum /\
       dict_get day count_by_day = Some count /\ count <> 0) ->
  exists averages,
    rfor_each days
      (fun prices_by_day day =>
         let? sum := dict_item day prices_by_day in
         let? count := dict_item day count_by_day in
         let? average := truediv sum (inject_Z count) in
         Ok (dict_set day average prices_by_day))
      prices_by_day = Ok averages /\
    forall day,
      (In day days ->
       exists sum count,
         dict_get day prices_by_day = Some sum /\
         dict_get day count_by_day = Some count /\
         dict_get day averages = Some (sum / inject_Z count)%Q) /\
      (~ In day days -> dict_get day averages = dict_get day prices_by_day).
Proof.
  intro Hnd. revert prices_by_day.
  induction Hnd as [|k days Hk Hnd IH]; intros P Hall.
  - exists P. split; [reflexivity|]. intro day. split; [contradiction|reflexivity].
  - destruct (Hall k (or_introl eq_refl)) as (sum & count & HP & HC & Hnz).
    cbn [rfor_each]. unfold dict_item at 1 2. rewrite HP, HC. cbn [rbind].
    rewrite (truediv_nonzero _ _ (inject_Z_nonzero _ Hnz)). cbn [rbind].
    destruct (IH (dict_set k (sum / inject_Z count)%Q P)) as (averages & Hrun & Hget).
    { intros day Hday.
      assert (day <> k) by (intros ->; contradiction).
      rewrite dict_get_set_other by assumption.
      apply Hall. right. exact Hday. }
    exists averages. split; [exact Hrun|].
    intro day. split.
    + intros [<-|Hday].
      * exists sum, count. repeat split; try assumption.
        rewrite (proj2 (Hget k) Hk). apply dict_get_set_same.
      * assert (day <> k) by (intros ->; contradiction).
        destruct (proj1 (Hget day) Hday) as (s' & c' & HP' & HC' & HA).
        rewrite dict_get_set_other in HP' by assumption.
        exists s', c'. repeat split; assumption.
    + intro Hnot.
      assert (day <> k) by (intros ->; apply Hnot; left; reflexivity).
      rewrite (proj2 (Hget day)) by (intro; apply Hnot; right; assumption).
      apply dict_get_set_other. assumption.
Qed.

Lemma repeat_map {A B} (c : B) (xs : list A) :
  map (fun _ => c) xs = repeat c (List.length xs).
Proof. induction xs as [|x xs IH]; simpl; [reflexivity|rewrite IH; reflexivity]. Qed.

Lemma bucket_repeat day (flights : list Flight) :
  bucket _get_weekday day flights
  = flat_map (fun flight =>
                repeat (grandTotal (price flight))
                       (List.length (filter (departs_on _get_weekday day)
                                            (offer_segments flight))))
             flights.
Proof.
  unfold bucket. induction flights as [|f fs IHf]; [reflexivity|].
  cbn [flat_map]. rewrite repeat_map, IHf. reflexivity.
Qed.

(** C5.  [analyze_prices_by_weekday] puts the [grandTotal] of an offer
    into the bucket of a weekday once for each segment of the offer that
    departs on that day, over all its itineraries, and returns for each
    weekday with a non-empty bucket the sum of the bucket, accumulated from
    zero in the order of the visit, divided by the size of the bucket; a
    weekday no segment departs on has no entry. *)
Theorem analyze_prices_by_weekday_buckets (flights : list Flight) :
  Forall (datable _get_weekday) flights ->
  exists averages,
    analyze_prices_by_weekday _get_weekday flights = Ok averages /\
    forall day,
      let prices := bucket _get_weekday day flights in
      prices
      = flat_map (fun flight =>
                    repeat (grandTotal (price flight))
                           (List.length (filter (departs_on _get_weekday day)
                                                (offer_segments flight))))
                 flights /\
      (prices = [] -> dict_get day averages = None) /\
      (prices <> [] ->
       dict_get day averages
       = Some (fsum prices / inject_Z (Z.of_nat (List.length prices)))%Q).
Proof.
  intro Hdat.
  assert (Hev : Forall (fun e => exists day, _get_weekday (at_ (departure (snd e))) = Ok day)
                       (events flights)).
  { unfold events. apply Forall_flat_map.
    eapply Forall_impl; [|exact Hdat]. intros f Hf.
    apply Forall_map. exact Hf. }
  assert (Hinit : tracks _get_weekday ([], []) []).
  { split; [constructor|]. intro day. reflexivity. }
  destruct (events_loop (events flights) [] ([], []) Hev Hinit) as ([P C] & Hrun & Hnd & Hst).
  cbn [app fst snd] in *.
  destruct (average_loop C (keys P) P Hnd) as (averages & Havg & Hget).
  { intros day Hday. apply In_keys in Hday.
    specialize (Hst day). halves Hst HP HC.
    destruct (dict_get day P) as [sum|] eqn:EP; [|contradiction].
    symmetry in HP. destruct (summary_some_sum _ _ HP) as (Hne & _ & Hcount).
    exists sum, (Z.of_nat (List.length (event_bucket _get_weekday day (events flights)))).
    split; [reflexivity|]. split; [congruence|].
    destruct (event_bucket _get_weekday day (events flights)); [contradiction|simpl; lia]. }
  exists averages. split.
  - unfold analyze_prices_by_weekday. rewrite nested_loops, Hrun. exact Havg.
  - intros day. split; [|split].
    + apply bucket_repeat.
    + rewrite bucket_events. intro Hnil.
      specialize (Hst day). rewrite Hnil in Hst. halves Hst HP HC.
      rewrite (proj2 (Hget day)); [exact HP|].
      intro Hin. apply In_keys in Hin. contradiction.
    + rewrite bucket_events. intro Hne.
      specialize (Hst day). halves Hst HP HC.
      destruct (event_bucket _get_weekday day (events flights)) as [|x xs] eqn:EB;
        [contradiction|].
      cbn [summary fst snd] in HP, HC.
      assert (Hin : In day (keys P)) by (apply In_keys; congruence).
      destruct (proj1 (Hget day) Hin) as (sum & count & HP' & HC' & HA).
      rewrite HA. congruence.
Qed.

End WeekdayFacts.

(** ** Seat maps *)

Section SeatMapFacts.

Import SeatMap.

Lemma for_each_step {A S} (x : A) (xs : list A) (body : S -> A -> M S) (acc acc' : S) :
  body acc x = ([], Ok acc') ->
  for_each (x :: xs) body acc = for_each xs body acc'.
Proof. intro H. simpl. rewrite H. apply bind_ret. Qed.

Lemma lookup_head key v rest : lookup key ((key, v) :: rest) = Some v.
Proof. simpl. rewrite String.eqb_refl. reflexivity. Qed.

Lemma get_head key v rest default :
  get (VDict ((key, v) :: rest)) key default = Ok v.
Proof. unfold get. rewrite lookup_head. reflexivity. Qed.

Lemma subscript_head key v rest : subscript (VDict ((key, v) :: rest)) key = Ok v.
Proof. unfold subscript. rewrite lookup_head. reflexivity. Qed.

Lemma guard_head v rest :
  truthy (VDict (("data", v) :: rest)) && is_dict (VDict (("data", v) :: rest))
  && has_key "data" (VDict (("data", v) :: rest)) = true.
Proof. reflexivity. Qed.

Lemma count_pricing_encoded (a t : Z) (s : status) :
  count_pricing (a, t) (encode_pricing s)
  = ([], Ok (if is_available s then (a + 1, t) else (a, t))).
Proof. destruct s; reflexivity. Qed.

Lemma count_pricings_encoded (ps : list status) (a t : Z) :
  for_each (map encode_pricing ps) count_pricing (a, t)
  = ([], Ok (a + Z.of_nat (List.length (filter is_available ps)), t)).
Proof.
  revert a. induction ps as [|p ps IH]; intro a.
  - simpl. unfold ret. same_counts.
  - cbn [map].
    rewrite (for_each_step _ _ _ _ _ (count_pricing_encoded a t p)).
    destruct (is_available p) eqn:E; cbn [filter]; rewrite E, IH.
    + cbn [List.length]. same_counts.
    + reflexivity.
Qed.

Lemma count_seat_encoded (a t : Z) (s : seat) :
  count_seat (a, t) (encode_seat s)
  = ([], Ok (a + Z.of_nat (List.length (filter is_available (travelerPricing s))), t + 1)).
Proof.
  unfold count_seat, encode_seat. cbn [fst snd].
  rewrite get_head, bind_lift_Ok. cbn [iter]. rewrite bind_lift_Ok.
  apply count_pricings_encoded.
Qed.

Lemma count_seats_encoded (ss : list seat) (a t : Z) :
  for_each (map encode_seat ss) count_seat (a, t)
  = ([], Ok (a + Z.of_nat (List.length (filter is_available (flat_map travelerPricing ss))),
             t + Z.of_nat (List.length ss))).
Proof.
  revert a t. induction ss as [|s ss IH]; intros a t.
  - simpl. unfold ret. same_counts.
  - cbn [map].
    rewrite (for_each_step _ _ _ _ _ (count_seat_encoded a t s)), IH.
    cbn [flat_map List.length]. rewrite filter_app, length_app.
    same_counts.
Qed.

Lemma count_deck_encoded (a t : Z) (d : deck) :
  count_deck (a, t) (encode_deck d)
  = ([], Ok (a + Z.of_nat (List.length (filter is_available (flat_map travelerPricing (seats d)))),
             t + Z.of_nat (List.length (seats d)))).
Proof.
  unfold count_deck, encode_deck.
  rewrite get_head, bind_lift_Ok. cbn [iter]. rewrite bind_lift_Ok.
  apply count_seats_encoded.
Qed.

Lemma count_decks_encoded (ds : list deck) (a t : Z) :
  for_each (map encode_deck ds) count_deck (a, t)
  = ([], Ok (a + Z.of_nat (List.length
                             (filter is_available
                                (flat_map travelerPricing (flat_map seats ds)))),
             t + Z.of_nat (List.length (flat_map seats ds)))).
Proof.
  revert a t. induction ds as [|d ds IH]; intros a t.
  - simpl. unfold ret. same_counts.
  - cbn [map].
    rewrite (for_each_step _ _ _ _ _ (count_deck_encoded a t d)), IH.
    cbn [flat_map]. rewrite flat_map_app, filter_app, !length_app.
    same_counts.
Qed.

(** On the expected shape the first counter is the number of AVAILABLE
    entries, the second the number of seats. *)
Lemma count_seats_expected (r : response) :
  count_seats (encode r)
  = ([], Ok (available_entries (first r), seat_count (first r))).
Proof.
  unfold count_seats, encode. rewrite guard_head.
  rewrite subscript_head, bind_lift_Ok. cbn [map subscript0]. rewrite bind_lift_Ok.
  unfold encode_seatmap at 1.
  rewrite get_head, bind_lift_Ok. cbn [iter]. rewrite bind_lift_Ok.
  rewrite count_decks_encoded. reflexivity.
Qed.

Lemma single_priced_counts (ss : list seat) :
  Forall (fun s => (List.length (filter is_available (travelerPricing s)) <= 1)%nat) ss ->
  List.length (filter is_available (flat_map travelerPricing ss))
  = List.length (filter (fun s => existsb is_available (travelerPricing s)) ss).
Proof.
  induction 1 as [|s ss Hs _ IH]; [reflexivity|].
  cbn [flat_map filter]. rewrite filter_app, length_app, IH.
  destruct (existsb is_available (travelerPricing s)) eqn:E.
  - apply existsb_exists in E. destruct E as (p & Hin & Hp).
    assert (In p (filter is_available (travelerPricing s)))
      by (apply filter_In; split; assumption).
    destruct (filter is_available (travelerPricing s)) as [|q [|q' l]];
      [contradiction | reflexivity | simpl in Hs; lia].
  - assert (filter is_available (travelerPricing s) = []) as ->; [|reflexivity].
    destruct (filter is_available (travelerPricing s)) as [|q l] eqn:F; [reflexivity|].
    assert (Hq : In q (filter is_available (travelerPricing s))) by (rewrite F; left; reflexivity).
    apply filter_In in Hq. destruct Hq as [Hin Hq].
    assert (existsb is_available (travelerPricing s) = true)
      by (apply existsb_exists; exists q; split; assumption).
    congruence.
Qed.

(** C2 (amended).  On a response of the expected shape in which no seat
    carries more than one traveler-pricing entry with status AVAILABLE,
    [count_seats] prints nothing and returns [(available, total)], where
    [total] is the number of seat entries across all decks of the first
    seat map and [available] is the number of those seats with at least one
    AVAILABLE entry, so that [available] does not exceed [total].  Three
    decks of ten seats with fifteen seats available give [(15, 30)]. *)
Theorem count_seats_counts (r : response) :
  (single_priced (first r) ->
   count_seats (encode r)
   = ([], Ok (available_seats (first r), seat_count (first r))) /\
   available_seats (first r) <= seat_count (first r)) /\
  count_seats (encode three_decks) = ([], Ok (15, 30)).
Proof.
  split; [|reflexivity].
  intro Hs. rewrite count_seats_expected.
  unfold available_entries, available_seats, seat_count.
  rewrite (single_priced_counts _ Hs). split; [reflexivity|].
  apply Nat2Z.inj_le, filter_length_le.
Qed.

(** C3 (amended).  An input that is empty or [None], is not a mapping, or
    has no [data] key makes [count_seats] print the unexpected-shape
    message and return [(0, 0)].  A first seat map without [decks], and
    decks without [seats], give [(0, 0)] with nothing printed. *)
Theorem count_seats_unexpected :
  (forall v,
      truthy v = false \/ is_dict v = false \/ has_key "data" v = false ->
      count_seats v = ([unexpected_seatmap], Ok (0, 0))) /\
  (forall fields rest,
      lookup "decks" fields = None ->
      count_seats (VDict [("data", VList (VDict fields :: rest))]) = ([], Ok (0, 0))) /\
  (forall decks rest,
      Forall (fun d => exists fields, d = VDict fields /\ lookup "seats" fields = None) decks ->
      count_seats (VDict [("data", VList (VDict [("decks", VList decks)] :: rest))])
      = ([], Ok (0, 0))).
Proof.
  repeat split.
  - intros v H. unfold count_seats.
    assert (E : truthy v && is_dict v && has_key "data" v = false).
    { destruct H as [H|[H|H]]; rewrite H;
        rewrite ?andb_false_r, ?andb_false_l; reflexivity. }
    rewrite E. reflexivity.
  - intros fields rest H. unfold count_seats. rewrite guard_head.
    rewrite subscript_head, bind_lift_Ok. cbn [subscript0]. rewrite bind_lift_Ok.
    cbn [get]. rewrite H, bind_lift_Ok. cbn [iter]. rewrite bind_lift_Ok.
    reflexivity.
  - intros decks rest H. unfold count_seats. rewrite guard_head.
    rewrite subscript_head, bind_lift_Ok. cbn [subscript0]. rewrite bind_lift_Ok.
    rewrite get_head, bind_lift_Ok. cbn [iter]. rewrite bind_lift_Ok.
    induction H as [|d ds (fields & -> & Hf) _ IH]; [reflexivity|].
    rewrite for_each_step with (acc' := (0, 0)); [exact IH|].
    unfold count_deck. cbn [get]. rewrite Hf, bind_lift_Ok.
    cbn [iter]. rewrite bind_lift_Ok. reflexivity.
Qed.

End SeatMapFacts.

(** ** Cost estimator *)

Section EstimatorFacts.

Variable geocode : string -> value.
Variable geodesic_km : value * value -> value * value -> result Q.

Lemma estimate_no_passengers aircraft bags dep arr fuel_price out km :
  calculate_distance geocode geodesic_km dep arr = (out, Ok (Some km)) ->
  estimate_flight_cost geocode geodesic_km aircraft 0 bags dep arr fuel_price
    = (out, Raise ZeroDivisionError).
Proof.
  intros Hd.
  unfold estimate_flight_cost; cbv zeta.
  rewrite Hd, bind_printed.
  unfold truediv_distance.
  rewrite (truediv_nonzero km 850) by (unfold Qeq; simpl; lia).
  rewrite bind_lift_Ok.
  rewrite (truediv_nonzero _ (inject_Z 41413)) by (apply inject_Z_nonzero; lia).
  rewrite bind_lift_Ok.
  rewrite (truediv_zero _ (inject_Z 0)) by reflexivity.
  rewrite bind_lift_Raise.
  unfold fst, snd. rewrite app_nil_r. reflexivity.
Qed.

Lemma estimate_unresolved aircraft passengers bags dep arr fuel_price out :
  calculate_distance geocode geodesic_km dep arr = (out, Ok None) ->
  estimate_flight_cost geocode geodesic_km aircraft passengers bags dep arr fuel_price
    = (out, Raise TypeError).
Proof.
  intros Hd.
  unfold estimate_flight_cost; cbv zeta.
  rewrite Hd, bind_printed.
  unfold truediv_distance. rewrite bind_lift_Raise.
  unfold fst, snd. rewrite app_nil_r. reflexivity.
Qed.

Lemma estimate_raises aircraft passengers bags dep arr fuel_price out e :
  calculate_distance geocode geodesic_km dep arr = (out, Raise e) ->
  estimate_flight_cost geocode geodesic_km aircraft passengers bags dep arr fuel_price
    = (out, Raise e).
Proof.
  intros Hd. unfold estimate_flight_cost; cbv zeta. rewrite Hd. reflexivity.
Qed.

(** C4 (the code at the failing input).  When [calculate_distance] yields
    [None], [estimate_flight_cost] does not report a failure value: the
    division [None / 850] raises [TypeError], and the simulation of
    [main.py], which does not catch it, ends with that exception before it
    prints anything of the estimate. *)
Theorem estimate_unresolved_raises :
  (forall aircraft passengers bags dep arr fuel_price out,
      calculate_distance geocode geodesic_km dep arr = (out, Ok None) ->
      estimate_flight_cost geocode geodesic_km aircraft passengers bags dep arr fuel_price
        = (out, Raise TypeError)) /\
  (forall show_estimate out,
      calculate_distance geocode geodesic_km "CDG" "ALG" = (out, Ok None) ->
      main_cost_simulation geocode geodesic_km show_estimate = (out, Raise TypeError)).
Proof.
  split.
  - intros. apply estimate_unresolved. assumption.
  - intros show_estimate out Hd. unfold main_cost_simulation.
    rewrite (estimate_unresolved _ _ _ _ _ _ _ Hd). reflexivity.
Qed.

(** C7.  Called with no passengers, the estimator never returns an
    estimate: once the distance is resolved, the division of the total cost
    by the passenger count raises [ZeroDivisionError]. *)
Theorem estimate_zero_passengers aircraft bags dep arr fuel_price :
  (forall out km,
      calculate_distance geocode geodesic_km dep arr = (out, Ok (Some km)) ->
      estimate_flight_cost geocode geodesic_km aircraft 0 bags dep arr fuel_price
        = (out, Raise ZeroDivisionError)) /\
  (forall out c,
      estimate_flight_cost geocode geodesic_km aircraft 0 bags dep arr fuel_price
        <> (out, Ok c)).
Proof.
  split.
  - intros out km Hd. apply estimate_no_passengers with (km := km). exact Hd.
  - intros out c.
    destruct (calculate_distance geocode geodesic_km dep arr) as [out' [[km|]|e]] eqn:Hd.
    + rewrite (estimate_no_passengers _ _ _ _ _ _ _ Hd). discriminate.
    + rewrite (estimate_unresolved _ _ _ _ _ _ _ Hd). discriminate.
    + rewrite (estimate_raises _ _ _ _ _ _ _ _ Hd). discriminate.
Qed.

End EstimatorFacts.

(** The estimator on the two known airports. *)
Lemma estimate_unresolved_raises_witness :
  calculate_distance Atlas.nowhere Atlas.geodesic_km "CDG" "ALG"
    = ([coordinates_not_found "CDG"; coordinates_not_found "ALG"; distance_unavailable],
       Ok None) /\
  main_cost_simulation Atlas.nowhere Atlas.geodesic_km Atlas.show_estimate
    = ([coordinates_not_found "CDG"; coordinates_not_found "ALG"; distance_unavailable],
       Raise TypeError).
Proof.
  split; [reflexivity|].
  apply (proj2 (estimate_unresolved_raises Atlas.nowhere Atlas.geodesic_km)).
  reflexivity.
Defined.

Lemma estimate_zero_passengers_witness :
  calculate_distance Atlas.geocode Atlas.geodesic_km "CDG" "ALG" = ([], Ok (Some 1360%Q)) /\
  estimate_flight_cost Atlas.geocode Atlas.geodesic_km "Airbus 737" 0 1 "CDG" "ALG" (12 # 10)
    = ([], Raise ZeroDivisionError).
Proof.
  split; [reflexivity|].
  apply (proj1 (estimate_zero_passengers Atlas.geocode Atlas.geodesic_km
                  "Airbus 737" 1 "CDG" "ALG" (12 # 10)%Q) [] 1360%Q).
  reflexivity.
Defined.

(** A seat map of the expected shape with one pricing entry per seat. *)
Lemma count_seats_counts_witness :
  SeatMap.single_priced (SeatMap.first SeatMap.three_decks) /\
  count_seats (SeatMap.encode SeatMap.three_decks)
  = ([], Ok (SeatMap.available_seats (SeatMap.first SeatMap.three_decks),
             SeatMap.seat_count (SeatMap.first SeatMap.three_decks))) /\
  SeatMap.available_seats (SeatMap.first SeatMap.three_decks)
  <= SeatMap.seat_count (SeatMap.first SeatMap.three_decks).
Proof.
  assert (H : SeatMap.single_priced (SeatMap.first SeatMap.three_decks)).
  { unfold SeatMap.single_priced. simpl.
    repeat (constructor; [simpl; lia|]). constructor. }
  split; [exact H|].
  exact (proj1 (count_seats_counts SeatMap.three_decks) H).
Defined.

(** C2 as stated fails on a seat priced for two travelers: both entries
    count, so that [available] is neither the number of seats with an
    AVAILABLE entry nor at most [total]. *)
Lemma count_seats_two_travelers :
  exists available total,
    count_seats (SeatMap.encode SeatMap.two_travelers) = ([], Ok (available, total)) /\
    available <> SeatMap.available_seats (SeatMap.first SeatMap.two_travelers) /\
    ~ available <= total.
Proof.
  exists 2, 1. split; [reflexivity|]. split; [discriminate|]. lia.
Qed.

Lemma count_seats_unexpected_witness :
  count_seats VNone = ([unexpected_seatmap], Ok (0, 0)) /\
  count_seats (VDict [("data", VList [VDict [("number", VStr "1")]])]) = ([], Ok (0, 0)).
Proof.
  destruct count_seats_unexpected as (H1 & H2 & _).
  split.
  - apply H1. left. reflexivity.
  - apply H2. reflexivity.
Defined.

(** C3 as stated fails on an empty [data] sequence, where [data[0]]
    raises, and on a first seat map without decks, where nothing is
    signalled. *)
Lemma count_seats_empty_data :
  count_seats (VDict [("data", VList [])]) = ([], Raise IndexError) /\
  count_seats (VDict [("data", VList [VDict []])]) = ([], Ok (0, 0)).
Proof. split; reflexivity. Qed.

(** The cabin filter on an offer with a traveler in each cabin and an
    offer with both travelers in economy. *)
Lemma filter_flights_cabin_witness :
  "ECONOMY" <> "" /\
  Forall well_formed [mixed_cabins; economy_only] /\
  exists out,
    filter_flights [mixed_cabins; economy_only] None (Some 1) (Some ["AF"; "5O"])
      (Some "ECONOMY") = Ok out /\
    forall f,
      In f out <->
      In f [mixed_cabins; economy_only] /\
      forall itinerary, In itinerary (itineraries f) ->
        within_duration None itinerary /\
        within_stops (Some 1) itinerary /\
        airline_allowed (Some ["AF"; "5O"]) f /\
        every_traveler_books "ECONOMY" f.
Proof.
  assert (H1 : "ECONOMY" <> "") by discriminate.
  assert (H2 : Forall well_formed [mixed_cabins; economy_only]).
  { repeat constructor; simpl; discriminate. }
  split; [exact H1|]. split; [exact H2|].
  exact (filter_flights_cabin None (Some 1) (Some ["AF"; "5O"]) "ECONOMY"
           [mixed_cabins; economy_only] H1 H2).
Defined.

(** C1 as stated fails on an offer with one traveler in economy and one
    in business: a traveler books the requested cabin, no other criterion
    is active, and the offer is dropped. *)
Lemma filter_flights_drops_mixed_cabins :
  some_traveler_books "ECONOMY" mixed_cabins /\
  filter_flights [mixed_cabins] None None None (Some "ECONOMY") = Ok [].
Proof.
  split; [|reflexivity].
  apply Exists_cons_hd. apply Exists_cons_hd. reflexivity.
Qed.

Lemma filter_flights_subsequence_witness :
  filter_flights [mixed_cabins; economy_only] None (Some 1) (Some ["AF"; "5O"])
    (Some "ECONOMY") = Ok [economy_only] /\
  subseq [economy_only] [mixed_cabins; economy_only].
Proof.
  assert (H : filter_flights [mixed_cabins; economy_only] None (Some 1) (Some ["AF"; "5O"])
                (Some "ECONOMY") = Ok [economy_only]) by reflexivity.
  split; [exact H|].
  exact (proj1 (proj2 (filter_flights_subsequence [mixed_cabins; economy_only]))
           None (Some 1) (Some ["AF"; "5O"]) (Some "ECONOMY") [economy_only] H).
Defined.

(** Two offers of one airline around one offer of another. *)
Lemma calculate_statistics_by_airline_witness :
  Forall (fun f => validatingAirlineCodes f <> []) three_offers /\
  exists statistics,
    calculate_statistics three_offers = Ok statistics /\
    forall airline,
      let prices := group_prices airline three_offers in
      (prices = [] -> dict_get airline statistics = None) /\
      (prices <> [] ->
       exists stats,
         dict_get airline statistics = Some stats /\
         (mean stats == arithmetic_mean prices)%Q /\
         is_median prices (median_ stats)).
Proof.
  assert (H : Forall (fun f => validatingAirlineCodes f <> []) three_offers)
    by (repeat constructor; discriminate).
  split; [exact H|].
  exact (calculate_statistics_by_airline three_offers H).
Defined.

(** The weekday analysis on an offer of two segments and a direct one,
    dated by the calendar. *)
Lemma analyze_prices_by_weekday_buckets_witness :
  Forall (datable Calendar.weekday) [with_connection; direct] /\
  exists averages,
    analyze_prices_by_weekday Calendar.weekday [with_connection; direct] = Ok averages /\
    dict_get "Wednesday" averages
    = Some (fsum [100; 100; 40] / inject_Z 3)%Q /\
    dict_get "Thursday" averages = None.
Proof.
  assert (H : Forall (datable Calendar.weekday) [with_connection; direct]).
  { repeat constructor; eexists; reflexivity. }
  split; [exact H|].
  destruct (analyze_prices_by_weekday_buckets Calendar.weekday _ H) as (averages & Hrun & Hget).
  exists averages. split; [exact Hrun|]. split.
  - apply (proj2 (proj2 (Hget "Wednesday"))). discriminate.
  - apply (proj1 (proj2 (Hget "Thursday"))). reflexivity.
Defined.

(** The offer of two segments weighs twice in the average of its day:
    the mean of 100 and 40 would be 70. *)
Lemma connection_counts_twice :
  exists average,
    analyze_prices_by_weekday Calendar.weekday [with_connection; direct]
    = Ok [("Wednesday", average)] /\
    (average == 80)%Q.
Proof. eexists. split; reflexivity. Qed.

(** The statistics of [three_offers]: two prices for one airline, one for
    the other, in the order the airlines first appear. *)
Lemma statistics_of_three_offers :
  exists af o5,
    calculate_statistics three_offers = Ok [("AF", af); ("5O", o5)] /\
    (mean af == 200)%Q /\ (median_ af == 200)%Q /\
    (mean o5 == 120)%Q /\ (median_ o5 == 120)%Q.
Proof. eexists. eexists. split; [reflexivity|]. repeat split. Qed.

Lemma get_duration_examples :
  _get_duration "PT2H30M" = Ok 150 /\
  _get_duration "PT45M" = Ok 45 /\
  _get_duration "PT3H" = Ok 180 /\
  _get_duration "PT1H15M30S" = Ok 75 /\
  _get_duration "P1DT2H" = Raise AttributeError.
Proof. repeat split. Qed.

(** * Further properties *)

(** ** The two seat counters *)

Lemma outcome_map_bind {A A' B B'} (f : A -> A') (g : B -> B')
    (m : M A) (k : A -> M B) (k' : A' -> M B') :
  (forall a, k' (f a) = outcome_map g (k a)) ->
  bind (outcome_map f m) k' = outcome_map g (bind m k).
Proof.
  intro H. destruct m as [out [a|e]]; unfold outcome_map, bind; cbn [fst snd].
  - rewrite H. unfold outcome_map. destruct (k a) as [out' r]. reflexivity.
  - reflexivity.
Qed.

Lemma bind_lift_map {A B B'} (g : B -> B') (r : result A) (k : A -> M B) (k' : A -> M B') :
  (forall a, k' a = outcome_map g (k a)) ->
  bind (lift r) k' = outcome_map g (bind (lift r) k).
Proof.
  intro H. destruct r as [a|e].
  - rewrite !bind_lift_Ok. apply H.
  - reflexivity.
Qed.

Lemma for_each_map {A S S'} (f : S -> S') (xs : list A)
    (body : S -> A -> M S) (body' : S' -> A -> M S') :
  (forall st x, body' (f st) x = outcome_map f (body st x)) ->
  forall st, for_each xs body' (f st) = outcome_map f (for_each xs body st).
Proof.
  intro H. induction xs as [|x xs IH]; intro st.
  - reflexivity.
  - cbn [for_each]. rewrite H. apply outcome_map_bind. exact IH.
Qed.

Lemma available_pricing_counts (st : Z * Z) (pricing : value) :
  available_pricing (fst st) pricing = outcome_map fst (count_pricing st pricing).
Proof.
  unfold available_pricing, count_pricing. apply bind_lift_map.
  intro status. destruct (eq_str status "AVAILABLE"); reflexivity.
Qed.

Lemma available_seat_counts (st : Z * Z) (seat : value) :
  available_seat (fst st) seat = outcome_map fst (count_seat st seat).
Proof.
  unfold available_seat, count_seat. apply bind_lift_map. intro pricings.
  apply bind_lift_map. intro items.
  exact (for_each_map fst items count_pricing available_pricing
           available_pricing_counts (fst st, snd st + 1)).
Qed.

Lemma available_deck_counts (st : Z * Z) (deck : value) :
  available_deck (fst st) deck = outcome_map fst (count_deck st deck).
Proof.
  unfold available_deck, count_deck. apply bind_lift_map. intro seats.
  apply bind_lift_map. intro items.
  exact (for_each_map fst items count_seat available_seat available_seat_counts st).
Qed.

(** X1.  On every input, [count_available_seats] prints what [count_seats]
    prints, raises what it raises, and returns the first of the two numbers
    it returns. *)
Theorem count_available_seats_agrees (seatmap_data : value) :
  count_available_seats seatmap_data = outcome_map fst (count_seats seatmap_data).
Proof.
  unfold count_available_seats, count_seats.
  destruct (truthy seatmap_data && is_dict seatmap_data && has_key "data" seatmap_data).
  - apply bind_lift_map. intro data.
    apply bind_lift_map. intro seatmap.
    apply bind_lift_map. intro decks.
    apply bind_lift_map. intro items.
    exact (for_each_map fst items count_deck available_deck available_deck_counts (0, 0)).
  - reflexivity.
Qed.

(** ** Loops that stop at the first failure *)

Lemma rfor_each_first_raise {A S} (bad : A -> Prop) (e : exn)
    (body : S -> A -> result S) :
  (forall st x, bad x -> body st x = Raise e) ->
  (forall st x, ~ bad x -> exists st', body st x = Ok st') ->
  (forall x, bad x \/ ~ bad x) ->
  forall xs st, Exists bad xs -> rfor_each xs body st = Raise e.
Proof.
  intros Hbad Hgood Hdec xs. induction xs as [|x xs IH]; intros st Hex.
  - inversion Hex.
  - cbn [rfor_each]. destruct (Hdec x) as [Hx|Hx].
    + rewrite (Hbad st x Hx). reflexivity.
    + destruct (Hgood st x Hx) as [st' Hst']. rewrite Hst'. cbn [rbind].
      apply IH. inversion Hex; subst; [contradiction|assumption].
Qed.

Lemma codes_decidable (flight : Flight) :
  validatingAirlineCodes flight = [] \/ validatingAirlineCodes flight <> [].
Proof. destruct (validatingAirlineCodes flight); [left; reflexivity|right; discriminate]. Qed.

(** ** Averages by airline *)

Lemma str_in_keys {V} (key : string) (d : dict V) : str_in key (keys d) = dict_mem key d.
Proof.
  unfold dict_mem. destruct (dict_get key d) as [v|] eqn:E.
  - apply str_in_In, In_keys. congruence.
  - destruct (str_in key (keys d)) eqn:S; [|reflexivity].
    apply str_in_In, In_keys in S. contradiction.
Qed.

Lemma keys_after_set {V} (key : string) (v : V) (d : dict V) :
  keys (dict_set key v d) = if str_in key (keys d) then keys d else (keys d ++ [key])%list.
Proof.
  rewrite str_in_keys. unfold dict_mem.
  destruct (dict_get key d) as [w|] eqn:E.
  - apply (keys_dict_set_old _ _ _ _ E).
  - apply (keys_dict_set_new _ _ _ E).
Qed.

(** A loop that files each offer under its first airline code lists the
    airlines in the order in which the offers first name them. *)
Lemma filing_keys {V} (step : dict V -> Flight -> result (dict V)) :
  (forall d flight code others,
      validatingAirlineCodes flight = code :: others ->
      exists v, step d flight = Ok (dict_set code v d)) ->
  forall flights d d',
    rfor_each flights step d = Ok d' ->
    Forall (fun f => validatingAirlineCodes f <> []) flights ->
    keys d' = (keys d ++ first_seen (keys d) (leading_codes flights))%list.
Proof.
  intros Hstep flights. induction flights as [|f flights IH]; intros d d' Hrun Hcodes.
  - injection Hrun as <-. simpl. rewrite app_nil_r. reflexivity.
  - inversion Hcodes as [|? ? Hf Hrest]; subst.
    destruct (validatingAirlineCodes f) as [|code others] eqn:Hc; [contradiction|].
    destruct (Hstep d f code others Hc) as [v Hv].
    cbn [rfor_each] in Hrun. rewrite Hv in Hrun. cbn [rbind] in Hrun.
    rewrite (IH _ _ Hrun Hrest), keys_after_set.
    unfold leading_codes. cbn [flat_map]. rewrite Hc. cbn [firstn app first_seen].
    destruct (str_in code (keys d)); [reflexivity|].
    rewrite <- app_assoc. reflexivity.
Qed.

Lemma first_seen_fresh (seen codes : list string) :
  NoDup seen ->
  NoDup (seen ++ first_seen seen codes) /\
  (forall c, In c (first_seen seen codes) <-> In c codes /\ ~ In c seen).
Proof.
  revert seen. induction codes as [|code rest IH]; intros seen Hnd; simpl.
  - rewrite app_nil_r. split; [exact Hnd|]. intro c. tauto.
  - destruct (str_in code seen) eqn:E.
    + apply str_in_In in E. destruct (IH seen Hnd) as [Hn Hin].
      split; [exact Hn|]. intro c. rewrite Hin. split.
      * intros [? ?]. auto.
      * intros [[<-|?] ?]; [contradiction|auto].
    + assert (Hnot : ~ In code seen).
      { intro Hc. apply str_in_In in Hc. congruence. }
      assert (Hnd' : NoDup (seen ++ [code])).
      { apply NoDup_app; [exact Hnd | repeat constructor; simpl; tauto |].
        intros k Hk [<-|[]]. contradiction. }
      destruct (IH (seen ++ [code])%list Hnd') as [Hn Hin].
      rewrite <- app_assoc in Hn. split; [exact Hn|].
      intro c. simpl. rewrite Hin, in_app_iff. simpl. split.
      * intros [<-|[Hc Hnc]]; [auto|].
        split; [right; exact Hc|]. intro. apply Hnc. left. assumption.
      * intros [[<-|Hc] Hnc]; [left; reflexivity|].
        destruct (string_dec code c) as [->|Hne]; [left; reflexivity|].
        right. split; [exact Hc|]. intros [?|[?|[]]]; contradiction.
Qed.

Lemma rmap_keys {V W} (f : string * V -> result (string * W)) (d : dict V) (d' : dict W) :
  (forall k v e, f (k, v) = Ok e -> fst e = k) ->
  rmap f d = Ok d' -> keys d' = keys d.
Proof.
  intro Hf. revert d'. induction d as [|[k v] d IH]; intros d' H; simpl in H.
  - injection H as <-. reflexivity.
  - destruct (f (k, v)) as [e|] eqn:E; [|discriminate]. cbn [rbind] in H.
    destruct (rmap f d) as [es|]; [|discriminate]. cbn [rbind] in H.
    injection H as <-. unfold keys in *. simpl. rewrite (Hf _ _ _ E), (IH es eq_refl).
    reflexivity.
Qed.

(** The filing loop of [calculate_average_price_by_airline], lines
    484-486. *)
Lemma defaultdict_loop (flights : list Flight) (price_by_airline : dict (list Q)) :
  Forall (fun f => validatingAirlineCodes f <> []) flights ->
  Forall (fun e => snd e <> []) price_by_airline ->
  exists grouped,
    rfor_each flights
      (fun (price_by_airline : dict (list Q)) flight =>
         let? airline := item0 (validatingAirlineCodes flight) in
         let prices :=
           match dict_get airline price_by_airline with
           | Some prices => prices
           | None => []
           end in
         Ok (dict_set airline (prices ++ [grandTotal (price flight)])%list
                      price_by_airline))
      price_by_airline = Ok grouped /\
    Forall (fun e => snd e <> []) grouped /\
    forall airline,
      dict_get airline grouped
      = extend (dict_get airline price_by_airline) (group_grand_totals airline flights).
Proof.
  intro Hcodes. revert price_by_airline.
  induction Hcodes as [|f flights Hf _ IH]; intros d Hd.
  - exists d. split; [reflexivity|]. split; [exact Hd|]. reflexivity.
  - destruct (validatingAirlineCodes f) as [|code others] eqn:Hc; [contradiction|].
    cbn [rfor_each]. rewrite Hc. cbn [item0 rbind]. cbv zeta.
    set (d1 := dict_set code _ d).
    assert (Hd1 : Forall (fun e => snd e <> []) d1).
    { subst d1. apply (dict_set_Forall (fun v : list Q => v <> [])); [|exact Hd].
      destruct (dict_get code d) as [[|]|]; discriminate. }
    assert (Hg1 : forall airline,
               dict_get airline d1
               = extend (dict_get airline d) (group_grand_totals airline [f])).
    { intro airline. unfold group_grand_totals, validated_by. cbn [filter]. rewrite Hc.
      subst d1. destruct (code =? airline)%string eqn:E.
      - apply String.eqb_eq in E. subst airline. rewrite dict_get_set_same.
        destruct (dict_get code d); reflexivity.
      - apply String.eqb_neq in E.
        rewrite dict_get_set_other by congruence. reflexivity. }
    destruct (IH d1 Hd1) as (grouped & Hrun & Hne & Hget).
    exists grouped. split; [exact Hrun|]. split; [exact Hne|].
    intro airline. rewrite Hget, Hg1, extend_app.
    unfold group_grand_totals. cbn [filter app].
    destruct (validated_by airline f); reflexivity.
Qed.

(** The dictionary comprehension, line 487. *)
Lemma averages_loop (price_by_airline : dict (list Q)) :
  Forall (fun e => snd e <> []) price_by_airline ->
  exists averages,
    rmap (fun entry : string * list Q =>
            let (airline, prices) := entry in
            let? average := truediv (fsum prices)
                                    (inject_Z (Z.of_nat (List.length prices))) in
            Ok (airline, average))
         price_by_airline = Ok averages /\
    forall airline,
      dict_get airline averages
      = match dict_get airline price_by_airline with
        | Some prices => Some (np_mean prices)
        | None => None
        end.
Proof.
  induction 1 as [|[code prices] d Hp _ (averages & Hrun & Hget)].
  - exists []. split; reflexivity.
  - simpl in Hp.
    assert (Hn : Z.of_nat (List.length prices) <> 0)
      by (destruct prices; [contradiction|simpl; lia]).
    exists ((code, np_mean prices) :: averages). split.
    + cbn [rmap]. rewrite (truediv_nonzero _ _ (inject_Z_nonzero _ Hn)). cbn [rbind].
      rewrite Hrun. reflexivity.
    + intro airline. simpl. destruct (code =? airline)%string; [reflexivity|apply Hget].
Qed.

(** X2.  On offers that all name a validating airline,
    [calculate_average_price_by_airline] returns, for each airline that
    validates an offer, the arithmetic mean of the [grandTotal] of its
    offers, and no entry for any other airline. *)
Theorem average_price_by_airline (flights : list Flight) :
  Forall (fun f => validatingAirlineCodes f <> []) flights ->
  exists averages,
    calculate_average_price_by_airline flights = Ok averages /\
    forall airline,
      let prices := group_grand_totals airline flights in
      (prices = [] -> dict_get airline averages = None) /\
      (prices <> [] ->
       exists average,
         dict_get airline averages = Some average /\
         (average == arithmetic_mean prices)%Q).
Proof.
  intro Hcodes.
  destruct (defaultdict_loop flights [] Hcodes (Forall_nil _)) as (grouped & Hrun & Hne & Hget).
  destruct (averages_loop grouped Hne) as (averages & Havg & Hentries).
  exists averages. split.
  - unfold calculate_average_price_by_airline. cbv zeta in Hrun |- *.
    rewrite Hrun. exact Havg.
  - intros airline prices. rewrite Hentries, Hget. cbn [dict_get]. fold prices.
    split; intro Hp.
    + rewrite Hp. reflexivity.
    + destruct prices as [|x xs]; [contradiction|]. cbn [extend].
      eexists. split; [reflexivity|]. apply np_mean_arithmetic.
Qed.

Lemma average_price_by_airline_witness :
  Forall (fun f => validatingAirlineCodes f <> []) three_offers /\
  exists averages,
    calculate_average_price_by_airline three_offers = Ok averages /\
    exists average,
      dict_get "AF" averages = Some average /\
      (average == arithmetic_mean [300; 100])%Q.
Proof.
  assert (H : Forall (fun f => validatingAirlineCodes f <> []) three_offers)
    by (repeat constructor; discriminate).
  split; [exact H|].
  destruct (average_price_by_airline three_offers H) as (averages & Hrun & Hget).
  exists averages. split; [exact Hrun|].
  apply (proj2 (Hget "AF")). discriminate.
Defined.

Lemma codes_all_or_some (flights : list Flight) :
  Forall (fun f => validatingAirlineCodes f <> []) flights \/
  Exists (fun f => validatingAirlineCodes f = []) flights.
Proof.
  induction flights as [|f flights [IH|IH]].
  - left. constructor.
  - destruct (codes_decidable f) as [Hf|Hf].
    + right. left. exact Hf.
    + left. constructor; assumption.
  - right. right. exact IH.
Qed.

Lemma aggregations_by_airline (flights : list Flight) :
  Forall (fun f => validatingAirlineCodes f <> []) flights ->
  exists statistics averages,
    calculate_statistics flights = Ok statistics /\
    calculate_average_price_by_airline flights = Ok averages /\
    keys statistics = first_seen [] (leading_codes flights) /\
    keys averages = keys statistics /\
    NoDup (keys statistics).
Proof.
  intro Hcodes.
  destruct (grouping_loop flights [] Hcodes (Forall_nil _)) as (g1 & Hrun1 & Hne1 & Hget1).
  destruct (statistics_loop g1 Hne1) as (statistics & Hstat & Hentries).
  destruct (defaultdict_loop flights [] Hcodes (Forall_nil _)) as (g2 & Hrun2 & Hne2 & Hget2).
  destruct (averages_loop g2 Hne2) as (averages & Havg & Haverages).
  assert (K1 : keys g1 = first_seen [] (leading_codes flights)).
  { refine (filing_keys _ _ flights [] g1 Hrun1 Hcodes).
    intros d f code others Hc. rewrite Hc. cbn [item0 rbind].
    destruct (dict_get code d); eexists; reflexivity. }
  assert (K2 : keys g2 = first_seen [] (leading_codes flights)).
  { refine (filing_keys _ _ flights [] g2 Hrun2 Hcodes).
    intros d f code others Hc. rewrite Hc. cbn [item0 rbind].
    eexists; reflexivity. }
  assert (S1 : keys statistics = keys g1).
  { refine (rmap_keys _ _ _ _ Hstat). intros k v e.
    destruct (median v); cbn [rbind]; [|discriminate].
    intro E. injection E as <-. reflexivity. }
  assert (S2 : keys averages = keys g2).
  { refine (rmap_keys _ _ _ _ Havg). intros k v e.
    destruct (truediv _ _); cbn [rbind]; [|discriminate].
    intro E. injection E as <-. reflexivity. }
  exists statistics, averages.
  split; [unfold calculate_statistics; cbv zeta in Hrun1 |- *; rewrite Hrun1; exact Hstat|].
  split; [unfold calculate_average_price_by_airline; cbv zeta in Hrun2 |- *;
          rewrite Hrun2; exact Havg|].
  split; [congruence|]. split; [congruence|].
  rewrite S1, K1. exact (proj1 (first_seen_fresh [] (leading_codes flights) (NoDup_nil _))).
Qed.

(** X3.  [calculate_statistics] and [calculate_average_price_by_airline]
    list the same airlines, each once, in the order in which the offers
    first name them. *)
Theorem statistics_and_averages_agree (flights : list Flight) :
  Forall (fun f => validatingAirlineCodes f <> []) flights ->
  exists statistics averages,
    calculate_statistics flights = Ok statistics /\
    calculate_average_price_by_airline flights = Ok averages /\
    keys statistics = first_seen [] (leading_codes flights) /\
    keys averages = keys statistics /\
    NoDup (keys statistics).
Proof. exact (aggregations_by_airline flights). Qed.

Lemma statistics_and_averages_agree_witness :
  Forall (fun f => validatingAirlineCodes f <> []) three_offers /\
  exists statistics averages,
    calculate_statistics three_offers = Ok statistics /\
    calculate_average_price_by_airline three_offers = Ok averages /\
    keys statistics = ["AF"; "5O"] /\
    keys averages = keys statistics.
Proof.
  assert (H : Forall (fun f => validatingAirlineCodes f <> []) three_offers)
    by (repeat constructor; discriminate).
  split; [exact H|].
  destruct (statistics_and_averages_agree three_offers H)
    as (statistics & averages & H1 & H2 & K1 & K2 & _).
  exists statistics, averages. repeat split; assumption.
Defined.

(** X4.  Both aggregations by airline raise [IndexError] exactly when some
    offer has an empty list of validating airline codes. *)
Theorem airline_aggregations_raise (flights : list Flight) :
  (calculate_statistics flights = Raise IndexError <->
   Exists (fun f => validatingAirlineCodes f = []) flights) /\
  (calculate_average_price_by_airline flights = Raise IndexError <->
   Exists (fun f => validatingAirlineCodes f = []) flights).
Proof.
  split; split.
  - intro Hraise. destruct (codes_all_or_some flights) as [Hall|Hsome]; [|exact Hsome].
    destruct (aggregations_by_airline flights Hall) as (s & a & Hs & _).
    congruence.
  - intro Hsome. unfold calculate_statistics.
    rewrite (rfor_each_first_raise (fun f => validatingAirlineCodes f = []) IndexError);
      [reflexivity | | | apply codes_decidable | exact Hsome].
    + intros st f Hf. rewrite Hf. reflexivity.
    + intros st f Hf. destruct (validatingAirlineCodes f); [contradiction|].
      eexists; reflexivity.
  - intro Hraise. destruct (codes_all_or_some flights) as [Hall|Hsome]; [|exact Hsome].
    destruct (aggregations_by_airline flights Hall) as (s & a & _ & Ha & _).
    congruence.
  - intro Hsome. unfold calculate_average_price_by_airline.
    rewrite (rfor_each_first_raise (fun f => validatingAirlineCodes f = []) IndexError);
      [reflexivity | | | apply codes_decidable | exact Hsome].
    + intros st f Hf. rewrite Hf. reflexivity.
    + intros st f Hf. destruct (validatingAirlineCodes f); [contradiction|].
      eexists; reflexivity.
Qed.

(** ** Cabin comparison *)

Lemma quoted_app wanted (read more : list (Q * string)) :
  quoted wanted (read ++ more) = (quoted wanted read ++ quoted wanted more)%list.
Proof. unfold quoted. rewrite filter_app, map_app. reflexivity. Qed.

Lemma quotes_events wanted (flight : Flight) :
  quotes wanted flight = quoted wanted (fare_events flight).
Proof.
  unfold quotes, quoted, fare_events.
  induction (travelerPricings flight) as [|t ts IH]; [reflexivity|].
  cbn [flat_map]. rewrite filter_app, map_app, IH. f_equal.
  induction (fareDetailsBySegment t) as [|d ds IHd]; [reflexivity|].
  cbn [map filter snd]. destruct (cabin d =? wanted)%string; simpl; rewrite IHd; reflexivity.
Qed.

Lemma Qlt_bool_true (x y : Q) : Qlt_bool x y = true -> (x < y)%Q.
Proof.
  unfold Qlt_bool. intro H. apply negb_true_iff in H.
  destruct (Qlt_le_dec x y) as [Hlt|Hle]; [exact Hlt|].
  apply Qle_bool_iff in Hle. congruence.
Qed.

Lemma Qlt_bool_false (x y : Q) : Qlt_bool x y = false -> (y <= x)%Q.
Proof.
  unfold Qlt_bool. intro H. apply negb_false_iff in H. apply Qle_bool_iff. exact H.
Qed.

(** One pass of the innermost loop body, lines 494-498. *)
Lemma compare_detail_step (traveler : TravelerPricing) (detail : FareDetail)
    (cabin_comparison : dict Q) (read : list (Q * string)) :
  cheapest_so_far cabin_comparison read ->
  cheapest_so_far (compare_detail traveler cabin_comparison detail)
                  (read ++ [(total (traveler_price traveler), cabin detail)]).
Proof.
  intros Hinv wanted. rewrite quoted_app.
  set (p := total (traveler_price traveler)). set (c := cabin detail).
  destruct (Hinv wanted) as [Hnone Hsome].
  unfold compare_detail. fold p c. unfold dict_mem.
  destruct (String.eqb_spec c wanted) as [->|Hne].
  - (* the cabin of this fare detail *)
    assert (Hown : quoted wanted [(p, wanted)] = [p]).
    { unfold quoted. cbn [filter snd]. rewrite String.eqb_refl. reflexivity. }
    rewrite Hown. split; [intro H; destruct (quoted wanted read); discriminate|].
    intros _.
    destruct (dict_get wanted cabin_comparison) as [current|] eqn:E; cbn [negb orb].
    + destruct (quoted wanted read) as [|q qs] eqn:Q;
        [specialize (Hnone eq_refl); discriminate|].
      destruct Hsome as (m & Hm & Hin & Hle); [discriminate|].
      injection Hm as <-.
      destruct (Qlt_bool p current) eqn:L.
      * apply Qlt_bool_true in L. exists p. rewrite dict_get_set_same.
        split; [reflexivity|]. split; [apply in_or_app; right; left; reflexivity|].
        apply Forall_app. split; [|repeat constructor; apply Qle_refl].
        eapply Forall_impl; [|exact Hle]. intros a Ha.
        apply Qlt_le_weak. eapply Qlt_le_trans; eassumption.
      * apply Qlt_bool_false in L. exists current. rewrite E.
        split; [reflexivity|]. split; [apply in_or_app; left; exact Hin|].
        apply Forall_app. split; [exact Hle|repeat constructor; exact L].
    + exists p. rewrite dict_get_set_same. split; [reflexivity|].
      destruct (quoted wanted read) as [|q qs] eqn:Q.
      * split; [left; reflexivity|repeat constructor; apply Qle_refl].
      * destruct Hsome as (m & Hm & _); [discriminate|discriminate].
  - (* another cabin *)
    assert (Hother : quoted wanted [(p, c)] = []).
    { unfold quoted. cbn [filter snd].
      assert (E : (c =? wanted)%string = false) by (apply String.eqb_neq; exact Hne).
      rewrite E. reflexivity. }
    rewrite Hother, app_nil_r.
    assert (G : dict_get wanted
                  (if negb match dict_get c cabin_comparison with
                           | Some _ => true
                           | None => false
                           end
                      || match dict_get c cabin_comparison with
                         | Some current => Qlt_bool p current
                         | None => false
                         end
                   then dict_set c p cabin_comparison
                   else cabin_comparison)
                = dict_get wanted cabin_comparison).
    { destruct (_ || _); [|reflexivity].
      apply dict_get_set_other. congruence. }
    rewrite G. split; assumption.
Qed.

Lemma compare_details_run (traveler : TravelerPricing) (details : list FareDetail)
    (cabin_comparison : dict Q) (read : list (Q * string)) :
  cheapest_so_far cabin_comparison read ->
  cheapest_so_far (fold_left (compare_detail traveler) details cabin_comparison)
                  (read ++ map (fun detail => (total (traveler_price traveler), cabin detail))
                               details).
Proof.
  revert cabin_comparison read. induction details as [|d ds IH]; intros cc read H; simpl.
  - rewrite app_nil_r. exact H.
  - specialize (IH _ _ (compare_detail_step traveler d cc read H)).
    rewrite <- app_assoc in IH. exact IH.
Qed.

Lemma cabin_comparison_cheapest (flight : Flight) :
  cheapest_so_far (cabin_comparison_of flight) (fare_events flight).
Proof.
  unfold cabin_comparison_of, fare_events.
  assert (G : forall travelers cc read,
             cheapest_so_far cc read ->
             cheapest_so_far
               (fold_left (fun cabin_comparison traveler =>
                             fold_left (compare_detail traveler)
                                       (fareDetailsBySegment traveler) cabin_comparison)
                          travelers cc)
               (read ++ flat_map (fun traveler =>
                                    map (fun detail =>
                                           (total (traveler_price traveler), cabin detail))
                                        (fareDetailsBySegment traveler))
                                 travelers)).
  { induction travelers as [|t ts IH]; intros cc read H; simpl.
    - rewrite app_nil_r. exact H.
    - specialize (IH _ _ (compare_details_run t (fareDetailsBySegment t) cc read H)).
      rewrite <- app_assoc in IH. exact IH. }
  apply (G (travelerPricings flight) [] []).
  intro wanted. split; [reflexivity|]. intro H. contradiction H. reflexivity.
Qed.

Lemma compare_cabins_map (flights : list Flight) :
  compare_cabins flights = map cabin_comparison_of flights.
Proof.
  unfold compare_cabins.
  assert (G : forall acc,
             fold_left (fun comparison_results flight =>
                          comparison_results ++ [cabin_comparison_of flight])%list
                       flights acc
             = (acc ++ map cabin_comparison_of flights)%list).
  { induction flights as [|f fs IH]; intro acc; simpl.
    - rewrite app_nil_r. reflexivity.
    - rewrite IH, <- app_assoc. reflexivity. }
  exact (G []).
Qed.

(** X5.  [compare_cabins] returns one comparison per offer, in the order
    of the offers; the comparison of an offer holds, for each cabin some
    traveler of the offer has a fare detail in, the least total price among
    those travelers, and nothing for any other cabin. *)
Theorem compare_cabins_cheapest (flights : list Flight) :
  Forall2 (fun flight cabin_comparison =>
             forall wanted,
               (quotes wanted flight = [] -> dict_get wanted cabin_comparison = None) /\
               (quotes wanted flight <> [] ->
                exists m,
                  dict_get wanted cabin_comparison = Some m /\
                  least_of (quotes wanted flight) m))
          flights (compare_cabins flights).
Proof.
  rewrite compare_cabins_map.
  induction flights as [|f fs IH]; simpl; constructor; [|exact IH].
  intro wanted. rewrite quotes_events. apply cabin_comparison_cheapest.
Qed.

(** Two travelers, the dearer in economy, the cheaper in economy and
    business: both cabins at the cheaper price. *)
Lemma compare_cabins_two_quotes :
  compare_cabins [two_quotes] = [[("ECONOMY", 80%Q); ("BUSINESS", 80%Q)]].
Proof. reflexivity. Qed.

(** ** Durations *)

Lemma digit_value_nonneg (c : ascii) : is_digit c = true -> 0 <= digit_value c.
Proof.
  unfold is_digit, digit_value. intro H.
  apply andb_true_iff in H. destruct H as [H _]. apply Nat.leb_le in H. lia.
Qed.

Lemma span_digits_nonneg (s : string) (acc : Z) (seen : nat) :
  0 <= acc -> 0 <= fst (fst (span_digits s acc seen)).
Proof.
  revert acc seen. induction s as [|c s IH]; intros acc seen H; cbn [span_digits].
  - exact H.
  - destruct (is_digit c) eqn:D; [|exact H].
    apply IH. pose proof (digit_value_nonneg c D). lia.
Qed.

Lemma match_unit_nonneg (unit : ascii) (s : string) (n : Z) (rest : string) :
  match_unit unit s = Some (n, rest) -> 0 <= n.
Proof.
  unfold match_unit. pose proof (span_digits_nonneg s 0 0 (Z.le_refl 0)) as H.
  destruct (span_digits s 0 0) as [[v seen] tail]. cbn [fst] in H.
  destruct seen; [discriminate|].
  destruct tail as [|c tail]; [discriminate|].
  destruct (Ascii.eqb c unit); [|discriminate].
  intro E. injection E as <- _. exact H.
Qed.

Lemma strip_PT_other (a : ascii) (s : string) : "P"%char <> a -> strip_PT (String a s) = None.
Proof.
  intro H. destruct a as [[] [] [] [] [] [] [] []]; try reflexivity.
  contradiction H. reflexivity.
Qed.

Lemma strip_PT_P_other (b : ascii) (s : string) :
  "T"%char <> b -> strip_PT (String "P" (String b s)) = None.
Proof.
  intro H. destruct b as [[] [] [] [] [] [] [] []]; try reflexivity.
  contradiction H. reflexivity.
Qed.

Lemma strip_PT_prefix (s : string) : strip_PT s = None <-> prefix "PT" s = false.
Proof.
  destruct s as [|a s]; [simpl; tauto|].
  cbn [prefix]. destruct (ascii_dec "P" a) as [<-|Ha].
  - destruct s as [|b s]; [simpl; tauto|].
    cbn [prefix]. destruct (ascii_dec "T" b) as [<-|Hb].
    + cbn [strip_PT]. destruct s; simpl; split; discriminate.
    + rewrite (strip_PT_P_other b s Hb). tauto.
  - rewrite (strip_PT_other a s Ha). tauto.
Qed.

(** X6.  [_get_duration] fails only on a string that does not start with
    [PT], and then with [AttributeError]; on any other string it returns a
    number of minutes that is not negative. *)
Theorem get_duration_outcomes (duration_str : string) :
  (prefix "PT" duration_str = false ->
   _get_duration duration_str = Raise AttributeError) /\
  (prefix "PT" duration_str = true ->
   exists minutes, _get_duration duration_str = Ok minutes /\ 0 <= minutes).
Proof.
  unfold _get_duration. split; intro H.
  - apply strip_PT_prefix in H. rewrite H. reflexivity.
  - destruct (strip_PT duration_str) as [rest|] eqn:E.
    + destruct (match_unit "H" rest) as [[h rest']|] eqn:EH.
      * pose proof (match_unit_nonneg _ _ _ _ EH).
        destruct (match_unit "M" rest') as [[m tail]|] eqn:EM.
        -- pose proof (match_unit_nonneg _ _ _ _ EM).
           eexists. split; [reflexivity|lia].
        -- eexists. split; [reflexivity|lia].
      * destruct (match_unit "M" rest) as [[m tail]|] eqn:EM.
        -- pose proof (match_unit_nonneg _ _ _ _ EM).
           eexists. split; [reflexivity|lia].
        -- eexists. split; [reflexivity|lia].
    + apply strip_PT_prefix in E. congruence.
Qed.

Lemma get_duration_outcomes_witness :
  prefix "PT" "PT2H30M" = true /\
  exists minutes, _get_duration "PT2H30M" = Ok minutes /\ 0 <= minutes.
Proof.
  split; [reflexivity|].
  apply (proj2 (get_duration_outcomes "PT2H30M")). reflexivity.
Defined.

Lemma digit_char (d : nat) :
  (d < 10)%nat ->
  is_digit (ascii_of_nat (48 + d)) = true /\
  digit_value (ascii_of_nat (48 + d)) = Z.of_nat d.
Proof.
  intro H. do 10 (destruct d as [|d]; [split; reflexivity|]). lia.
Qed.

Lemma span_digits_numeral (digits : list nat) (rest : string) (acc : Z) (seen : nat) :
  Forall (fun d => (d < 10)%nat) digits ->
  starts_with_digit rest = false ->
  span_digits (numeral digits ++ rest) acc seen
  = (fold_left (fun acc d => 10 * acc + Z.of_nat d) digits acc,
     (seen + List.length digits)%nat, rest).
Proof.
  intros Hd Hrest. revert acc seen.
  induction Hd as [|d ds Hlt _ IH]; intros acc seen.
  - cbn [numeral fold_right fold_left List.length String.append].
    rewrite Nat.add_0_r.
    destruct rest as [|c rest]; [reflexivity|].
    simpl in Hrest. simpl. rewrite Hrest. reflexivity.
  - destruct (digit_char d Hlt) as [Hdig Hval].
    cbn [numeral fold_right String.append span_digits].
    fold (numeral ds). rewrite Hdig, Hval, IH.
    cbn [fold_left List.length]. f_equal. f_equal. lia.
Qed.

Lemma match_unit_numeral (unit : ascii) (digits : list nat) (rest : string) :
  digits <> [] ->
  Forall (fun d => (d < 10)%nat) digits ->
  is_digit unit = false ->
  match_unit unit (numeral digits ++ String unit rest) = Some (number digits, rest).
Proof.
  intros Hne Hd Hu. unfold match_unit.
  rewrite (span_digits_numeral digits (String unit rest) 0 0 Hd Hu).
  destruct digits as [|d ds]; [contradiction|].
  cbn [List.length Nat.add]. rewrite Ascii.eqb_refl. reflexivity.
Qed.

Lemma match_unit_no_digit (unit : ascii) (s : string) :
  starts_with_digit s = false -> match_unit unit s = None.
Proof.
  intro H. unfold match_unit. destruct s as [|c s]; [reflexivity|].
  simpl in H. simpl. rewrite H. reflexivity.
Qed.

(** X7.  [_get_duration] reads back a duration written as [PT], a run of
    digits and [H], a run of digits and [M]: sixty times the hours plus the
    minutes, whatever follows the [M].  With the hours alone, or the
    minutes alone, followed by something that is not a digit, it gives the
    hours in minutes, or the minutes. *)
Theorem get_duration_reads_back (hours minutes : list nat) (rest : string) :
  hours <> [] -> minutes <> [] ->
  Forall (fun d => (d < 10)%nat) hours ->
  Forall (fun d => (d < 10)%nat) minutes ->
  _get_duration ("PT" ++ numeral hours ++ "H" ++ numeral minutes ++ "M" ++ rest)
  = Ok (number hours * 60 + number minutes) /\
  (starts_with_digit rest = false ->
   _get_duration ("PT" ++ numeral hours ++ "H" ++ rest) = Ok (number hours * 60 + 0) /\
   _get_duration ("PT" ++ numeral minutes ++ "M" ++ rest) = Ok (0 * 60 + number minutes)).
Proof.
  intros Hh Hm Fh Fm. split; [|intro Hrest; split].
  - unfold _get_duration. cbn [String.append strip_PT].
    change ("H" ++ numeral minutes ++ "M" ++ rest)%string
      with (String "H" (numeral minutes ++ String "M" rest)).
    rewrite (match_unit_numeral "H" hours _ Hh Fh eq_refl).
    rewrite (match_unit_numeral "M" minutes _ Hm Fm eq_refl).
    reflexivity.
  - unfold _get_duration. cbn [String.append strip_PT].
    change ("H" ++ rest)%string with (String "H" rest).
    rewrite (match_unit_numeral "H" hours _ Hh Fh eq_refl).
    rewrite (match_unit_no_digit "M" rest Hrest). reflexivity.
  - unfold _get_duration. cbn [String.append strip_PT].
    change ("M" ++ rest)%string with (String "M" rest).
    assert (E : match_unit "H" (numeral minutes ++ String "M" rest) = None).
    { unfold match_unit.
      rewrite (span_digits_numeral minutes (String "M" rest) 0 0 Fm eq_refl).
      destruct minutes as [|d ds]; [contradiction|]. reflexivity. }
    rewrite E. rewrite (match_unit_numeral "M" minutes _ Hm Fm eq_refl).
    reflexivity.
Qed.

Lemma get_duration_reads_back_witness :
  _get_duration ("PT" ++ numeral [1; 2]%nat ++ "H" ++ numeral [0; 5]%nat ++ "M" ++ "S")
  = Ok (number [1; 2]%nat * 60 + number [0; 5]%nat) /\
  _get_duration ("PT" ++ numeral [1; 2]%nat ++ "H" ++ "S") = Ok (number [1; 2]%nat * 60 + 0).
Proof.
  assert (F1 : Forall (fun d => (d < 10)%nat) [1; 2]%nat) by (repeat constructor).
  assert (F2 : Forall (fun d => (d < 10)%nat) [0; 5]%nat) by (repeat constructor).
  assert (N1 : [1; 2]%nat <> []) by discriminate.
  assert (N2 : [0; 5]%nat <> []) by discriminate.
  destruct (get_duration_reads_back [1; 2]%nat [0; 5]%nat "S" N1 N2 F1 F2) as [H1 H2].
  split; [exact H1|]. apply H2. reflexivity.
Defined.

(** ** More on filtering *)

Section FilterMore.

Variables (max_duration max_stops : option Z).
Variables (airlines : option (list string)) (cabin_class : option string).

(** Where every verdict is a truth value, [filter_flights] is a filter. *)
Lemma filter_flights_as_filter (keep : Flight -> bool) (flights : list Flight) :
  (forall f, In f flights ->
     verdict max_duration max_stops airlines cabin_class f = Ok (keep f)) ->
  filter_flights flights max_duration max_stops airlines cabin_class
  = Ok (filter keep flights).
Proof.
  unfold filter_flights. fold (verdict max_duration max_stops airlines cabin_class).
  assert (G : forall acc,
             (forall f, In f flights ->
                verdict max_duration max_stops airlines cabin_class f = Ok (keep f)) ->
             rfor_each flights
               (fun filtered_flights flight =>
                  let? add_flight :=
                    verdict max_duration max_stops airlines cabin_class flight in
                  Ok (if add_flight then filtered_flights ++ [flight]
                      else filtered_flights)%list)
               acc = Ok (acc ++ filter keep flights)%list).
  { induction flights as [|f fs IH]; intros acc H.
    - simpl. rewrite app_nil_r. reflexivity.
    - cbn [rfor_each]. rewrite (H f (or_introl eq_refl)). cbn [rbind filter].
      rewrite IH by (intros g Hg; apply H; right; exact Hg).
      destruct (keep f); [rewrite <- app_assoc|]; reflexivity. }
  intro H. exact (G [] H).
Qed.

Lemma keeps_verdict (flight : Flight) :
  well_formed flight ->
  verdict max_duration max_stops airlines cabin_class flight
  = Ok (keeps max_duration max_stops airlines cabin_class flight).
Proof.
  intro Hwf. unfold keeps.
  destruct (verdict_spec max_duration max_stops airlines cabin_class flight Hwf)
    as (b & Hb & _).
  rewrite Hb. reflexivity.
Qed.

End FilterMore.

Lemma verdict_stops_only (limit : Z) (flight : Flight) :
  limit <> 0 ->
  verdict None (Some limit) None None flight = Ok (stops_within limit flight).
Proof.
  intro Hl. unfold verdict, stops_within.
  assert (E : active_limit (Some limit) = Some limit).
  { simpl. apply Z.eqb_neq in Hl. rewrite Hl. reflexivity. }
  assert (G : forall add_flight,
             rfor_each (itineraries flight)
               (check_itinerary flight None (Some limit) None None) add_flight
             = Ok (add_flight &&
                   forallb (fun itinerary =>
                              forallb (fun segment => numberOfStops segment <=? limit)
                                      (segments itinerary))
                           (itineraries flight))).
  { induction (itineraries flight) as [|it its IH]; intro add_flight.
    - simpl. rewrite andb_true_r. reflexivity.
    - cbn [rfor_each forallb]. unfold check_itinerary at 1. rewrite E.
      cbn [active_limit active_list active_string rbind]. rewrite IH. f_equal.
      assert (S : existsb (fun segment => numberOfStops segment >? limit) (segments it)
                  = negb (forallb (fun segment => numberOfStops segment <=? limit)
                                  (segments it))).
      { induction (segments it) as [|s ss IHs]; [reflexivity|].
        cbn [existsb forallb]. rewrite IHs, negb_andb. f_equal.
        rewrite Z.gtb_ltb, Z.leb_antisym, negb_involutive. reflexivity. }
      rewrite S. destruct (forallb _ (segments it)); destruct add_flight; reflexivity. }
  exact (G true).
Qed.

(** X8.  With [max_stops] alone, and not zero, [filter_flights] returns,
    in order, the offers none of whose segments has more stops than the
    limit. *)
Theorem filter_flights_max_stops (limit : Z) (flights : list Flight) :
  limit <> 0 ->
  filter_flights flights None (Some limit) None None
  = Ok (filter (stops_within limit) flights).
Proof.
  intro Hl. apply filter_flights_as_filter.
  intros f _. apply verdict_stops_only. exact Hl.
Qed.

Lemma filter_flights_max_stops_witness :
  1 <> 0 /\
  filter_flights [mixed_cabins; economy_only; no_airline] None (Some 1) None None
  = Ok (filter (stops_within 1) [mixed_cabins; economy_only; no_airline]).
Proof.
  assert (H : 1 <> 0) by lia.
  split; [exact H|].
  exact (filter_flights_max_stops 1 [mixed_cabins; economy_only; no_airline] H).
Defined.

(** X9.  Filtering is idempotent: what [filter_flights] returns, it
    returns again when given its own result with the same criteria. *)
Theorem filter_flights_idempotent flights max_duration max_stops airlines cabin_class out :
  filter_flights flights max_duration max_stops airlines cabin_class = Ok out ->
  filter_flights out max_duration max_stops airlines cabin_class = Ok out.
Proof.
  intro H. unfold filter_flights in H.
  destruct (filter_loop _ _ _ _ H) as (kept & -> & _ & Hin). cbn [app].
  rewrite (filter_flights_as_filter max_duration max_stops airlines cabin_class
             (fun _ => true) kept).
  - rewrite filter_true. reflexivity.
  - intros f Hf. apply Hin in Hf. exact (proj2 Hf).
Qed.

Lemma filter_flights_idempotent_witness :
  filter_flights [mixed_cabins; economy_only] None (Some 1) (Some ["AF"]) (Some "ECONOMY")
  = Ok [economy_only] /\
  filter_flights [economy_only] None (Some 1) (Some ["AF"]) (Some "ECONOMY")
  = Ok [economy_only].
Proof.
  assert (H : filter_flights [mixed_cabins; economy_only] None (Some 1) (Some ["AF"])
                (Some "ECONOMY") = Ok [economy_only]) by reflexivity.
  split; [exact H|].
  exact (filter_flights_idempotent _ _ _ _ _ _ H).
Defined.

Lemma filter_twice {A} (f g : A -> bool) (xs : list A) :
  filter g (filter f xs) = filter (fun x => f x && g x) xs.
Proof.
  induction xs as [|x xs IH]; [reflexivity|].
  cbn [filter]. destruct (f x); cbn [filter andb]; [destruct (g x)|]; rewrite IH; reflexivity.
Qed.

Lemma keeps_split max_duration max_stops airlines cabin_class (flight : Flight) :
  well_formed flight ->
  keeps max_duration max_stops airlines cabin_class flight
  = keeps max_duration max_stops None None flight
    && keeps None None airlines cabin_class flight.
Proof.
  intro Hwf. unfold keeps.
  destruct (verdict_spec max_duration max_stops airlines cabin_class flight Hwf)
    as (b & -> & Hb).
  destruct (verdict_spec max_duration max_stops None None flight Hwf) as (b1 & -> & Hb1).
  destruct (verdict_spec None None airlines cabin_class flight Hwf) as (b2 & -> & Hb2).
  apply eq_true_iff_eq. rewrite andb_true_iff, Hb, Hb1, Hb2.
  unfold within_duration, within_stops, airline_allowed, cabin_offered.
  cbn [active_limit active_list active_string].
  split.
  - intro H. split; intros it Hit; destruct (H it Hit) as (? & ? & ? & ?); tauto.
  - intros [H1 H2] it Hit.
    destruct (H1 it Hit) as (? & ? & _). destruct (H2 it Hit) as (_ & _ & ? & ?). tauto.
Qed.

Lemma well_formed_filter (keep : Flight -> bool) (flights : list Flight) :
  Forall well_formed flights -> Forall well_formed (filter keep flights).
Proof.
  intro H. apply Forall_forall. intros f Hf. apply filter_In in Hf.
  rewrite Forall_forall in H. apply H. exact (proj1 Hf).
Qed.

(** X10.  On well-formed offers the criteria compose: filtering by all of
    them at once gives what filtering by duration and stops and then by
    airlines and cabin gives, and what filtering in the other order
    gives. *)
Theorem filter_flights_in_stages flights max_duration max_stops airlines cabin_class :
  Forall well_formed flights ->
  exists out by_itinerary by_offer,
    filter_flights flights max_duration max_stops airlines cabin_class = Ok out /\
    filter_flights flights max_duration max_stops None None = Ok by_itinerary /\
    filter_flights by_itinerary None None airlines cabin_class = Ok out /\
    filter_flights flights None None airlines cabin_class = Ok by_offer /\
    filter_flights by_offer max_duration max_stops None None = Ok out.
Proof.
  intro Hwf.
  assert (R : forall md ms al cc fs,
             Forall well_formed fs ->
             filter_flights fs md ms al cc = Ok (filter (keeps md ms al cc) fs)).
  { intros md ms al cc fs Hfs. apply filter_flights_as_filter.
    intros f Hf. apply keeps_verdict. rewrite Forall_forall in Hfs. apply Hfs. exact Hf. }
  exists (filter (keeps max_duration max_stops airlines cabin_class) flights),
         (filter (keeps max_duration max_stops None None) flights),
         (filter (keeps None None airlines cabin_class) flights).
  assert (E1 : filter (keeps None None airlines cabin_class)
                      (filter (keeps max_duration max_stops None None) flights)
               = filter (keeps max_duration max_stops airlines cabin_class) flights).
  { rewrite filter_twice. apply filter_ext_in. intros f Hf. symmetry.
    apply keeps_split. rewrite Forall_forall in Hwf. apply Hwf. exact Hf. }
  assert (E2 : filter (keeps max_duration max_stops None None)
                      (filter (keeps None None airlines cabin_class) flights)
               = filter (keeps max_duration max_stops airlines cabin_class) flights).
  { rewrite filter_twice. apply filter_ext_in. intros f Hf. symmetry.
    rewrite andb_comm. apply keeps_split. rewrite Forall_forall in Hwf. apply Hwf. exact Hf. }
  split; [apply R; exact Hwf|].
  split; [apply R; exact Hwf|].
  split; [rewrite R by (apply well_formed_filter; exact Hwf); rewrite E1; reflexivity|].
  split; [apply R; exact Hwf|].
  rewrite R by (apply well_formed_filter; exact Hwf). rewrite E2. reflexivity.
Qed.

Lemma filter_flights_in_stages_witness :
  Forall well_formed [mixed_cabins; economy_only] /\
  exists out by_itinerary by_offer,
    filter_flights [mixed_cabins; economy_only] (Some 200) (Some 1) (Some ["AF"])
      (Some "ECONOMY") = Ok out /\
    filter_flights [mixed_cabins; economy_only] (Some 200) (Some 1) None None
    = Ok by_itinerary /\
    filter_flights by_itinerary None None (Some ["AF"]) (Some "ECONOMY") = Ok out /\
    filter_flights [mixed_cabins; economy_only] None None (Some ["AF"]) (Some "ECONOMY")
    = Ok by_offer /\
    filter_flights by_offer (Some 200) (Some 1) None None = Ok out.
Proof.
  assert (H : Forall well_formed [mixed_cabins; economy_only]).
  { repeat constructor; simpl; discriminate. }
  split; [exact H|].
  exact (filter_flights_in_stages [mixed_cabins; economy_only] (Some 200) (Some 1)
           (Some ["AF"]) (Some "ECONOMY") H).
Defined.

Lemma nameless_decidable (flight : Flight) : nameless flight \/ ~ nameless flight.
Proof.
  unfold nameless.
  destruct (itineraries flight); [right; intros [H _]; contradiction H; reflexivity|].
  destruct (validatingAirlineCodes flight);
    [left; split; [discriminate|reflexivity] | right; intros [_ H]; discriminate].
Qed.

Lemma undated_decidable (flight : Flight) : undated flight \/ ~ undated flight.
Proof.
  unfold undated. induction (itineraries flight) as [|it its [IH|IH]].
  - right. intro H. inversion H.
  - left. right. exact IH.
  - destruct (strip_PT (duration it)) eqn:E.
    + right. intro H. inversion H; subst; [congruence|contradiction].
    + left. left. exact E.
Qed.

Lemma verdict_nameless max_duration max_stops allowed cabin_class (flight : Flight) :
  active_limit max_duration = None ->
  nameless flight ->
  verdict max_duration max_stops (Some allowed) cabin_class flight = Raise IndexError
  \/ allowed = [].
Proof.
  intros Hmd [Hit Hc]. destruct allowed as [|a allowed]; [right; reflexivity|left].
  unfold verdict. destruct (itineraries flight) as [|it its]; [contradiction|].
  cbn [rfor_each]. unfold check_itinerary at 1. rewrite Hmd, Hc. reflexivity.
Qed.

Lemma verdict_named max_duration max_stops airlines cabin_class (flight : Flight) :
  active_limit max_duration = None ->
  ~ nameless flight ->
  exists b, verdict max_duration max_stops airlines cabin_class flight = Ok b.
Proof.
  intros Hmd Hn. unfold verdict, nameless in *.
  destruct (itineraries flight) as [|it0 its0] eqn:I; [exists true; reflexivity|].
  destruct (validatingAirlineCodes flight) as [|code others] eqn:C.
  { contradiction Hn. split; [discriminate|reflexivity]. }
  generalize (it0 :: its0). intro its. generalize true.
  induction its as [|it its IH]; intro add_flight.
  - exists add_flight. reflexivity.
  - cbn [rfor_each]. unfold check_itinerary at 1. rewrite Hmd, C. cbn [rbind item0].
    destruct (active_list airlines); cbn [rbind]; apply IH.
Qed.

Lemma check_itinerary_undated limit max_stops airlines cabin_class flight add_flight it :
  active_limit limit <> None ->
  strip_PT (duration it) = None ->
  check_itinerary flight limit max_stops airlines cabin_class add_flight it
  = Raise AttributeError.
Proof.
  intros Hl Hd. unfold check_itinerary, _get_duration. rewrite Hd.
  destruct (active_limit limit); [reflexivity|contradiction].
Qed.

Lemma check_itinerary_dated max_duration max_stops airlines cabin_class flight add_flight it :
  active_list airlines = None ->
  strip_PT (duration it) <> None ->
  exists b,
    check_itinerary flight max_duration max_stops airlines cabin_class add_flight it = Ok b.
Proof.
  intros Ha Hd. destruct (get_duration_total _ Hd) as [minutes Hm].
  unfold check_itinerary. rewrite Hm, Ha.
  destruct (active_limit max_duration); cbn [rbind]; eexists; reflexivity.
Qed.

Lemma duration_decidable (it : Itinerary) :
  strip_PT (duration it) = None \/ strip_PT (duration it) <> None.
Proof. destruct (strip_PT (duration it)); [right; discriminate|left; reflexivity]. Qed.

(** X11.  What makes [filter_flights] fail.  With airlines supplied and no
    duration limit, it raises [IndexError] exactly when some offer that
    has an itinerary has no validating airline code.  With a duration limit
    and no airlines, it raises [AttributeError] exactly when some itinerary
    has a duration that does not start with [PT]. *)
Theorem filter_flights_failures flights max_duration max_stops airlines cabin_class :
  (active_limit max_duration = None -> active_list airlines <> None ->
   (filter_flights flights max_duration max_stops airlines cabin_class = Raise IndexError
    <-> Exists nameless flights)) /\
  (active_limit max_duration <> None -> active_list airlines = None ->
   (filter_flights flights max_duration max_stops airlines cabin_class = Raise AttributeError
    <-> Exists undated flights)).
Proof.
  split.
  - intros Hmd Hal.
    assert (Hbad : forall f, nameless f ->
               verdict max_duration max_stops airlines cabin_class f = Raise IndexError).
    { intros f Hf. destruct airlines as [allowed|]; [|contradiction Hal; reflexivity].
      destruct (verdict_nameless max_duration max_stops allowed cabin_class f Hmd Hf)
        as [H | ->]; [exact H|contradiction Hal; reflexivity]. }
    split.
    + intro Hraise.
      assert (D : Exists nameless flights \/ Forall (fun f => ~ nameless f) flights).
      { clear. induction flights as [|f fs [IH|IH]].
        - right. constructor.
        - left. right. exact IH.
        - destruct (nameless_decidable f); [left; left; assumption|].
          right. constructor; assumption. }
      destruct D as [D|D]; [exact D|].
      destruct (filter_loop_total (verdict max_duration max_stops airlines cabin_class)
                  flights []) as [out Hout].
      { eapply Forall_impl; [|exact D]. intros f Hf. apply verdict_named; assumption. }
      unfold filter_flights in Hraise. unfold verdict in Hout. congruence.
    + intro Hex. unfold filter_flights.
      apply (rfor_each_first_raise nameless IndexError);
        [ | | apply nameless_decidable | exact Hex].
      * intros st f Hf. fold (verdict max_duration max_stops airlines cabin_class f).
        rewrite (Hbad f Hf). reflexivity.
      * intros st f Hf. fold (verdict max_duration max_stops airlines cabin_class f).
        destruct (verdict_named max_duration max_stops airlines cabin_class f Hmd Hf)
          as [b Hb].
        rewrite Hb. eexists; reflexivity.
  - intros Hmd Hal.
    assert (Hbad : forall f, undated f ->
               verdict max_duration max_stops airlines cabin_class f = Raise AttributeError).
    { intros f Hf. unfold verdict.
      apply (rfor_each_first_raise
               (fun it => strip_PT (duration it) = None) AttributeError);
        [ | | apply duration_decidable | exact Hf].
      - intros st it Hit. apply check_itinerary_undated; assumption.
      - intros st it Hit. apply check_itinerary_dated; assumption. }
    assert (Hgood : forall f, ~ undated f ->
               exists b, verdict max_duration max_stops airlines cabin_class f = Ok b).
    { intros f Hf. unfold verdict, undated in *. generalize true.
      induction (itineraries f) as [|it its IH]; intro add_flight.
      - exists add_flight. reflexivity.
      - destruct (duration_decidable it) as [Hd|Hd];
          [contradiction Hf; left; exact Hd|].
        destruct (check_itinerary_dated max_duration max_stops airlines cabin_class f
                    add_flight it Hal Hd) as [b Hb].
        cbn [rfor_each]. rewrite Hb. cbn [rbind].
        apply IH. intro H. apply Hf. right. exact H. }
    split.
    + intro Hraise.
      assert (D : Exists undated flights \/ Forall (fun f => ~ undated f) flights).
      { clear. induction flights as [|f fs [IH|IH]].
        - right. constructor.
        - left. right. exact IH.
        - destruct (undated_decidable f); [left; left; assumption|].
          right. constructor; assumption. }
      destruct D as [D|D]; [exact D|].
      destruct (filter_loop_total (verdict max_duration max_stops airlines cabin_class)
                  flights []) as [out Hout].
      { eapply Forall_impl; [|exact D]. exact Hgood. }
      unfold filter_flights in Hraise. unfold verdict in Hout. congruence.
    + intro Hex. unfold filter_flights.
      apply (rfor_each_first_raise undated AttributeError);
        [ | | apply undated_decidable | exact Hex].
      * intros st f Hf. fold (verdict max_duration max_stops airlines cabin_class f).
        rewrite (Hbad f Hf). reflexivity.
      * intros st f Hf. fold (verdict max_duration max_stops airlines cabin_class f).
        destruct (Hgood f Hf) as [b Hb]. rewrite Hb. eexists; reflexivity.
Qed.

Lemma filter_flights_failures_witness :
  filter_flights [economy_only; no_airline] None (Some 1) (Some ["AF"]) None
  = Raise IndexError /\
  filter_flights [economy_only; no_duration] (Some 180) None None None
  = Raise AttributeError.
Proof.
  split.
  - apply (proj1 (filter_flights_failures [economy_only; no_airline]
                    None (Some 1) (Some ["AF"]) None)); [reflexivity|discriminate|].
    right. left. split; [discriminate|reflexivity].
  - apply (proj2 (filter_flights_failures [economy_only; no_duration]
                    (Some 180) None None None)); [discriminate|reflexivity|].
    right. left. left. reflexivity.
Defined.

(** ** Failing weekdays *)

(** X12.  [analyze_prices_by_weekday] returns no averages once a departure
    cannot be dated: it raises the error [_get_weekday] raises for the first
    segment, in the order of the visit, that it rejects. *)
Theorem analyze_prices_by_weekday_raises (_get_weekday : string -> result string)
    (flights : list Flight) before flight segment after (e : exn) :
  events flights = (before ++ (flight, segment) :: after)%list ->
  Forall (fun v => exists day, _get_weekday (at_ (departure (snd v))) = Ok day) before ->
  _get_weekday (at_ (departure segment)) = Raise e ->
  analyze_prices_by_weekday _get_weekday flights = Raise e.
Proof.
  intros Hev Hbefore Hraise.
  unfold analyze_prices_by_weekday. rewrite nested_loops, Hev, rfor_each_app.
  assert (Hinit : tracks _get_weekday ([], []) []).
  { split; [constructor|]. intro day. reflexivity. }
  destruct (events_loop _get_weekday before [] ([], []) Hbefore Hinit) as ([P C] & Hrun & _).
  rewrite Hrun. cbn [rbind rfor_each fst snd].
  unfold add_segment at 1. rewrite Hraise. reflexivity.
Qed.

Lemma analyze_prices_by_weekday_raises_witness :
  analyze_prices_by_weekday Calendar.weekday
    [direct; offer "AF" 75 [one_segment 0 "26/03/2025 10:00"] [fare "ECONOMY"]]
  = Raise ValueError.
Proof.
  apply (analyze_prices_by_weekday_raises Calendar.weekday _
           [(direct, one_segment 0 "2025-03-26T09:00:00")]
           (offer "AF" 75 [one_segment 0 "26/03/2025 10:00"] [fare "ECONOMY"])
           (one_segment 0 "26/03/2025 10:00") []).
  - reflexivity.
  - repeat constructor. eexists. reflexivity.
  - reflexivity.
Defined.

(** ** Distances and estimates *)

Section EstimatorMore.

Variable geocode : string -> value.
Variable geodesic_km : value * value -> value * value -> result Q.

(** X13.  When both coordinate lookups return, [calculate_distance] has
    made both, in order, and gives a distance only if both found their
    airport: with one of them empty-handed it prints its own message last
    and returns [None]; otherwise it returns what the distance library
    returns or raises what it raises. *)
Theorem calculate_distance_cases (departure_airport arrival_airport : string)
    out1 out2 found1 found2 :
  get_airport_coordinates geocode departure_airport = (out1, Ok found1) ->
  get_airport_coordinates geocode arrival_airport = (out2, Ok found2) ->
  calculate_distance geocode geodesic_km departure_airport arrival_airport
  = match found1, found2 with
    | Some a, Some b =>
        ((out1 ++ out2)%list,
         match geodesic_km a b with Ok km => Ok (Some km) | Raise e => Raise e end)
    | _, _ => ((out1 ++ out2 ++ [distance_unavailable])%list, Ok None)
    end.
Proof.
  intros H1 H2. unfold calculate_distance.
  rewrite H1, bind_printed, H2, bind_printed. cbn [fst snd].
  destruct found1 as [a|], found2 as [b|]; cbn [bind print ret fst snd lift];
    try (rewrite <- ?app_assoc; reflexivity).
  destruct (geodesic_km a b) as [km|e]; cbn [bind lift ret];
    rewrite ?app_nil_r; reflexivity.
Qed.

(** The estimate, once the distance is resolved. *)
Lemma estimate_record aircraft passengers bags dep arr fuel_price out km :
  calculate_distance geocode geodesic_km dep arr = (out, Ok (Some km)) ->
  passengers <> 0 ->
  exists c,
    estimate_flight_cost geocode geodesic_km aircraft passengers bags dep arr fuel_price
      = (out, Ok c) /\
    flight_duration_hours c = (km / 850)%Q /\
    total_fuel_needed c
    = (2500 * (1 + (5 # 1000) * (inject_Z (41413 + passengers * 100) / inject_Z 41413 - 1))
       * (km / 850))%Q.
Proof.
  intros Hd Hp.
  unfold estimate_flight_cost; cbv zeta.
  rewrite Hd, bind_printed.
  unfold truediv_distance.
  rewrite (truediv_nonzero km 850) by (unfold Qeq; simpl; lia).
  rewrite bind_lift_Ok.
  rewrite (truediv_nonzero _ (inject_Z 41413)) by (apply inject_Z_nonzero; lia).
  rewrite bind_lift_Ok.
  rewrite (truediv_nonzero _ (inject_Z passengers)) by (apply inject_Z_nonzero; exact Hp).
  rewrite bind_lift_Ok.
  unfold ret, fst, snd. rewrite app_nil_r.
  eexists. split; [reflexivity|]. split; reflexivity.
Qed.

(** X14.  An estimate is returned only when the distance was resolved and
    the passenger count is not zero.  Its duration is the distance over
    850; with another fuel price the call returns again, with the same
    duration and the same fuel needed; and the aircraft type and the bags
    per passenger change nothing in what is printed and returned. *)
Theorem estimate_consistent aircraft passengers bags dep arr fuel_price out c :
  estimate_flight_cost geocode geodesic_km aircraft passengers bags dep arr fuel_price
    = (out, Ok c) ->
  passengers <> 0 /\
  (exists km,
      calculate_distance geocode geodesic_km dep arr = (out, Ok (Some km)) /\
      flight_duration_hours c = (km / 850)%Q) /\
  (forall other_price,
      exists c',
        estimate_flight_cost geocode geodesic_km aircraft passengers bags dep arr other_price
          = (out, Ok c') /\
        flight_duration_hours c' = flight_duration_hours c /\
        total_fuel_needed c' = total_fuel_needed c) /\
  (forall other_aircraft other_bags,
      estimate_flight_cost geocode geodesic_km other_aircraft passengers other_bags
        dep arr fuel_price
      = (out, Ok c)).
Proof.
  intro H.
  destruct (calculate_distance geocode geodesic_km dep arr) as [out' [[km|]|e]] eqn:Hd.
  - destruct (Z.eq_dec passengers 0) as [->|Hp].
    + rewrite (estimate_no_passengers _ _ _ _ _ _ _ _ _ Hd) in H. discriminate.
    + destruct (estimate_record aircraft passengers bags dep arr fuel_price out' km Hd Hp)
        as (c0 & Hc0 & Hdur & Hfuel).
      rewrite Hc0 in H. injection H as <- <-.
      split; [exact Hp|]. split; [exists km; split; [reflexivity|exact Hdur]|].
      split.
      * intro other.
        destruct (estimate_record aircraft passengers bags dep arr other out' km Hd Hp)
          as (c' & Hc' & Hdur' & Hfuel').
        exists c'. split; [exact Hc'|]. split; congruence.
      * intros other_aircraft other_bags. exact Hc0.
  - rewrite (estimate_unresolved _ _ _ _ _ _ _ _ _ Hd) in H. discriminate.
  - rewrite (estimate_raises _ _ _ _ _ _ _ _ _ _ Hd) in H. discriminate.
Qed.

End EstimatorMore.

Lemma calculate_distance_cases_witness :
  calculate_distance Atlas.geocode Atlas.geodesic_km "CDG" "ORY"
  = ([coordinates_not_found "ORY"; distance_unavailable], Ok None).
Proof.
  exact (calculate_distance_cases Atlas.geocode Atlas.geodesic_km "CDG" "ORY"
           [] [coordinates_not_found "ORY"]
           (Some (VFloat (490097 # 10000), VFloat (25479 # 10000))) None
           eq_refl eq_refl).
Defined.

Lemma estimate_consistent_witness :
  exists c c',
    estimate_flight_cost Atlas.geocode Atlas.geodesic_km "Airbus 737" 150 1 "CDG" "ALG"
      (12 # 10) = ([], Ok c) /\
    estimate_flight_cost Atlas.geocode Atlas.geodesic_km "Airbus 737" 150 1 "CDG" "ALG"
      (15 # 10) = ([], Ok c') /\
    total_fuel_needed c' = total_fuel_needed c /\
    estimate_flight_cost Atlas.geocode Atlas.geodesic_km "Boeing 737" 150 3 "CDG" "ALG"
      (12 # 10) = ([], Ok c).
Proof.
  eexists.
  destruct (estimate_consistent Atlas.geocode Atlas.geodesic_km "Airbus 737" 150 1
              "CDG" "ALG" (12 # 10)%Q [] _ eq_refl) as (_ & _ & H1 & H2).
  destruct (H1 (15 # 10)%Q) as (c' & Hc' & _ & Hfuel).
  exists c'. split; [reflexivity|]. split; [exact Hc'|]. split; [exact Hfuel|].
  exact (H2 "Boeing 737" 3).
Defined.

(** ** Console reports *)

Lemma fold_left_flat_map {A B S} (g : A -> list B) (step : S -> B -> S)
    (xs : list A) (acc : S) :
  fold_left (fun acc x => fold_left step (g x) acc) xs acc
  = fold_left step (flat_map g xs) acc.
Proof.
  revert acc. induction xs as [|x xs IH]; intro acc; simpl.
  - reflexivity.
  - rewrite fold_left_app. apply IH.
Qed.

Lemma find_last {A} (p : A -> bool) (xs : list A) (x : A) :
  find p (rev (x :: xs))
  = match find p (rev xs) with Some y => Some y | None => if p x then Some x else None end.
Proof.
  cbn [rev]. induction (rev xs) as [|y ys IH]; simpl.
  - reflexivity.
  - destruct (p y); [reflexivity|exact IH].
Qed.

Lemma fares_last_wins (fares : list FareDetail) (start : dict string) (segment_id : string) :
  dict_get segment_id
    (fold_left (fun fare_details fare =>
                  dict_set (segmentId fare) (cabin fare) fare_details)
               fares start)
  = match find (fun fare => (segmentId fare =? segment_id)%string) (rev fares) with
    | Some fare => Some (cabin fare)
    | None => dict_get segment_id start
    end.
Proof.
  revert start. induction fares as [|f fs IH]; intro start.
  - reflexivity.
  - cbn [fold_left]. rewrite IH, find_last.
    destruct (find _ (rev fs)); [reflexivity|].
    destruct (String.eqb_spec (segmentId f) segment_id) as [<-|Hne].
    + apply dict_get_set_same.
    + apply dict_get_set_other. congruence.
Qed.

(** X15.  The cabin the reports show for a segment is the cabin of the
    last fare detail of the offer, travelers and their fare details taken in
    order, that names the segment, and [Unknown] when none does. *)
Theorem cabin_of_last_fare (flight : Flight) (segment_id : string) :
  cabin_of (fare_details flight) segment_id
  = match find (fun fare => (segmentId fare =? segment_id)%string)
               (rev (all_fares flight)) with
    | Some fare => cabin fare
    | None => "Unknown"
    end.
Proof.
  unfold cabin_of, fare_details, all_fares.
  rewrite (fold_left_flat_map fareDetailsBySegment
             (fun fare_details fare => dict_set (segmentId fare) (cabin fare) fare_details)).
  rewrite fares_last_wins.
  destruct (find _ _); reflexivity.
Qed.

Lemma bind_assoc {A B C} (m : M A) (k : A -> M B) (k' : B -> M C) :
  bind (bind m k) k' = bind m (fun a => bind (k a) k').
Proof.
  destruct m as [out [a|e]]; [|reflexivity].
  unfold bind at 2 3. destruct (k a) as [out1 [b|e]].
  - unfold bind. destruct (k' b) as [out2 r]. rewrite app_assoc. reflexivity.
  - reflexivity.
Qed.

Lemma bind_ext {A B} (m : M A) (k k' : A -> M B) :
  (forall a, k a = k' a) -> bind m k = bind m k'.
Proof.
  intro H. destruct m as [out [a|e]]; [|reflexivity].
  unfold bind. rewrite H. reflexivity.
Qed.

Lemma for_each_app {A S} (xs ys : list A) (body : S -> A -> M S) (acc : S) :
  for_each (xs ++ ys) body acc = bind (for_each xs body acc) (for_each ys body).
Proof.
  revert acc. induction xs as [|x xs IH]; intro acc.
  - cbn [app for_each]. rewrite bind_ret. reflexivity.
  - cbn [app for_each]. rewrite bind_assoc. apply bind_ext. exact IH.
Qed.

(** A loop whose body prints [lines x] and keeps going. *)
Lemma for_each_prints {A S} (lines : A -> list string) (next : S -> A -> S)
    (body : S -> A -> M S) (xs : list A) (acc : S) :
  (forall st x, body st x = (lines x, Ok (next st x))) ->
  for_each xs body acc = (flat_map lines xs, Ok (fold_left next xs acc)).
Proof.
  intro H. revert acc. induction xs as [|x xs IH]; intro acc.
  - reflexivity.
  - cbn [for_each flat_map fold_left]. rewrite H, bind_printed, IH. reflexivity.
Qed.

(** The lines [display_cabin_classes] prints for an offer it can show. *)
Lemma cabin_option_showable (i : Z) (flight : Flight) :
  showable flight ->
  exists lines,
    cabin_option i flight = (lines, Ok (i + 1)) /\
    List.length lines = (3 + 2 * List.length (outbound_segments flight))%nat.
Proof.
  intros [Hc Hi]. unfold cabin_option, outbound_segments.
  destruct (validatingAirlineCodes flight) as [|airline others]; [contradiction|].
  destruct (itineraries flight) as [|outbound rest]; [contradiction|].
  cbn [item0]. rewrite !bind_lift_Ok. cbv zeta.
  rewrite (for_each_prints
             (fun segment =>
                [segment_line segment;
                 "    Cabin Class: " ++ cabin_of (fare_details flight) (id segment)])
             (fun _ _ => tt)).
  2:{ intros st x. reflexivity. }
  eexists. split; [reflexivity|].
  cbn [fst snd List.length app]. rewrite !length_app. cbn [List.length].
  assert (L : forall (ss : list Segment) (g h : Segment -> string),
             List.length (flat_map (fun s => [g s; h s]) ss) = (2 * List.length ss)%nat).
  { induction ss as [|s ss IH]; intros g h; simpl; [reflexivity|].
    rewrite IH. lia. }
  rewrite L. lia.
Qed.

Lemma cabin_option_unshowable (i : Z) (flight : Flight) :
  ~ showable flight -> cabin_option i flight = ([], Raise IndexError).
Proof.
  intro H. unfold cabin_option, showable in *.
  destruct (validatingAirlineCodes flight) as [|airline others]; [reflexivity|].
  destruct (itineraries flight) as [|outbound rest]; [reflexivity|].
  contradiction H. split; discriminate.
Qed.

Lemma cabin_options_showable (flights : list Flight) (i : Z) :
  Forall showable flights ->
  exists lines,
    for_each flights cabin_option i = (lines, Ok (i + Z.of_nat (List.length flights))) /\
    List.length lines
    = list_sum (map (fun f => (3 + 2 * List.length (outbound_segments f))%nat) flights).
Proof.
  intro H. revert i. induction H as [|f fs Hf _ IH]; intro i.
  - exists []. split; [|reflexivity]. cbn [for_each List.length]. unfold ret.
    f_equal. f_equal. simpl. lia.
  - destruct (cabin_option_showable i f Hf) as (l1 & H1 & L1).
    destruct (IH (i + 1)) as (l2 & H2 & L2).
    exists (l1 ++ l2)%list. split.
    + cbn [for_each]. rewrite H1, bind_printed, H2. cbn [fst snd List.length].
      f_equal. f_equal. lia.
    + rewrite length_app, L1, L2. reflexivity.
Qed.

(** X16.  [display_cabin_classes] prints one line for an empty list.  For
    offers that all name an airline and have an itinerary it returns after
    three lines and two per segment of the first itinerary for each offer:
    later itineraries are not shown.  At the first offer that names no
    airline or has no itinerary it raises [IndexError], having printed what
    it prints for the offers before that one. *)
Theorem display_cabin_classes_output :
  display_cabin_classes [] = ([no_options], Ok tt) /\
  (forall flights,
      flights <> [] -> Forall showable flights ->
      snd (display_cabin_classes flights) = Ok tt /\
      List.length (fst (display_cabin_classes flights))
      = list_sum (map (fun f => (3 + 2 * List.length (outbound_segments f))%nat) flights)) /\
  (forall before flight after,
      before <> [] -> Forall showable before -> ~ showable flight ->
      display_cabin_classes (before ++ flight :: after)
      = (fst (display_cabin_classes before), Raise IndexError)).
Proof.
  split; [reflexivity|]. split.
  - intros flights Hne Hall. destruct flights as [|f fs]; [contradiction|].
    destruct (cabin_options_showable (f :: fs) 1 Hall) as (lines & Hrun & Hlen).
    unfold display_cabin_classes. rewrite Hrun, bind_printed. cbn [fst snd ret].
    rewrite app_nil_r. split; [reflexivity|exact Hlen].
  - intros before flight after Hne Hall Hbad.
    destruct before as [|b bs]; [contradiction|].
    destruct (cabin_options_showable (b :: bs) 1 Hall) as (lines & Hrun & _).
    unfold display_cabin_classes. cbn [app].
    change (b :: (bs ++ flight :: after))%list with ((b :: bs) ++ flight :: after)%list.
    rewrite for_each_app, Hrun, !bind_printed. cbn [for_each fst snd ret].
    rewrite (cabin_option_unshowable _ flight Hbad). cbn [bind fst snd].
    rewrite !app_nil_r. reflexivity.
Qed.

Lemma display_cabin_classes_output_witness :
  snd (display_cabin_classes [with_connection; direct]) = Ok tt /\
  List.length (fst (display_cabin_classes [with_connection; direct])) = 12%nat /\
  display_cabin_classes ([with_connection] ++ no_itinerary :: [direct])
  = (fst (display_cabin_classes [with_connection]), Raise IndexError).
Proof.
  destruct display_cabin_classes_output as (_ & H2 & H3).
  assert (S1 : Forall showable [with_connection; direct])
    by (repeat constructor; discriminate).
  assert (S2 : Forall showable [with_connection])
    by (repeat constructor; discriminate).
  destruct (H2 [with_connection; direct]) as [Hok Hlen]; [discriminate|exact S1|].
  split; [exact Hok|]. split; [exact Hlen|].
  apply H3; [discriminate|exact S2|]. intros [_ H]. apply H. reflexivity.
Defined.

(** ** The ten cheapest offers *)

Lemma insert_by_total_perm (x : Flight) (xs : list Flight) :
  Permutation (insert_by_total x xs) (x :: xs).
Proof.
  induction xs as [|y ys IH]; simpl.
  - apply Permutation_refl.
  - destruct (Qle_bool _ _).
    + apply Permutation_refl.
    + eapply perm_trans; [apply perm_skip, IH | apply perm_swap].
Qed.

Lemma sorted_by_total_perm (flights : list Flight) :
  Permutation (sorted_by_total flights) flights.
Proof.
  induction flights as [|x xs IH]; simpl.
  - constructor.
  - eapply perm_trans; [apply insert_by_total_perm | apply perm_skip, IH].
Qed.

Lemma insert_by_total_ascending (x : Flight) (xs : list Flight) :
  Sorted no_dearer xs -> Sorted no_dearer (insert_by_total x xs).
Proof.
  induction 1 as [|y ys Hs IH Hhd]; simpl.
  - repeat constructor.
  - destruct (Qle_bool (total (price x)) (total (price y))) eqn:E.
    + apply Qle_bool_iff in E. repeat constructor; assumption.
    + assert (Hyx : no_dearer y x).
      { unfold no_dearer.
        destruct (Qlt_le_dec (total (price y)) (total (price x))) as [Hlt|Hle];
          [apply Qlt_le_weak; exact Hlt|].
        apply Qle_bool_iff in Hle. congruence. }
      constructor; [exact IH|].
      destruct ys as [|z zs]; simpl.
      * constructor. exact Hyx.
      * inversion Hhd; subst.
        destruct (Qle_bool (total (price x)) (total (price z))); constructor; assumption.
Qed.

Lemma sorted_by_total_ascending (flights : list Flight) :
  Sorted no_dearer (sorted_by_total flights).
Proof.
  induction flights as [|x xs IH]; simpl.
  - constructor.
  - apply insert_by_total_ascending, IH.
Qed.

Lemma sorted_by_total_fixed (flights : list Flight) :
  Sorted no_dearer flights -> sorted_by_total flights = flights.
Proof.
  induction 1 as [|x xs Hs IH Hhd]; [reflexivity|].
  cbn [sorted_by_total]. rewrite IH.
  destruct Hhd as [|y ys Hxy]; [reflexivity|].
  cbn [insert_by_total]. unfold no_dearer in Hxy. apply Qle_bool_iff in Hxy.
  rewrite Hxy. reflexivity.
Qed.

Lemma no_dearer_trans : Relations_1.Transitive no_dearer.
Proof. intros f g h. unfold no_dearer. apply Qle_trans. Qed.

Lemma strongly_sorted_split (xs ys : list Flight) :
  StronglySorted no_dearer (xs ++ ys) ->
  StronglySorted no_dearer xs /\
  forall f g, In f xs -> In g ys -> no_dearer f g.
Proof.
  induction xs as [|x xs IH]; intro H.
  - split; [constructor|]. intros f g [].
  - cbn [app] in H. apply StronglySorted_inv in H. destruct H as [Hs Hall].
    destruct (IH Hs) as [Hxs Hdom]. split.
    + constructor; [exact Hxs|].
      rewrite Forall_forall in *. intros y Hy. apply Hall, in_or_app. left. exact Hy.
    + intros f g [<-|Hf] Hg.
      * rewrite Forall_forall in Hall. apply Hall, in_or_app. right. exact Hg.
      * apply Hdom; assumption.
Qed.

Lemma top_10_flights_ascending (flights : list Flight) :
  Sorted no_dearer (top_10_flights flights).
Proof.
  unfold top_10_flights.
  pose proof (Sorted_StronglySorted no_dearer_trans (sorted_by_total_ascending flights)) as H.
  rewrite <- (firstn_skipn 10 (sorted_by_total flights)) in H.
  apply StronglySorted_Sorted. exact (proj1 (strongly_sorted_split _ _ H)).
Qed.

Lemma top_10_flights_again (flights : list Flight) :
  top_10_flights (top_10_flights flights) = top_10_flights flights.
Proof.
  unfold top_10_flights at 1.
  rewrite (sorted_by_total_fixed _ (top_10_flights_ascending flights)).
  unfold top_10_flights. apply firstn_firstn.
Qed.

Lemma top_10_flights_In (flights : list Flight) (f : Flight) :
  In f (top_10_flights flights) -> In f flights.
Proof.
  unfold top_10_flights. intro H.
  apply (Permutation_in _ (sorted_by_total_perm flights)).
  rewrite <- (firstn_skipn 10 (sorted_by_total flights)). apply in_or_app. left. exact H.
Qed.

Lemma top_10_flights_nonempty (flights : list Flight) :
  flights <> [] -> top_10_flights flights <> [].
Proof.
  intros H E. apply (f_equal (@List.length Flight)) in E.
  unfold top_10_flights in E.
  rewrite length_firstn, (Permutation_length (sorted_by_total_perm flights)) in E.
  destruct flights; [contradiction|]. simpl in E. discriminate.
Qed.

(** X17.  The offers [display_top_10_cheapest_options] shows are the ten
    cheapest, or all of them when there are fewer: they are offers of the
    list, in ascending order of [price.total], and none of the offers left
    out costs less than one of them.  Selecting again among them selects
    them all. *)
Theorem top_10_flights_cheapest (flights : list Flight) :
  List.length (top_10_flights flights) = Nat.min 10 (List.length flights) /\
  Sorted no_dearer (top_10_flights flights) /\
  (exists rest,
      Permutation (top_10_flights flights ++ rest) flights /\
      forall f g, In f (top_10_flights flights) -> In g rest -> no_dearer f g) /\
  top_10_flights (top_10_flights flights) = top_10_flights flights.
Proof.
  unfold top_10_flights.
  pose proof (sorted_by_total_ascending flights) as Hs.
  pose proof (Sorted_StronglySorted no_dearer_trans Hs) as Hss.
  rewrite <- (firstn_skipn 10 (sorted_by_total flights)) in Hss.
  destruct (strongly_sorted_split _ _ Hss) as [Htop Hdom].
  assert (Hsorted : Sorted no_dearer (firstn 10 (sorted_by_total flights)))
    by (apply StronglySorted_Sorted; exact Htop).
  split; [|split; [exact Hsorted|split]].
  - rewrite length_firstn, (Permutation_length (sorted_by_total_perm flights)).
    reflexivity.
  - exists (skipn 10 (sorted_by_total flights)). split; [|exact Hdom].
    rewrite firstn_skipn. apply sorted_by_total_perm.
  - apply top_10_flights_again.
Qed.

(** ** Seat reports *)

Lemma truthy_encode (r : SeatMap.response) : truthy (SeatMap.encode r) = true.
Proof. reflexivity. Qed.

Lemma get_seat_map_answers post (flight : Flight) (reply : Reply) :
  answers post flight reply ->
  get_seat_map post flight = (error_lines reply, Ok (seatmap_data_of reply)).
Proof.
  unfold get_seat_map, answers. cbv zeta.
  destruct reply as [r|body|status body].
  - intros [Hs Hj]. rewrite Hs, Hj. reflexivity.
  - intros (Hs & Hj & _). rewrite Hs, Hj. reflexivity.
  - intros (Hs & Hne & Ht). rewrite Hs, Ht.
    apply Z.eqb_neq in Hne. rewrite Hne. reflexivity.
Qed.

Lemma seat_report_answered post (idx : Z) (flight : Flight) (reply : Reply) :
  answers post flight reply ->
  seat_report (get_seat_map post) idx flight = (seat_line (idx + 1) reply, Ok (idx + 1)).
Proof.
  intro H. unfold seat_report, seat_line.
  rewrite (get_seat_map_answers post flight reply H), bind_printed.
  destruct reply as [r|body|status body]; cbn [seatmap_data_of seat_text error_lines].
  - rewrite truthy_encode, count_seats_expected. reflexivity.
  - destruct H as (_ & _ & Hfalse). rewrite Hfalse. reflexivity.
  - reflexivity.
Qed.

Lemma seat_reports_answered post table (flights : list Flight) (idx : Z) :
  Forall (fun flight => answers post flight (table flight)) flights ->
  for_each flights (seat_report (get_seat_map post)) idx
  = (seat_lines (idx + 1) (map table flights),
     Ok (idx + Z.of_nat (List.length flights))).
Proof.
  revert idx. induction flights as [|f fs IH]; intros idx H.
  - cbn [for_each map seat_lines List.length]. unfold ret. f_equal. f_equal. simpl. lia.
  - inversion H as [|? ? Hf Hfs]; subst.
    cbn [for_each map seat_lines].
    rewrite (seat_report_answered post idx f (table f) Hf), bind_printed, (IH _ Hfs).
    cbn [fst snd List.length]. f_equal. f_equal. lia.
Qed.

Lemma bind_ret_tt {A} (m : M A) (out : list string) :
  bind m (fun _ => ret tt) = (out, Ok tt) -> exists a, m = (out, Ok a).
Proof.
  destruct m as [o [a|e]]; unfold bind, ret; intro H.
  - injection H as <-. exists a. rewrite app_nil_r. reflexivity.
  - discriminate.
Qed.

(** X18.  [aggregate_seat_data] over [get_seat_map].  Where the service
    answers every offer with status 200 and a well-shaped seat map, with
    status 200 and a body Python takes for false, or with another status,
    the report prints, for each offer in order and numbered from 1: after
    another status, the error line of [get_seat_map] with the status and
    the text of the response; then one line, with the counts [count_seats]
    finds in the seat map, or saying that no seat map is available.  An
    answer of status 200 whose body has an empty [data] list passes the
    test of the caller and makes the report raise [IndexError], after the
    lines of the offers before. *)
Theorem aggregate_seat_data_reports (post : Flight -> HttpResponse) :
  (forall table flights,
      Forall (fun flight => answers post flight (table flight)) flights ->
      aggregate_seat_data (get_seat_map post) flights
      = (seat_lines 1 (map table flights), Ok tt)) /\
  (forall before flight after out,
      aggregate_seat_data (get_seat_map post) before = (out, Ok tt) ->
      status_code (post flight) = 200 ->
      json (post flight) = Ok empty_seatmap ->
      aggregate_seat_data (get_seat_map post) (before ++ flight :: after)
      = (out, Raise IndexError)).
Proof.
  split.
  - intros table flights H. unfold aggregate_seat_data.
    rewrite (seat_reports_answered post table flights 0 H), bind_printed.
    cbn [fst snd ret]. rewrite app_nil_r. reflexivity.
  - intros before flight after out Hbefore Hstatus Hjson.
    unfold aggregate_seat_data in *.
    destruct (bind_ret_tt _ _ Hbefore) as [idx Hrun].
    assert (Hmap : get_seat_map post flight = ([], Ok empty_seatmap)).
    { unfold get_seat_map. cbv zeta. rewrite Hstatus, Hjson. reflexivity. }
    assert (E : for_each (flight :: after) (seat_report (get_seat_map post)) idx
                = ([], Raise IndexError)).
    { cbn [for_each]. unfold seat_report at 1. rewrite Hmap. reflexivity. }
    rewrite for_each_app, Hrun, bind_printed, E. cbn [bind fst snd].
    rewrite app_nil_r. reflexivity.
Qed.

Lemma aggregate_seat_data_reports_witness :
  aggregate_seat_data (get_seat_map seat_post) [direct; with_connection]
  = ([ "Error retrieving seat map: 401 - Unauthorized";
       "Option 1: Seat map data not available";
       "Option 2: 15/30 seats available" ], Ok tt) /\
  aggregate_seat_data (get_seat_map empty_post) ([direct] ++ with_connection :: [direct])
  = ([ "Error retrieving seat map: 401 - Unauthorized";
       "Option 1: Seat map data not available" ], Raise IndexError).
Proof.
  split.
  - refine (proj1 (aggregate_seat_data_reports seat_post) seat_table
                  [direct; with_connection] _).
    repeat constructor; discriminate.
  - refine (proj2 (aggregate_seat_data_reports empty_post) [direct] with_connection
                  [direct] _ _ _ _); reflexivity.
Defined.

(** ** The report of the ten cheapest offers *)

Section CheapestReport.

Variable total_text : Flight -> string.

Lemma cheapest_option_showable (i : Z) (flight : Flight) :
  showable flight ->
  exists lines,
    cheapest_option total_text i flight = (lines, Ok (i + 1)) /\
    List.length lines = (4 + List.length (outbound_segments flight))%nat.
Proof.
  intros [Hc Hi]. unfold cheapest_option, outbound_segments.
  destruct (validatingAirlineCodes flight) as [|airline others]; [contradiction|].
  destruct (itineraries flight) as [|outbound rest]; [contradiction|].
  cbn [item0]. cbv zeta. rewrite !bind_lift_Ok.
  rewrite (for_each_prints (fun segment => [segment_line segment]) (fun _ _ => tt)).
  2:{ intros st x. reflexivity. }
  eexists. split; [reflexivity|].
  cbn [fst snd List.length app]. rewrite !length_app. cbn [List.length].
  assert (L : forall (ss : list Segment) (g : Segment -> string),
             List.length (flat_map (fun s => [g s]) ss) = List.length ss).
  { induction ss as [|s ss IH]; intros g; simpl; [reflexivity|]. rewrite IH. reflexivity. }
  rewrite L. lia.
Qed.

Lemma cheapest_options_showable (flights : list Flight) (i : Z) :
  Forall showable flights ->
  exists lines,
    for_each flights (cheapest_option total_text) i
    = (lines, Ok (i + Z.of_nat (List.length flights))) /\
    List.length lines
    = list_sum (map (fun f => (4 + List.length (outbound_segments f))%nat) flights).
Proof.
  intro H. revert i. induction H as [|f fs Hf _ IH]; intro i.
  - exists []. split; [|reflexivity]. cbn [for_each List.length]. unfold ret.
    f_equal. f_equal. simpl. lia.
  - destruct (cheapest_option_showable i f Hf) as (l1 & H1 & L1).
    destruct (IH (i + 1)) as (l2 & H2 & L2).
    exists (l1 ++ l2)%list. split.
    + cbn [for_each]. rewrite H1, bind_printed, H2. cbn [fst snd List.length].
      f_equal. f_equal. lia.
    + rewrite length_app, L1, L2. reflexivity.
Qed.

(** X19.  [display_top_10_cheapest_options] prints one line for an empty
    list.  For other lists it prints what it prints for the ten cheapest
    offers alone; when the offers all name an airline and have an
    itinerary, it returns after four lines and one per segment of the first
    itinerary for each of the ten cheapest. *)
Theorem display_top_10_output :
  display_top_10_cheapest_options total_text [] = ([no_options], Ok tt) /\
  (forall flights,
      flights <> [] ->
      display_top_10_cheapest_options total_text flights
      = display_top_10_cheapest_options total_text (top_10_flights flights)) /\
  (forall flights,
      flights <> [] -> Forall showable flights ->
      snd (display_top_10_cheapest_options total_text flights) = Ok tt /\
      List.length (fst (display_top_10_cheapest_options total_text flights))
      = list_sum (map (fun f => (4 + List.length (outbound_segments f))%nat)
                      (top_10_flights flights))).
Proof.
  split; [reflexivity|]. split.
  - intros flights Hne. pose proof (top_10_flights_nonempty flights Hne) as Htop.
    unfold display_top_10_cheapest_options.
    destruct flights as [|f fs]; [contradiction|].
    destruct (top_10_flights (f :: fs)) as [|t ts] eqn:E; [contradiction|].
    rewrite <- E, top_10_flights_again. reflexivity.
  - intros flights Hne Hall. destruct flights as [|f fs]; [contradiction|].
    assert (Htop : Forall showable (top_10_flights (f :: fs))).
    { apply Forall_forall. intros g Hg. rewrite Forall_forall in Hall.
      apply Hall, top_10_flights_In. exact Hg. }
    destruct (cheapest_options_showable _ 1 Htop) as (lines & Hrun & Hlen).
    unfold display_top_10_cheapest_options. rewrite Hrun, bind_printed.
    cbn [fst snd ret]. rewrite app_nil_r. split; [reflexivity|exact Hlen].
Qed.

End CheapestReport.

Lemma display_top_10_output_witness :
  display_top_10_cheapest_options (fun _ => "100.00") three_offers
  = display_top_10_cheapest_options (fun _ => "100.00") (top_10_flights three_offers) /\
  snd (display_top_10_cheapest_options (fun _ => "100.00") three_offers) = Ok tt.
Proof.
  destruct (display_top_10_output (fun _ => "100.00")) as (_ & H2 & H3).
  split.
  - apply H2. discriminate.
  - apply H3; [discriminate|]. repeat constructor; discriminate.
Defined.

(** ** The report of flight options *)

Section FlightOptionsFacts.

Variable grand_total_text : Flight -> string.
Variable aircraft_code : Segment -> string.
Variables (show_cabin_class show_seat_availability show_price show_airline : bool).

Lemma slice_to_shown {A} (xs : list A) (limit : Limit) :
  slice_to xs (match limit with
               | Count n => Z.min n (Z.of_nat (List.length xs))
               | ALL => Z.of_nat (List.length xs)
               end)
  = firstn (shown limit (List.length xs)) xs.
Proof.
  unfold slice_to, shown. destruct limit as [|n].
  - assert (E : (Z.of_nat (List.length xs) <? 0) = false) by (apply Z.ltb_ge; lia).
    rewrite E, Nat2Z.id. reflexivity.
  - destruct (n <? 0) eqn:N.
    + apply Z.ltb_lt in N.
      assert (E : Z.min n (Z.of_nat (List.length xs)) = n) by lia.
      rewrite E. apply Z.ltb_lt in N. rewrite N. reflexivity.
    + apply Z.ltb_ge in N.
      assert (E : (Z.min n (Z.of_nat (List.length xs)) <? 0) = false)
        by (apply Z.ltb_ge; lia).
      rewrite E. f_equal. rewrite Z2Nat.inj_min, Nat2Z.id. reflexivity.
Qed.

Lemma show_segment_step (flight : Flight) (segments_info : list SegmentDetails)
    (segment : Segment) :
  show_segment aircraft_code show_cabin_class flight segments_info segment
  = (lines_of aircraft_code show_cabin_class flight segment,
     Ok (segments_info ++ [details_of aircraft_code show_cabin_class flight segment])%list).
Proof. unfold show_segment, lines_of, details_of. destruct show_cabin_class; reflexivity. Qed.

Lemma fold_left_snoc_map {A B} (g : A -> B) (xs : list A) (acc : list B) :
  fold_left (fun acc x => (acc ++ [g x])%list) xs acc = (acc ++ map g xs)%list.
Proof.
  revert acc. induction xs as [|x xs IH]; intro acc; simpl.
  - rewrite app_nil_r. reflexivity.
  - rewrite IH, <- app_assoc. reflexivity.
Qed.

Lemma show_segments_run (flight : Flight) :
  for_each (itineraries flight)
    (fun segments_info itinerary =>
       for_each (segments itinerary)
                (show_segment aircraft_code show_cabin_class flight) segments_info)
    []
  = (flat_map (lines_of aircraft_code show_cabin_class flight) (offer_segments flight),
     Ok (map (details_of aircraft_code show_cabin_class flight) (offer_segments flight))).
Proof.
  rewrite (for_each_prints
             (fun itinerary =>
                flat_map (lines_of aircraft_code show_cabin_class flight) (segments itinerary))
             (fun segments_info itinerary =>
                (segments_info
                 ++ map (details_of aircraft_code show_cabin_class flight)
                        (segments itinerary))%list)).
  - unfold offer_segments. f_equal.
    + induction (itineraries flight) as [|it its IH]; [reflexivity|].
      cbn [flat_map]. rewrite flat_map_app, IH. reflexivity.
    + f_equal.
      assert (G : forall its acc,
                 fold_left
                   (fun segments_info itinerary =>
                      (segments_info
                       ++ map (details_of aircraft_code show_cabin_class flight)
                              (segments itinerary))%list)
                   its acc
                 = (acc ++ map (details_of aircraft_code show_cabin_class flight)
                               (flat_map segments its))%list).
      { induction its as [|it its IH]; intro acc.
        - simpl. rewrite app_nil_r. reflexivity.
        - cbn [fold_left flat_map]. rewrite IH, map_app, app_assoc. reflexivity. }
      exact (G (itineraries flight) []).
  - intros st it.
    rewrite (for_each_prints (lines_of aircraft_code show_cabin_class flight)
               (fun segments_info segment =>
                  (segments_info
                   ++ [details_of aircraft_code show_cabin_class flight segment])%list)).
    + rewrite fold_left_snoc_map. reflexivity.
    + intros st' x. apply show_segment_step.
Qed.

Lemma seat_information_answered post table (flight : Flight) :
  (show_seat_availability = true -> answers post flight (table flight)) ->
  seat_information (get_seat_map post) show_seat_availability flight
  = ((if show_seat_availability then error_lines (table flight) else []),
     Ok (if show_seat_availability
         then (seat_text (table flight), Some (seat_text (table flight)))
         else ("", None))).
Proof.
  intro H. unfold seat_information. destruct show_seat_availability; [|reflexivity].
  specialize (H eq_refl).
  rewrite (get_seat_map_answers post flight (table flight) H), bind_printed.
  destruct (table flight) as [r|body|status body];
    cbn [seatmap_data_of seat_text error_lines].
  - rewrite truthy_encode, count_seats_expected. reflexivity.
  - destruct H as (_ & _ & Hfalse). rewrite Hfalse. reflexivity.
  - reflexivity.
Qed.

Lemma show_option_step post table (idx : Z) (flight_options : list OptionInfo)
    (flight : Flight) :
  (show_airline = true -> validatingAirlineCodes flight <> []) ->
  (show_seat_availability = true -> answers post flight (table flight)) ->
  show_option (get_seat_map post) grand_total_text aircraft_code
    show_cabin_class show_seat_availability show_price show_airline
    (idx, flight_options) flight
  = (expected_lines grand_total_text aircraft_code show_cabin_class
       show_seat_availability show_price show_airline table (idx + 1) flight,
     Ok (idx + 1,
         (flight_options
          ++ [expected_option grand_total_text aircraft_code show_cabin_class
                show_seat_availability show_price show_airline table (idx + 1) flight])%list)).
Proof.
  intros Hc Hs. unfold show_option.
  rewrite (seat_information_answered post table flight Hs), bind_printed. cbv zeta.
  rewrite show_segments_run.
  unfold expected_lines, expected_option, option_text, price_text.
  destruct show_airline.
  - destruct (validatingAirlineCodes flight) as [|code others];
      [contradiction (Hc eq_refl); reflexivity|].
    destruct show_seat_availability, show_price; reflexivity.
  - destruct show_seat_availability, show_price; reflexivity.
Qed.

Lemma show_options_run post table (flights : list Flight) (idx : Z)
    (flight_options : list OptionInfo) :
  (show_airline = true -> Forall (fun f => validatingAirlineCodes f <> []) flights) ->
  (show_seat_availability = true ->
   Forall (fun f => answers post f (table f)) flights) ->
  for_each flights
    (show_option (get_seat_map post) grand_total_text aircraft_code
       show_cabin_class show_seat_availability show_price show_airline)
    (idx, flight_options)
  = (expected_output grand_total_text aircraft_code show_cabin_class
       show_seat_availability show_price show_airline table (idx + 1) flights,
     Ok (idx + Z.of_nat (List.length flights),
         (flight_options
          ++ expected_options grand_total_text aircraft_code show_cabin_class
               show_seat_availability show_price show_airline table (idx + 1) flights)%list)).
Proof.
  revert idx flight_options. induction flights as [|f fs IH]; intros idx opts Hc Hs.
  - cbn [for_each List.length expected_output expected_options]. unfold ret.
    rewrite app_nil_r. f_equal. f_equal. f_equal. simpl. lia.
  - cbn [for_each expected_output expected_options].
    rewrite (show_option_step post table idx opts f).
    + rewrite bind_printed, IH.
      * cbn [fst snd List.length]. rewrite <- app_assoc. f_equal. f_equal. f_equal. lia.
      * intro Ha. specialize (Hc Ha). inversion Hc; assumption.
      * intro Ha. specialize (Hs Ha). inversion Hs; assumption.
    + intro Ha. specialize (Hc Ha). inversion Hc; assumption.
    + intro Ha. specialize (Hs Ha). inversion Hs; assumption.
Qed.

Lemma expected_options_length table (n : Z) (flights : list Flight) :
  List.length (expected_options grand_total_text aircraft_code show_cabin_class
                 show_seat_availability show_price show_airline table n flights)
  = List.length flights.
Proof.
  revert n. induction flights as [|f fs IH]; intro n; [reflexivity|].
  cbn [expected_options List.length]. rewrite IH. reflexivity.
Qed.

(** X20.  [display_flight_options] over [get_seat_map], on a list of
    offers that is not empty.  The offers the limit lets through are the
    first ones, in order: all of them for ["ALL"], the first [n] for a
    limit [n] that is not negative, and all but the last [-n] for a
    negative one.  Where these name an airline if the airline is to be
    shown, and the service answers each of them with status 200 and a
    well-shaped seat map, with status 200 and a body Python takes for
    false, or with another status if the seats are to be shown, the call
    prints the lines of each of these offers and returns one dictionary for
    each, numbered from 1.  The dictionary holds the seat text and the
    option text with the number; the first airline code and the price text
    (the grand total and the currency), each when asked for; and for every
    segment of every itinerary the two airport codes, the two times, the
    carrier, the aircraft, the number of bookable seats of the offer, and
    the cabin of the segment when asked for.  The lines are, in order: the
    error line of [get_seat_map] after another status, the option text,
    the airline and the price when asked for, the lines of each segment,
    and a rule. *)
Theorem display_flight_options_returns post table (flights : list Flight)
    (limit : Limit) :
  flights <> [] ->
  (show_airline = true ->
   Forall (fun f => validatingAirlineCodes f <> []) (chosen limit flights)) ->
  (show_seat_availability = true ->
   Forall (fun f => answers post f (table f)) (chosen limit flights)) ->
  display_flight_options (get_seat_map post) grand_total_text aircraft_code
    show_cabin_class show_seat_availability show_price show_airline flights limit
  = (expected_output grand_total_text aircraft_code show_cabin_class
       show_seat_availability show_price show_airline table 1 (chosen limit flights),
     Ok (expected_options grand_total_text aircraft_code show_cabin_class
           show_seat_availability show_price show_airline table 1
           (chosen limit flights))) /\
  List.length (chosen limit flights) = shown limit (List.length flights).
Proof.
  intros Hne Hc Hs. split.
  - unfold display_flight_options.
    destruct flights as [|f fs]; [contradiction|]. cbv zeta.
    rewrite slice_to_shown. fold (chosen limit (f :: fs)).
    rewrite (show_options_run post table (chosen limit (f :: fs)) 0 [] Hc Hs), bind_printed.
    cbn [fst snd ret app]. rewrite app_nil_r. reflexivity.
  - unfold chosen. rewrite length_firstn.
    unfold shown. destruct limit as [|k]; [apply Nat.min_id|].
    destruct (k <? 0) eqn:K; lia.
Qed.

End FlightOptionsFacts.

Lemma display_flight_options_returns_witness :
  exists lines options,
    display_flight_options (get_seat_map seat_post) (fun _ => "100.00") (fun _ => "320")
      true true true true three_offers (Count (-1))
    = (lines, Ok options) /\
    map info_option options
    = ["Option 1: 15/30 seats available"; "Option 2: Seat map data not available"] /\
    map info_price options = [Some "100.00 EUR"; Some "100.00 EUR"] /\
    map info_airline options = [Some "AF"; Some "5O"] /\
    firstn 3 lines
    = [ "Option 1: 15/30 seats available"; "  Airline: AF"; "  Price: 100.00 EUR" ].
Proof.
  destruct (display_flight_options_returns (fun _ => "100.00") (fun _ => "320")
              true true true true seat_post seat_table three_offers (Count (-1)))
    as [H _].
  - discriminate.
  - intros _. repeat constructor; discriminate.
  - intros _. repeat constructor; discriminate.
  - eexists. eexists. split; [exact H|]. repeat split.
Defined.

Lemma for_each_ext {A S} (xs : list A) (body body' : S -> A -> M S) (acc : S) :
  (forall st x, body st x = body' st x) ->
  for_each xs body acc = for_each xs body' acc.
Proof.
  intro H. revert acc. induction xs as [|x xs IH]; intro acc.
  - reflexivity.
  - cbn [for_each]. rewrite H. apply bind_ext. exact IH.
Qed.

(** X21.  Without seat availability, [display_flight_options] does not
    ask for seat maps: it prints and returns the same whatever the seat-map
    service would answer. *)
Theorem display_flight_options_without_seats
    (get_seat_map get_seat_map' : Flight -> M value)
    (grand_total_text : Flight -> string) (aircraft_code : Segment -> string)
    (show_cabin_class show_price show_airline : bool)
    (flights : list Flight) (limit : Limit) :
  display_flight_options get_seat_map grand_total_text aircraft_code
    show_cabin_class false show_price show_airline flights limit
  = display_flight_options get_seat_map' grand_total_text aircraft_code
      show_cabin_class false show_price show_airline flights limit.
Proof.
  unfold display_flight_options. destruct flights as [|f fs]; [reflexivity|].
  cbv zeta. apply (f_equal (fun m => bind m (fun st => ret (snd st)))).
  apply for_each_ext. intros [idx options] flight. reflexivity.
Qed.

(** X22.  [get_airport_coordinates] on the answers of the geocoding
    service: from a list of places it takes the latitude and longitude of
    the first; for an empty list it prints that the airport was not found
    and returns [None]; an answer without [results] makes it raise
    [KeyError]. *)
Theorem get_airport_coordinates_outcomes (geocode : string -> value) (iata_code : string) :
  (forall lat lng more_geometry more_place places other,
      geocode iata_code
      = VDict (("results",
                VList (VDict (("geometry",
                               VDict (("lat", lat) :: ("lng", lng) :: more_geometry))
                              :: more_place)
                       :: places))
               :: other) ->
      get_airport_coordinates geocode iata_code = ([], Ok (Some (lat, lng)))) /\
  (forall other,
      geocode iata_code = VDict (("results", VList []) :: other) ->
      get_airport_coordinates geocode iata_code
      = ([coordinates_not_found iata_code], Ok None)) /\
  (forall fields,
      geocode iata_code = VDict fields -> lookup "results" fields = None ->
      get_airport_coordinates geocode iata_code = ([], Raise KeyError)).
Proof.
  split; [|split].
  - intros lat lng mg mp places other H. unfold get_airport_coordinates.
    rewrite H, subscript_head, bind_lift_Ok. cbn [truthy subscript0].
    rewrite bind_lift_Ok, subscript_head, bind_lift_Ok, subscript_head, bind_lift_Ok.
    reflexivity.
  - intros other H. unfold get_airport_coordinates.
    rewrite H, subscript_head, bind_lift_Ok. reflexivity.
  - intros fields H Hl. unfold get_airport_coordinates.
    rewrite H. unfold subscript. rewrite Hl. reflexivity.
Qed.

Lemma get_airport_coordinates_outcomes_witness :
  get_airport_coordinates Atlas.geocode "CDG"
  = ([], Ok (Some (VFloat (490097 # 10000), VFloat (25479 # 10000)))) /\
  get_airport_coordinates Atlas.geocode "ORY" = ([coordinates_not_found "ORY"], Ok None) /\
  get_airport_coordinates (fun _ => VDict [("status", VInt 402)]) "CDG"
  = ([], Raise KeyError).
Proof.
  split; [|split].
  - apply (proj1 (get_airport_coordinates_outcomes Atlas.geocode "CDG")
             _ _ [] [] [] []). reflexivity.
  - apply (proj1 (proj2 (get_airport_coordinates_outcomes Atlas.geocode "ORY")) []).
    reflexivity.
  - apply (proj2 (proj2 (get_airport_coordinates_outcomes
                           (fun _ => VDict [("status", VInt 402)]) "CDG"))
             [("status", VInt 402)]); reflexivity.
Defined.

Lemma airline_aggregations_raise_witness :
  Exists (fun f => validatingAirlineCodes f = []) [economy_only; no_airline] /\
  calculate_statistics [economy_only; no_airline] = Raise IndexError /\
  calculate_average_price_by_airline [economy_only; no_airline] = Raise IndexError.
Proof.
  assert (H : Exists (fun f => validatingAirlineCodes f = []) [economy_only; no_airline])
    by (right; left; reflexivity).
  split; [exact H|].
  destruct (airline_aggregations_raise [economy_only; no_airline]) as [H1 H2].
  split; [apply H1; exact H | apply H2; exact H].
Defined.

Lemma compare_cabins_cheapest_witness :
  quotes "ECONOMY" two_quotes <> [] /\
  exists cabin_comparison m,
    compare_cabins [two_quotes] = [cabin_comparison] /\
    dict_get "ECONOMY" cabin_comparison = Some m /\
    least_of (quotes "ECONOMY" two_quotes) m.
Proof.
  assert (Q : quotes "ECONOMY" two_quotes <> []) by discriminate.
  split; [exact Q|].
  pose proof (compare_cabins_cheapest [two_quotes]) as H.
  assert (E : compare_cabins [two_quotes] = [cabin_comparison_of two_quotes])
    by reflexivity.
  rewrite E in H. inversion H as [|f c fs cs Hc Hrest]; subst.
  destruct (proj2 (Hc "ECONOMY") Q) as (m & Hm & Hleast).
  exists (cabin_comparison_of two_quotes), m.
  split; [exact E|]. split; [exact Hm|exact Hleast].
Defined.

Lemma top_10_flights_cheapest_witness :
  List.length (top_10_flights three_offers) = Nat.min 10 (List.length three_offers) /\
  Sorted no_dearer (top_10_flights three_offers).
Proof.
  destruct (top_10_flights_cheapest three_offers) as (H1 & H2 & _).
  split; assumption.
Defined.
